(** * Trading knowledge retrieval engine: a shallow embedding

    The development follows [trading_retrieval_system.py]:
    the class [TradingKnowledgeRetriever] with its construction, index
    build, persistence and the three retrieval methods.  What the program
    takes from outside (the embedding provider, the FAISS nearest-neighbour
    search, the BM25 term weights, the checks of the text splitter's
    constructor, the order in which the thread pool completes its files,
    MD5 and the wall clock) is collected in the class [Externals]; a PDF
    is represented by the chunks the chunker makes of it; everything the
    repository itself writes is a definition below.  Methods run in a
    small state-and-exception monad over the retriever object, the file
    system and the clock. *)

From Stdlib Require Import ZArith Lia Sorted Permutation.
From stdpp Require Import base option list sorting gmap strings pretty.

Open Scope Z_scope.

(** ** Python primitives used by the source *)

Module Py.

(** [l[:k]] for a signed [k]: a negative bound counts from the end. *)
Definition slice_to {A : Type} (l : list A) (k : Z) : list A :=
  if 0 <=? k then take (Z.to_nat k) l
  else take (Z.to_nat (Z.of_nat (length l) + k)) l.

(** [l[-k:]]: the start index is [-k]; a negative start counts from the
    end and is clamped at the front, so [l[-0:]] is the whole list. *)
Definition slice_last {A : Type} (l : list A) (k : Z) : list A :=
  let start := - k in
  if start <? 0 then drop (Z.to_nat (Z.of_nat (length l) + start)) l
  else drop (Z.to_nat start) l.

(** [l[::-1]] *)
Definition reversed {A : Type} (l : list A) : list A := reverse l.

(** [k or default] on an optional integer: [None] and [0] are falsy. *)
Definition int_or (k : option Z) (default : Z) : Z :=
  match k with
  | Some z => if z =? 0 then default else z
  | None => default
  end.

(** Truthiness of a [str]. *)
Definition str_truthy (s : string) : bool :=
  match s with EmptyString => false | _ => true end.

(** Truthiness of an optional [str] ([None] and [""] are falsy). *)
Definition opt_str_truthy (s : option string) : bool :=
  match s with Some s => str_truthy s | None => false end.

(** Truthiness of a list. *)
Definition list_truthy {A : Type} (l : list A) : bool :=
  match l with [] => false | _ => true end.

(** Truthiness of a [dict]: the empty dictionary is falsy. *)
Definition dict_truthy {V : Type} (d : gmap string V) : bool :=
  negb (bool_decide (dom d = (∅ : gset string))).

(** [needle in hay] on strings. *)
Fixpoint str_contains (needle hay : string) : bool :=
  match hay with
  | EmptyString => String.prefix needle EmptyString
  | String _ rest => String.prefix needle hay || str_contains needle rest
  end.

(** White space as [str.split()] and [str.strip()] see it, among the
    first 256 code points: the ASCII separators, NEL and the no-break
    space. *)
Definition is_space (c : Ascii.ascii) : bool :=
  let n := Ascii.nat_of_ascii c in
  ((9 <=? n)%nat && (n <=? 13)%nat) || ((28 <=? n)%nat && (n <=? 32)%nat)
  || (n =? 133)%nat || (n =? 160)%nat.

Fixpoint split_go (tok : string) (s : string) : list string :=
  match s with
  | EmptyString => if str_truthy tok then [tok] else []
  | String c rest =>
      if is_space c
      then (if str_truthy tok then tok :: split_go EmptyString rest
            else split_go EmptyString rest)
      else split_go (tok +:+ String c EmptyString) rest
  end.

(** [s.split()]: maximal runs of non-space characters. *)
Definition split (s : string) : list string := split_go EmptyString s.

End Py.

(** ** numpy *)

Module Np.

(** Insertion of an (index, key) pair in front of the first element whose
    key is not smaller: elements with equal keys keep their order. *)
Fixpoint insert (x : nat * Z) (l : list (nat * Z)) : list (nat * Z) :=
  match l with
  | [] => [x]
  | y :: l' => if x.2 <=? y.2 then x :: l else y :: insert x l'
  end.

Definition isort (l : list (nat * Z)) : list (nat * Z) :=
  foldr insert [] l.

Definition enumerate (a : list Z) : list (nat * Z) :=
  zip (seq 0 (length a)) a.

(** [np.argsort(a)]: the indices of [a] in ascending order of key.
    numpy sorts short arrays by insertion, which leaves equal keys in
    index order; that order is what is modelled here. *)
Definition argsort (a : list Z) : list nat := (isort (enumerate a)).*1.

(** Ascending order on (index, key) pairs: by key, then by index. *)
Definition plt (x y : nat * Z) : Prop :=
  x.2 < y.2 \/ (x.2 = y.2 /\ (x.1 < y.1)%nat).

(** Index [i] ranks above index [j] in [scores]: its score is higher,
    or the scores are equal and [i] is the later index. *)
Definition outranks (scores : list Z) (i j : nat) : Prop :=
  exists si sj, scores !! i = Some si /\ scores !! j = Some sj /\
                (sj < si \/ (sj = si /\ (j < i)%nat)).

End Np.

(** ** Data model *)

(** A chunk: [langchain]'s [Document]. *)
Record Document := {
  page_content : string;
  metadata : list (string * string)
}.

Record RetrievalConfig := {
  embedding_model : string;
  base_url : option string;
  chunk_size : Z;
  chunk_overlap : Z;
  top_k_retrieval : Z;
  pdf_folder : string;
  faiss_index_path : string;
  bm25_data_path : string;
  max_workers : Z;
  batch_size : Z;
  similarity_threshold : Z;
  enable_caching : bool;
  cache_ttl : Z
}.

(** The dataclass defaults. *)
Definition RetrievalConfig_default : RetrievalConfig := {|
  embedding_model := "text-embedding-3-small";
  base_url := None;
  chunk_size := 1000;
  chunk_overlap := 200;
  top_k_retrieval := 5;
  pdf_folder := "TradingKB";
  faiss_index_path := "faiss_index";
  bm25_data_path := "bm25_data.pkl";
  max_workers := 4;
  batch_size := 10;
  similarity_threshold := 0;
  enable_caching := true;
  cache_ttl := 3600
|}.

(** Scores and times are numbers that the source only compares, subtracts
    and copies; they are integers here. *)
Record RetrievalResult := {
  res_documents : list Document;
  res_scores : list Z;
  res_retrieval_time : Z;
  res_method_used : string;
  res_query_hash : string;
  res_total_candidates : nat
}.

(** A value of [query_cache]: [{"result": ..., "timestamp": ...}]. *)
Record CacheEntry := {
  entry_result : RetrievalResult;
  entry_timestamp : Z
}.

(** Exceptions; an exception of the embedding provider carries [str(e)]. *)
Inductive exn :=
| ValueError (msg : string)
| FileNotFoundError (msg : string)
| IndexError
| AttributeError
| ZeroDivisionError
| OSError
| RuntimeError
| UnpicklingError
| KeyError (key : string)
| AssertionError
| ProviderError (msg : string).

(** The message of line 432. *)
Definition UnknownMethodError (method : string) : exn :=
  ValueError ("Unknown retrieval method: " +:+ method).

(** The message of line 411. *)
Definition NotLoadedError : exn :=
  ValueError
    "Retrieval system not loaded. Please build or load the system first.".

(** [str(e)] *)
Definition exn_str (e : exn) : string :=
  match e with
  | ValueError m | FileNotFoundError m | ProviderError m => m
  | IndexError => "list index out of range"
  | AttributeError => "'NoneType' object has no attribute 'embed_query'"
  | ZeroDivisionError => "division by zero"
  | OSError => "Read-only file system"
  | RuntimeError => "could not read index"
  | UnpicklingError => "invalid load key"
  | KeyError k => k
  | AssertionError => ""
  end.

(** An [OpenAIEmbeddings] client is its keyword arguments. *)
Record Embeddings := {
  model : string;
  openai_api_key : string;
  openai_api_base : option string
}.

Definition Vector := list Z.

(** A [FAISS] vector store: the embedding client it was given and the
    chunks with their vectors, in insertion order. *)
Record FAISS := {
  embedding_function : option Embeddings;
  docstore : list (Document * Vector)
}.

(** A [BM25Okapi] object: what its constructor keeps of the corpus. *)
Record BM25Okapi := {
  corpus_size : nat;
  doc_len : list nat;
  doc_freqs : list (gmap string nat)
}.

Record TradingKnowledgeRetriever := {
  config : RetrievalConfig;
  embeddings : option Embeddings;
  vector_store : option FAISS;
  bm25 : option BM25Okapi;
  documents : list Document;
  query_cache : option (gmap string CacheEntry)
}.

(** ** The file system *)

(** A file that exists either unpickles to a value or fails to. *)
Inductive file (A : Type) :=
| Corrupt
| Stored (a : A).
Arguments Corrupt {A}.
Arguments Stored {A} a.

(** The dictionary pickled by [_save_indices]; a key may be absent in a
    file written by something else, and a value that is present has the
    type [_save_indices] gives it. *)
Record Pickle := {
  pk_bm25 : option (option BM25Okapi);
  pk_documents : option (list Document);
  pk_config : option RetrievalConfig
}.

(** A PDF file is represented by the chunks [process_single_pdf] makes
    of it (none when extraction fails). *)
Record Disk := {
  folders : gmap string (list (list Document));
  faiss_files : gmap string (file (list (Document * Vector)));
  pickle_files : gmap string (file Pickle);
  read_only : bool
}.

(** ** The world a method runs in, and the monad of methods *)

Record World := {
  self : TradingKnowledgeRetriever;
  disk : Disk;
  ticks : nat
}.

(** A method either returns or raises, and in both cases leaves a world
    behind: assignments made before a [raise] stay. *)
Definition M (A : Type) : Type := World -> (exn + A) * World.

Definition ret {A : Type} (a : A) : M A := fun w => (inr a, w).

Definition raise {A : Type} (e : exn) : M A := fun w => (inl e, w).

Definition bind {A B : Type} (m : M A) (f : A -> M B) : M B :=
  fun w =>
    match m w with
    | (inr a, w') => f a w'
    | (inl e, w') => (inl e, w')
    end.

(** [try: m except Exception as e: h e] *)
Definition try_except {A : Type} (m : M A) (h : exn -> M A) : M A :=
  fun w =>
    match m w with
    | (inr a, w') => (inr a, w')
    | (inl e, w') => h e w'
    end.

(** A result of a call that does not touch the world. *)
Definition lift {A : Type} (r : exn + A) : M A := fun w => (r, w).

Definition get_self : M TradingKnowledgeRetriever :=
  fun w => (inr (self w), w).

Definition set_self (s : TradingKnowledgeRetriever) : M unit :=
  fun w => (inr tt, {| self := s; disk := disk w; ticks := ticks w |}).

(** The world after one more reading of the clock. *)
Definition tick (w : World) : World :=
  {| self := self w; disk := disk w; ticks := S (ticks w) |}.

Definition get_disk : M Disk := fun w => (inr (disk w), w).

Definition set_disk (d : Disk) : M unit :=
  fun w => (inr tt, {| self := self w; disk := d; ticks := ticks w |}).

Declare Scope py_scope.
Delimit Scope py_scope with py.
Notation "x <- m ;; k" := (bind m (fun x => k))
  (at level 100, m at next level, right associativity) : py_scope.
Notation "m ;;; k" := (bind m (fun _ => k))
  (at level 100, right associativity) : py_scope.

Notation "x <-! r ;; k" :=
  (match r with inl e => inl e | inr x => k end)
  (at level 100, r at next level, right associativity) : py_scope.

Open Scope py_scope.

(** ** What the program takes from outside *)

Class Externals := {
  (** [hashlib.md5(s.encode()).hexdigest()] *)
  md5 : string -> string;
  (** the successive readings of [time.time()] *)
  clock : nat -> Z;
  (** [os.getenv("OPENAI_API_KEY")] *)
  getenv_OPENAI_API_KEY : option string;
  (** the message of the exception, if any, that constructing an
      [OpenAIEmbeddings] client from its keyword arguments raises *)
  OpenAIEmbeddings_error : Embeddings -> option string;
  (** one call of the embedding provider through a client: the vector, or
      the message of the exception it raises *)
  provider : Embeddings -> string -> string + Vector;
  (** nearest-neighbour search of the FAISS index: the hits for a query
      vector and a requested count, best first, with their distances *)
  faiss_search : list (Document * Vector) -> Vector -> Z -> list (Document * Z);
  (** the BM25 score of the corpus entry at an index for a token list *)
  bm25_score : BM25Okapi -> list string -> nat -> Z;
  (** the message of the [ValueError], if any, that constructing a
      [RecursiveCharacterTextSplitter] with a chunk size and a chunk overlap
      raises *)
  TextSplitter_error : Z -> Z -> option string;
  (** whatever else the library checks, it refuses an overlap larger than
      the chunk size *)
  TextSplitter_overlap :
    forall chunk_size chunk_overlap,
      chunk_size < chunk_overlap ->
      TextSplitter_error chunk_size chunk_overlap <> None;
  (** the order in which the thread pool completes the files it was given
      (each file stands for its chunks): some rearrangement of them *)
  completion_order : list (list Document) -> list (list Document);
  completion_order_Permutation :
    forall files, completion_order files ≡ₚ files
}.

(** The same surroundings with another embedding provider. *)
Definition with_provider `{X : Externals}
    (p : Embeddings -> string -> string + Vector) : Externals :=
  {| md5 := @md5 X;
     clock := @clock X;
     getenv_OPENAI_API_KEY := @getenv_OPENAI_API_KEY X;
     OpenAIEmbeddings_error := @OpenAIEmbeddings_error X;
     provider := p;
     faiss_search := @faiss_search X;
     bm25_score := @bm25_score X;
     TextSplitter_error := @TextSplitter_error X;
     TextSplitter_overlap := @TextSplitter_overlap X;
     completion_order := @completion_order X;
     completion_order_Permutation := @completion_order_Permutation X |}.

Section Engine.

Context `{Externals}.

Definition time_time : M Z := fun w => (inr (clock (ticks w)), tick w).

(** *** Attribute assignments on [self] *)

Definition set_embeddings (e : Embeddings) : M unit :=
  s <- get_self ;;
  set_self {| config := config s; embeddings := Some e;
              vector_store := vector_store s; bm25 := bm25 s;
              documents := documents s; query_cache := query_cache s |}.

Definition set_vector_store (vs : FAISS) : M unit :=
  s <- get_self ;;
  set_self {| config := config s; embeddings := embeddings s;
              vector_store := Some vs; bm25 := bm25 s;
              documents := documents s; query_cache := query_cache s |}.

Definition set_bm25 (b : option BM25Okapi) : M unit :=
  s <- get_self ;;
  set_self {| config := config s; embeddings := embeddings s;
              vector_store := vector_store s; bm25 := b;
              documents := documents s; query_cache := query_cache s |}.

Definition set_documents (ds : list Document) : M unit :=
  s <- get_self ;;
  set_self {| config := config s; embeddings := embeddings s;
              vector_store := vector_store s; bm25 := bm25 s;
              documents := ds; query_cache := query_cache s |}.

Definition set_query_cache (c : gmap string CacheEntry) : M unit :=
  s <- get_self ;;
  set_self {| config := config s; embeddings := embeddings s;
              vector_store := vector_store s; bm25 := bm25 s;
              documents := documents s; query_cache := Some c |}.

(** *** Construction *)

Definition OpenAIEmbeddings (kwargs : Embeddings) : M Embeddings :=
  match OpenAIEmbeddings_error kwargs with
  | Some msg => raise (ProviderError msg)
  | None => ret kwargs
  end.

(** [embeddings.embed_query(text)] *)
Definition embed_query (e : Embeddings) (text : string) : exn + Vector :=
  match provider e text with
  | inl msg => inl (ProviderError msg)
  | inr v => inr v
  end.

(** The condition of line 198. *)
Definition access_denied (test_error : exn) : bool :=
  Py.str_contains "403" (exn_str test_error)
  || Py.str_contains "Forbidden" (exn_str test_error).

(** The keyword arguments of lines 177-184: the endpoint override is
    passed on only when it is a non-empty string. *)
Definition embedding_kwargs (cfg : RetrievalConfig) (api_key : string)
    : Embeddings :=
  {| model := embedding_model cfg;
     openai_api_key := api_key;
     openai_api_base :=
       if Py.opt_str_truthy (base_url cfg) then base_url cfg else None |}.

(** The keyword arguments of lines 201-205: no endpoint override. *)
Definition fallback_kwargs (cfg : RetrievalConfig) (api_key : string)
    : Embeddings :=
  {| model := embedding_model cfg;
     openai_api_key := api_key;
     openai_api_base := None |}.

Definition _initialize_embeddings : M unit :=
  try_except
    (let api_key := getenv_OPENAI_API_KEY in
     if negb (Py.opt_str_truthy api_key)
     then raise (ValueError "OPENAI_API_KEY environment variable not set")
     else
       let api_key := default EmptyString api_key in
       s <- get_self ;;
       e <- OpenAIEmbeddings (embedding_kwargs (config s) api_key) ;;
       set_embeddings e ;;;
       try_except
         (test_embedding <- lift (embed_query e "test") ;;
          if Py.list_truthy test_embedding
             && (0 <? Z.of_nat (length test_embedding))
          then ret tt
          else raise (ValueError "Embeddings API returned empty result"))
         (fun test_error =>
            if access_denied test_error
            then
              e' <- OpenAIEmbeddings (fallback_kwargs (config s) api_key) ;;
              set_embeddings e'
            else raise test_error))
    (fun e => raise e).

(** [TradingKnowledgeRetriever.__init__]: the fresh object replaces
    [self]; when the method raises, no instance is handed out. *)
Definition TradingKnowledgeRetriever_init
    (config : option RetrievalConfig) : M unit :=
  let config := default RetrievalConfig_default config in
  set_self {| config := config; embeddings := None; vector_store := None;
              bm25 := None; documents := [];
              query_cache :=
                if enable_caching config then Some ∅ else None |} ;;;
  _initialize_embeddings.

(** *** Index build *)

Definition _validate_pdf_folder (pdf_folder : string) : M string :=
  d <- get_disk ;;
  match folders d !! pdf_folder with
  | None => raise (FileNotFoundError ("PDF folder not found: " +:+ pdf_folder))
  | Some pdf_files =>
      if negb (Py.list_truthy pdf_files)
      then raise (ValueError ("No PDF files found in " +:+ pdf_folder))
      else ret pdf_folder
  end.

(** [RecursiveCharacterTextSplitter(chunk_size=..., chunk_overlap=...)]:
    the constructor checks its two numbers. *)
Definition RecursiveCharacterTextSplitter_new (chunk_size chunk_overlap : Z)
    : M unit :=
  match TextSplitter_error chunk_size chunk_overlap with
  | Some msg => raise (ValueError msg)
  | None => ret tt
  end.

(** [ThreadPoolExecutor(max_workers=...)] *)
Definition ThreadPoolExecutor_new (max_workers : Z) : M unit :=
  if max_workers <=? 0
  then raise (ValueError "max_workers must be greater than 0")
  else ret tt.

(** The splitter and the thread pool are made from the configuration
    (lines 278-290), then the chunks of every PDF of the folder are
    collected, file after file in the order in which the pool completes
    them. *)
Definition _load_and_chunk_documents (folder_path : string)
    : M (list Document) :=
  s <- get_self ;;
  RecursiveCharacterTextSplitter_new
    (chunk_size (config s)) (chunk_overlap (config s)) ;;;
  d <- get_disk ;;
  let pdf_files := default [] (folders d !! folder_path) in
  ThreadPoolExecutor_new (max_workers (config s)) ;;;
  ret (concat (completion_order pdf_files)).

(** The configuration passes the checks of the splitter and of the thread
    pool. *)
Definition chunking_accepted (cfg : RetrievalConfig) : Prop :=
  TextSplitter_error (chunk_size cfg) (chunk_overlap cfg) = None /\
  0 < max_workers cfg.

(** [embeddings.embed_documents(texts)]: every text is sent to the
    provider; the first failure is raised. *)
Fixpoint embed_documents (e : Embeddings) (texts : list string)
    : exn + list Vector :=
  match texts with
  | [] => inr []
  | t :: rest =>
      v <-! embed_query e t ;;
      vs <-! embed_documents e rest ;;
      inr (v :: vs)
  end.

(** [FAISS.from_documents(documents, embedding)] *)
Definition FAISS_from_documents
    (docs : list Document) (embedding : option Embeddings) : exn + FAISS :=
  match embedding with
  | None => inl AttributeError
  | Some e =>
      vectors <-! embed_documents e (page_content <$> docs) ;;
      match vectors with
      | [] => inl IndexError
      | _ => inr {| embedding_function := Some e;
                    docstore := zip docs vectors |}
      end
  end.

Definition _build_faiss_index : M Z :=
  start_time <- time_time ;;
  try_except
    (s <- get_self ;;
     vs <- lift (FAISS_from_documents (documents s) (embeddings s)) ;;
     set_vector_store vs ;;;
     now <- time_time ;;
     ret (now - start_time))
    (fun e => raise e).

(** Term frequencies of one tokenized chunk. *)
Definition count_tokens (doc : list string) : gmap string nat :=
  foldl (fun m t => <[t := S (default 0%nat (m !! t))]> m) ∅ doc.

(** [BM25Okapi(tokenized_corpus)]; the average length divides by the
    corpus size. *)
Definition BM25Okapi_new (corpus : list (list string)) : exn + BM25Okapi :=
  match corpus with
  | [] => inl ZeroDivisionError
  | _ => inr {| corpus_size := length corpus;
                doc_len := length <$> corpus;
                doc_freqs := count_tokens <$> corpus |}
  end.

(** [bm25.get_scores(query)]: one score per corpus entry. *)
Definition get_scores (b : BM25Okapi) (query : list string) : list Z :=
  bm25_score b query <$> seq 0 (corpus_size b).

Definition _build_bm25_index : M Z :=
  start_time <- time_time ;;
  try_except
    (s <- get_self ;;
     let tokenized_corpus :=
       (fun doc => Py.split (page_content doc)) <$> documents s in
     b <- lift (BM25Okapi_new tokenized_corpus) ;;
     set_bm25 (Some b) ;;;
     now <- time_time ;;
     ret (now - start_time))
    (fun e => raise e).

Definition _save_indices : M unit :=
  try_except
    (s <- get_self ;;
     d <- get_disk ;;
     match vector_store s with
     | None => raise AttributeError
     | Some vs =>
         if read_only d then raise OSError
         else
           set_disk {| folders := folders d;
                       faiss_files :=
                         <[faiss_index_path (config s) := Stored (docstore vs)]>
                           (faiss_files d);
                       pickle_files := pickle_files d;
                       read_only := read_only d |} ;;;
           d <- get_disk ;;
           set_disk {| folders := folders d;
                       faiss_files := faiss_files d;
                       pickle_files :=
                         <[bm25_data_path (config s) :=
                             Stored {| pk_bm25 := Some (bm25 s);
                                       pk_documents := Some (documents s);
                                       pk_config := Some (config s) |}]>
                           (pickle_files d);
                       read_only := read_only d |}
     end)
    (fun e => raise e).

(** The statistics dictionary, without its floating-point mean. *)
Record BuildStats := {
  total_documents : nat;
  total_build_time : Z;
  faiss_build_time : Z;
  bm25_build_time : Z;
  pdf_files_processed : nat
}.

Definition build_retrieval_system (folder_arg : option string)
    : M BuildStats :=
  start_time <- time_time ;;
  s <- get_self ;;
  let folder :=
    if Py.opt_str_truthy folder_arg then default EmptyString folder_arg
    else pdf_folder (config s) in
  folder_path <- _validate_pdf_folder folder ;;
  docs <- _load_and_chunk_documents folder_path ;;
  if negb (Py.list_truthy docs)
  then raise (ValueError "No documents were successfully processed")
  else
    set_documents docs ;;;
    faiss_time <- _build_faiss_index ;;
    bm25_time <- _build_bm25_index ;;
    _save_indices ;;;
    now <- time_time ;;
    d <- get_disk ;;
    ret {| total_documents := length docs;
           total_build_time := now - start_time;
           faiss_build_time := faiss_time;
           bm25_build_time := bm25_time;
           pdf_files_processed :=
             length (default [] (folders d !! folder_path)) |}.

(** *** Reload *)

Definition load_retrieval_system : M bool :=
  try_except
    (s <- get_self ;;
     d <- get_disk ;;
     match faiss_files d !! faiss_index_path (config s) with
     | None => ret false
     | Some faiss_file =>
         match pickle_files d !! bm25_data_path (config s) with
         | None => ret false
         | Some pickle_file =>
             match faiss_file with
             | Corrupt => raise RuntimeError
             | Stored store =>
                 set_vector_store {| embedding_function := embeddings s;
                                     docstore := store |} ;;;
                 match pickle_file with
                 | Corrupt => raise UnpicklingError
                 | Stored data =>
                     match pk_bm25 data with
                     | None => raise (KeyError "bm25")
                     | Some b =>
                         set_bm25 b ;;;
                         match pk_documents data with
                         | None => raise (KeyError "documents")
                         | Some docs =>
                             (* line 384 takes the length of the list
                                just assigned *)
                             set_documents docs ;;; ret true
                         end
                     end
                 end
             end
         end
     end)
    (fun e => ret false).

(** *** Retrieval *)

(** [vector_store.similarity_search_with_score(query, k=k)]: the query
    is embedded through the store's client, then searched; the search of
    the index starts with [assert k > 0]. *)
Definition similarity_search_with_score
    (vs : FAISS) (query : string) (k : Z) : exn + list (Document * Z) :=
  match embedding_function vs with
  | None => inl AttributeError
  | Some e =>
      v <-! embed_query e query ;;
      if k <=? 0 then inl AssertionError
      else inr (faiss_search (docstore vs) v k)
  end.

(** [vector_store.similarity_search(query, k=k)]: the same hits without
    their distances. *)
Definition similarity_search
    (vs : FAISS) (query : string) (k : Z) : exn + list Document :=
  hits <-! similarity_search_with_score vs query k ;;
  inr (hits.*1).

(** [combined_docs], [combined_scores] and [seen_content] of
    [_hybrid_retrieval]. *)
Record Combined := {
  combined_docs : list Document;
  combined_scores : list Z;
  seen_content : gset string
}.

Definition Combined_empty : Combined :=
  {| combined_docs := []; combined_scores := []; seen_content := ∅ |}.

Definition Combined_add (c : Combined) (doc : Document) (score : Z)
    : Combined :=
  {| combined_docs := combined_docs c ++ [doc];
     combined_scores := combined_scores c ++ [score];
     seen_content := {[md5 (page_content doc)]} ∪ seen_content c |}.

(** The body of the loop of lines 474-479. *)
Definition faiss_step (c : Combined) (hit : Document * Z) : Combined :=
  let content_hash := md5 (page_content hit.1) in
  if decide (content_hash ∈ seen_content c) then c
  else Combined_add c hit.1 hit.2.

(** The loop of lines 482-490, with its [break]. *)
Fixpoint bm25_loop (docs : list Document) (bm25_scores : list Z) (k : Z)
    (top_bm25_indices : list nat) (c : Combined) : exn + Combined :=
  match top_bm25_indices with
  | [] => inr c
  | idx :: rest =>
      if Z.of_nat (length (combined_docs c)) >=? k then inr c
      else
        match docs !! idx with
        | None => inl IndexError
        | Some doc =>
            let content_hash := md5 (page_content doc) in
            if decide (content_hash ∈ seen_content c)
            then bm25_loop docs bm25_scores k rest c
            else
              match bm25_scores !! idx with
              | None => inl IndexError
              | Some score =>
                  bm25_loop docs bm25_scores k rest
                    (Combined_add c doc score)
              end
        end
  end.

(** [np.argsort(scores)[-k:][::-1]] *)
Definition top_indices (scores : list Z) (k : Z) : list nat :=
  Py.reversed (Py.slice_last (Np.argsort scores) k).

Definition _hybrid_retrieval (s : TradingKnowledgeRetriever)
    (query : string) (k : Z) (return_scores : bool)
    : exn + (list Document * list Z) :=
  match vector_store s with
  | None => inl AttributeError
  | Some vs =>
      faiss_docs <-! similarity_search_with_score vs query k ;;
      let tokenized_query := Py.split query in
      match bm25 s with
      | None => inl AttributeError
      | Some b =>
          let bm25_scores := get_scores b tokenized_query in
          let top_bm25_indices := top_indices bm25_scores k in
          let c := foldl faiss_step Combined_empty faiss_docs in
          c <-! bm25_loop (documents s) bm25_scores k top_bm25_indices c ;;
          inr (Py.slice_to (combined_docs c) k,
               if return_scores then Py.slice_to (combined_scores c) k
               else [])
      end
  end.

Definition _faiss_retrieval (s : TradingKnowledgeRetriever)
    (query : string) (k : Z) (return_scores : bool)
    : exn + (list Document * list Z) :=
  match vector_store s with
  | None => inl AttributeError
  | Some vs =>
      if return_scores
      then
        results <-! similarity_search_with_score vs query k ;;
        inr (results.*1, results.*2)
      else
        docs <-! similarity_search vs query k ;;
        inr (docs, [])
  end.

(** [[seq[i] for i in indices]] *)
Fixpoint pick {A : Type} (l : list A) (indices : list nat)
    : exn + list A :=
  match indices with
  | [] => inr []
  | i :: rest =>
      match l !! i with
      | None => inl IndexError
      | Some x => xs <-! pick l rest ;; inr (x :: xs)
      end
  end.

Definition _bm25_retrieval (s : TradingKnowledgeRetriever)
    (query : string) (k : Z) (return_scores : bool)
    : exn + (list Document * list Z) :=
  let tokenized_query := Py.split query in
  match bm25 s with
  | None => inl AttributeError
  | Some b =>
      let scores := get_scores b tokenized_query in
      let top := top_indices scores k in
      docs <-! pick (documents s) top ;;
      doc_scores <-! (if return_scores then pick scores top else inr []) ;;
      inr (docs, doc_scores)
  end.

(** Lines 418-422: the cached result when the cache is a non-empty
    dictionary holding a young enough entry for the hash. *)
Definition check_cache (query_hash : string)
    : M (option RetrievalResult) :=
  s <- get_self ;;
  match query_cache s with
  | None => ret None
  | Some cache =>
      if Py.dict_truthy cache
      then
        match cache !! query_hash with
        | None => ret None
        | Some cached_result =>
            now <- time_time ;;
            if now - entry_timestamp cached_result <? cache_ttl (config s)
            then ret (Some (entry_result cached_result))
            else ret None
        end
      else ret None
  end.

(** Lines 446-450. *)
Definition store_cache (query_hash : string) (result : RetrievalResult)
    : M unit :=
  s <- get_self ;;
  match query_cache s with
  | None => ret tt
  | Some cache =>
      if Py.dict_truthy cache
      then
        now <- time_time ;;
        set_query_cache
          (<[query_hash :=
               {| entry_result := result; entry_timestamp := now |}]> cache)
      else ret tt
  end.

(** The dispatch of lines 425-432. *)
Definition run_method (s : TradingKnowledgeRetriever) (query : string)
    (k : Z) (method : string) (return_scores : bool)
    : exn + (list Document * list Z) :=
  if String.eqb method "hybrid"
  then _hybrid_retrieval s query k return_scores
  else if String.eqb method "faiss"
  then _faiss_retrieval s query k return_scores
  else if String.eqb method "bm25"
  then _bm25_retrieval s query k return_scores
  else inl (UnknownMethodError method).

Definition retrieve_documents (query : string) (k : option Z)
    (method : string) (return_scores : bool) : M RetrievalResult :=
  s <- get_self ;;
  match vector_store s, bm25 s with
  | Some _, Some _ =>
      let k := Py.int_or k (top_k_retrieval (config s)) in
      start_time <- time_time ;;
      let query_hash := md5 query in
      cached <- check_cache query_hash ;;
      match cached with
      | Some result => ret result
      | None =>
          try_except
            (found <- lift (run_method s query k method return_scores) ;;
             now <- time_time ;;
             let retrieval_time := now - start_time in
             let result :=
               {| res_documents := found.1;
                  res_scores := if return_scores then found.2 else [];
                  res_retrieval_time := retrieval_time;
                  res_method_used := method;
                  res_query_hash := query_hash;
                  res_total_candidates := length (documents s) |} in
             store_cache query_hash result ;;;
             ret result)
            (fun e => raise e)
      end
  | _, _ => raise NotLoadedError
  end.

(** *** The states the program can be in *)

(** Both indices are present (the test of line 410 passes). *)
Definition loaded (s : TradingKnowledgeRetriever) : Prop :=
  is_Some (vector_store s) /\ is_Some (bm25 s).

(** The lexical index covers exactly the stored corpus. *)
Definition consistent (s : TradingKnowledgeRetriever) : Prop :=
  forall b, bm25 s = Some b -> corpus_size b = length (documents s).

(** The cache holds nothing: it is disabled or an empty dictionary. *)
Definition cache_unused (s : TradingKnowledgeRetriever) : Prop :=
  query_cache s = None \/ query_cache s = Some ∅.

(** The cache is as [__init__] made it: the empty dictionary when caching
    is enabled, [None] otherwise. *)
Definition cache_as_constructed (s : TradingKnowledgeRetriever) : Prop :=
  query_cache s = if enable_caching (config s) then Some ∅ else None.

(** A method keeps a property of the world, however it ends. *)
Definition preserves {A : Type} (I : World -> Prop) (m : M A) : Prop :=
  forall w, I w -> I (m w).2.

(** Worlds obtained by constructing a retriever and then calling its
    public methods, the file system changing freely in between. *)
Inductive reachable : World -> Prop :=
| reach_init w cfg :
    (TradingKnowledgeRetriever_init cfg w).1 = inr tt ->
    reachable (TradingKnowledgeRetriever_init cfg w).2
| reach_build w folder :
    reachable w -> reachable (build_retrieval_system folder w).2
| reach_load w :
    reachable w -> reachable (load_retrieval_system w).2
| reach_retrieve w query k method return_scores :
    reachable w ->
    reachable (retrieve_documents query k method return_scores w).2
| reach_disk w d :
    reachable w ->
    reachable {| self := self w; disk := d; ticks := ticks w |}.

(** *** The hybrid merge in the words of the specification *)

(** Walk the candidates, appending each one whose content hash has not
    been seen, until [k] are collected or the candidates run out. *)
Fixpoint merge_walk (k : nat) (seen : gset string)
    (candidates : list Document) : list Document :=
  match k, candidates with
  | O, _ => []
  | _, [] => []
  | S k', d :: rest =>
      if decide (md5 (page_content d) ∈ seen)
      then merge_walk k seen rest
      else d :: merge_walk k' ({[md5 (page_content d)]} ∪ seen) rest
  end.

(** Semantic candidates first, then lexical candidates. *)
Definition spec_hybrid_merge (k : nat) (semantic lexical : list Document)
    : list Document :=
  merge_walk k ∅ (semantic ++ lexical).

(** The lexical candidates of a query: the chunks at the top indices. *)
Definition lexical_candidates (s : TradingKnowledgeRetriever)
    (b : BM25Okapi) (query : string) (k : Z) : list Document :=
  omap (fun i => documents s !! i)
       (top_indices (get_scores b (Py.split query)) k).

(** The three recognised methods and the strings that select them. *)
Inductive Method := Hybrid | Semantic | Lexical.

Definition method_name (m : Method) : string :=
  match m with
  | Hybrid => "hybrid"
  | Semantic => "faiss"
  | Lexical => "bm25"
  end.

(** A chunk and a score that belong together: a hit of the semantic
    search, or a corpus chunk with its lexical score. *)
Definition scored_candidate (s : TradingKnowledgeRetriever)
    (query : string) (k : Z) (d : Document) (score : Z) : Prop :=
  (exists vs hits,
      vector_store s = Some vs /\
      similarity_search_with_score vs query k = inr hits /\
      (d, score) ∈ hits) \/
  (exists b i,
      bm25 s = Some b /\
      documents s !! i = Some d /\
      get_scores b (Py.split query) !! i = Some score).

(** The entry for a query that a call made now would still honour. *)
Definition live_entry (s : TradingKnowledgeRetriever) (query : string)
    (now : Z) : option CacheEntry :=
  cache ← query_cache s;
  entry ← cache !! md5 query;
  if now - entry_timestamp entry <? cache_ttl (config s)
  then Some entry else None.

End Engine.

(** ** The rest of the module *)

Module PyStr.

(** [s.lstrip()] *)
Fixpoint lstrip (s : string) : string :=
  match s with
  | EmptyString => EmptyString
  | String c rest => if Py.is_space c then lstrip rest else s
  end.

(** [s.rstrip()] *)
Definition rstrip (s : string) : string :=
  String.rev (lstrip (String.rev s)).

(** [s.strip()] *)
Definition strip (s : string) : string := rstrip (lstrip s).

(** The truth value of [s.strip()]. *)
Definition strip_truthy (s : string) : bool := Py.str_truthy (strip s).

(** [sep.join(parts)] *)
Definition join (sep : string) (parts : list string) : string :=
  String.concat sep parts.

(** [str(n)] for a natural number. *)
Definition str_of_nat (n : nat) : string := pretty n.

(** [str(z)] for an integer. *)
Definition str_of_int (z : Z) : string := pretty z.

(** [d.get(key, default)] on a dictionary kept as its items. *)
Definition dict_get (d : list (string * string)) (key default : string)
    : string :=
  match (list_to_map d : gmap string string) !! key with
  | Some v => v
  | None => default
  end.

End PyStr.

(** A PDF file as [pypdf] and the file system show it: its name, its
    [stat] fields, and either the text of its pages or the exception that
    reading it raises.  A page without text has the empty string. *)
Record PdfFile := {
  pdf_name : string;
  pdf_stem : string;
  st_size : Z;
  st_ctime : Z;
  pdf_pages : exn + list string
}.

(** The dictionary of [get_system_stats], without its floating-point
    mean; the status is "not_loaded" or "loaded". *)
Inductive SystemStats :=
| StatsNotLoaded
| StatsLoaded (total : nat) (cfg : RetrievalConfig) (cache_size : nat)
              (unique_sources : nat) (total_text_length : nat).

Section EngineRest.

Context `{Externals}.

(** [DocumentProcessor.extract_text_from_pdf]; numbers in the metadata are
    written as [str] writes them. *)
Definition extract_text_from_pdf (pdf : PdfFile)
    : string * list (string * string) :=
  match pdf_pages pdf with
  | inl e => (EmptyString,
              [("error", exn_str e); ("filename", pdf_name pdf)]%string)
  | inr pages =>
      let text_parts :=
        filter (fun page_text =>
                  Py.str_truthy page_text && PyStr.strip_truthy page_text = true)
               pages in
      let full_text := PyStr.join (String (Ascii.ascii_of_nat 10) EmptyString)
                         text_parts in
      (full_text,
       [("filename", pdf_name pdf);
        ("file_size", PyStr.str_of_int (st_size pdf));
        ("num_pages", PyStr.str_of_nat (length pages));
        ("creation_time", PyStr.str_of_int (st_ctime pdf));
        ("text_length", PyStr.str_of_nat (String.length full_text));
        ("word_count", PyStr.str_of_nat (length (Py.split full_text)))]%string)
  end.

(** The chunk built at lines 134-144 for position [i]. *)
Definition make_chunk (pdf : PdfFile) (file_metadata : list (string * string))
    (file_hash : string) (total : nat) (i : nat) (chunk : string)
    : Document :=
  {| page_content := chunk;
     metadata :=
       file_metadata ++
       [("chunk_id", pdf_stem pdf +:+ "_" +:+ PyStr.str_of_nat i);
        ("chunk_index", PyStr.str_of_nat i);
        ("total_chunks", PyStr.str_of_nat total);
        ("doc_type", "trading_guide");
        ("file_hash", file_hash)]%string |}.

(** [DocumentProcessor.process_single_pdf]; the splitter is the argument
    [text_splitter.split_text], which may raise. *)
Definition process_single_pdf (pdf : PdfFile)
    (split_text : string -> exn + list string) : list Document :=
  let '(text, file_metadata) := extract_text_from_pdf pdf in
  if negb (PyStr.strip_truthy text) then []
  else
    let file_hash := md5 text in
    match split_text text with
    | inl _ => []
    | inr chunks =>
        omap (fun ic : nat * string =>
                if PyStr.strip_truthy ic.2
                then Some (make_chunk pdf file_metadata file_hash
                             (length chunks) ic.1 ic.2)
                else None)
             (zip (seq 0 (length chunks)) chunks)
    end.

(** [get_system_stats] *)
Definition get_system_stats (s : TradingKnowledgeRetriever) : SystemStats :=
  if negb (Py.list_truthy (documents s)) then StatsNotLoaded
  else
    StatsLoaded
      (length (documents s))
      (config s)
      (match query_cache s with
       | Some cache => if Py.dict_truthy cache then size cache else 0%nat
       | None => 0%nat
       end)
      (size (list_to_set
               ((fun doc => PyStr.dict_get (metadata doc) "filename" "")
                  <$> documents s) : gset string))
      (foldr Nat.add 0%nat
         ((fun doc => String.length (page_content doc)) <$> documents s)).

(** The module-level [build_retrieval_system(config)]: construct, then
    build. *)
Definition module_build_retrieval_system (config : option RetrievalConfig)
    : M unit :=
  TradingKnowledgeRetriever_init config ;;;
  _ <- build_retrieval_system None ;;
  ret tt.

(** The module-level [load_retrieval_system(config)]: construct, then
    load; the result tells whether the retriever, rather than [None], is
    returned. *)
Definition module_load_retrieval_system (config : option RetrievalConfig)
    : M bool :=
  TradingKnowledgeRetriever_init config ;;;
  ok <- load_retrieval_system ;;
  if ok then ret true else ret false.

(** [create_custom_retrieval_config] of the backend, for the values of the
    environment variables [EMBEDDING_MODEL] and [API_BASE_URL]. *)
Definition create_custom_retrieval_config
    (EMBEDDING_MODEL API_BASE_URL : string) : RetrievalConfig :=
  let config := RetrievalConfig_default in
  let config :=
    {| embedding_model := EMBEDDING_MODEL;
       base_url := base_url config;
       chunk_size := chunk_size config;
       chunk_overlap := chunk_overlap config;
       top_k_retrieval := top_k_retrieval config;
       pdf_folder := pdf_folder config;
       faiss_index_path := faiss_index_path config;
       bm25_data_path := bm25_data_path config;
       max_workers := max_workers config;
       batch_size := batch_size config;
       similarity_threshold := similarity_threshold config;
       enable_caching := enable_caching config;
       cache_ttl := cache_ttl config |} in
  if negb (String.eqb API_BASE_URL "https://api.openai.com/v1")
  then
    {| embedding_model := embedding_model config;
       base_url := Some API_BASE_URL;
       chunk_size := chunk_size config;
       chunk_overlap := chunk_overlap config;
       top_k_retrieval := top_k_retrieval config;
       pdf_folder := pdf_folder config;
       faiss_index_path := faiss_index_path config;
       bm25_data_path := bm25_data_path config;
       max_workers := max_workers config;
       batch_size := batch_size config;
       similarity_threshold := similarity_threshold config;
       enable_caching := enable_caching config;
       cache_ttl := cache_ttl config |}
  else config.

(** What [retrieve_documents] must leave alone: everything but the cache
    and the clock. *)
Definition frozen (w : World) :=
  (config (self w), embeddings (self w), vector_store (self w),
   bm25 (self w), documents (self w), disk w).

End EngineRest.

(** ** A small concrete installation *)

Module Demo.

Definition sq_dist (u v : Vector) : Z :=
  foldr Z.add 0 (zip_with (fun a b => (a - b) * (a - b)) u v).

(** Exhaustive nearest-neighbour search by squared distance. *)
Definition flat_search (store : list (Document * Vector)) (v : Vector)
    (k : Z) : list (Document * Z) :=
  let dists := (fun p => sq_dist v p.2) <$> store in
  omap (fun i => p ← store !! i; d ← dists !! i; Some (p.1, d))
       (take (Z.to_nat k) (Np.argsort dists)).

(** Number of occurrences of the query tokens in the chunk. *)
Definition overlap_score (b : BM25Okapi) (query : list string) (i : nat)
    : Z :=
  match doc_freqs b !! i with
  | None => 0
  | Some freqs =>
      foldr Z.add 0 ((fun t => Z.of_nat (default 0%nat (freqs !! t))) <$> query)
  end.

(** A provider that embeds a text as its length and its word count. *)
Definition length_embed (_ : Embeddings) (text : string)
    : string + Vector :=
  inr [Z.of_nat (String.length text); Z.of_nat (length (Py.split text))].

(** A provider behind a gateway that refuses every call. *)
Definition blocked_embed (_ : Embeddings) (_ : string) : string + Vector :=
  inl "Error code: 403 - Forbidden"%string.

(** A provider that fails on one text only. *)
Definition picky_embed (bad : string) (e : Embeddings) (text : string)
    : string + Vector :=
  if String.eqb text bad then inl "Request timed out"%string
  else length_embed e text.

(** A text splitter that checks only that the overlap fits in a chunk. *)
Definition splitter_message (chunk_size chunk_overlap : Z) : string :=
  "Got a larger chunk overlap (" +:+ PyStr.str_of_int chunk_overlap +:+
  ") than chunk size (" +:+ PyStr.str_of_int chunk_size +:+
  "), should be smaller.".

Definition splitter_error (chunk_size chunk_overlap : Z) : option string :=
  if chunk_size <? chunk_overlap
  then Some (splitter_message chunk_size chunk_overlap)
  else None.

Definition splitter_overlap (chunk_size chunk_overlap : Z)
    (Hlt : chunk_size < chunk_overlap)
    : splitter_error chunk_size chunk_overlap <> None :=
  fun Hnone =>
    match
      eq_rect (chunk_size <? chunk_overlap)
        (fun b : bool =>
           (if b then Some (splitter_message chunk_size chunk_overlap)
            else None) = None)
        Hnone true (proj2 (Z.ltb_lt chunk_size chunk_overlap) Hlt)
      in (_ = o) return (match o with None => False | Some _ => True end)
    with
    | eq_refl => I
    end.

Definition ext (embed : Embeddings -> string -> string + Vector)
    : Externals :=
  {| md5 := fun s => s;
     clock := fun n => 10 * Z.of_nat n;
     getenv_OPENAI_API_KEY := Some "sk-test"%string;
     OpenAIEmbeddings_error := fun _ => None;
     provider := embed;
     faiss_search := flat_search;
     bm25_score := overlap_score;
     TextSplitter_error := splitter_error;
     TextSplitter_overlap := splitter_overlap;
     completion_order := fun files => files;
     completion_order_Permutation := fun files => Permutation_refl files |}.

Definition doc (text : string) : Document :=
  {| page_content := text; metadata := [] |}.

Definition chunk_a : Document := doc "the market trend is bullish".
Definition chunk_b : Document := doc "cats are nocturnal animals".
Definition chunk_c : Document := doc "bullish market".

Definition empty_disk : Disk :=
  {| folders := ∅; faiss_files := ∅; pickle_files := ∅;
     read_only := false |}.

(** A knowledge base of one PDF with two chunks. *)
Definition kb_disk : Disk :=
  {| folders := {[ "TradingKB"%string := [[chunk_a; chunk_b]] ]};
     faiss_files := ∅; pickle_files := ∅; read_only := false |}.

Definition blank : TradingKnowledgeRetriever :=
  {| config := RetrievalConfig_default; embeddings := None;
     vector_store := None; bm25 := None; documents := [];
     query_cache := None |}.

Definition world0 (d : Disk) : World :=
  {| self := blank; disk := d; ticks := 0 |}.

(** Construct with the default configuration, then build. *)
Definition built : World :=
  let w1 :=
    (@TradingKnowledgeRetriever_init (ext length_embed) None
       (world0 kb_disk)).2 in
  (@build_retrieval_system (ext length_embed) None w1).2.


Definition E : Externals := ext length_embed.
Definition E_blocked : Externals := ext blocked_embed.
Definition E_picky : Externals := ext (picky_embed "cats are nocturnal animals").

(** A constructed retriever in front of the knowledge base, not yet
    built, for each provider. *)
Definition fresh (X : Externals) : World :=
  (@TradingKnowledgeRetriever_init X None (world0 kb_disk)).2.

(** The built retriever in front of a file system whose semantic-index
    artifact is a different index and whose pickle cannot be read. *)
Definition torn : World :=
  {| self := self built;
     disk := {| folders := ∅;
                faiss_files :=
                  {[ "faiss_index"%string := Stored [(chunk_c, [14; 2])] ]};
                pickle_files := {[ "bm25_data.pkl"%string := Corrupt ]};
                read_only := false |};
     ticks := ticks built |}.

(** A configuration that breaks all three inequalities. *)
Definition bad_config : RetrievalConfig :=
  {| embedding_model := "text-embedding-3-small";
     base_url := None;
     chunk_size := 1000;
     chunk_overlap := 2000;
     top_k_retrieval := 0;
     pdf_folder := "TradingKB";
     faiss_index_path := "faiss_index";
     bm25_data_path := "bm25_data.pkl";
     max_workers := 0;
     batch_size := 10;
     similarity_threshold := 0;
     enable_caching := true;
     cache_ttl := 3600 |}.


(** An environment without an API key. *)
Definition E_nokey : Externals :=
  {| md5 := fun s => s;
     clock := fun n => 10 * Z.of_nat n;
     getenv_OPENAI_API_KEY := None;
     OpenAIEmbeddings_error := fun _ => None;
     provider := length_embed;
     faiss_search := flat_search;
     bm25_score := overlap_score;
     TextSplitter_error := splitter_error;
     TextSplitter_overlap := splitter_overlap;
     completion_order := fun files => files;
     completion_order_Permutation := fun files => Permutation_refl files |}.

(** A provider that answers the constructor's probe and refuses every
    other text. *)
Definition probe_only_embed (e : Embeddings) (text : string)
    : string + Vector :=
  if String.eqb text "test" then length_embed e text
  else inl "Request refused"%string.

(** A provider that answers every call with an empty vector. *)
Definition E_empty : Externals := ext (fun _ _ => inr []).

(** A two-page guide, and a splitter that cuts its text in three pieces,
    the middle one blank. *)
Definition guide : PdfFile :=
  {| pdf_name := "guide.pdf"; pdf_stem := "guide"; st_size := 2048;
     st_ctime := 1700000000;
     pdf_pages := inr ["alpha beta"; ""; " gamma"]%string |}.

Definition three_pieces (_ : string) : exn + list string :=
  inr ["alpha beta"; "  "; "gamma"]%string.

(** A knowledge base whose only PDF yields no chunk. *)
Definition blank_disk : Disk :=
  {| folders := {[ "TradingKB"%string := [[]] ]};
     faiss_files := ∅; pickle_files := ∅; read_only := false |}.

(** A rebuild that fails: the retriever is built, with the provider that
    refuses one text, over two chunks it embeds; the knowledge base is then
    replaced by one whose only chunk has the refused text, and the build is
    run again. *)
Definition market_disk : Disk :=
  {| folders := {[ "TradingKB"%string := [[chunk_a; chunk_c]] ]};
     faiss_files := ∅; pickle_files := ∅; read_only := false |}.

Definition cats_disk : Disk :=
  {| folders := {[ "TradingKB"%string := [[chunk_b]] ]};
     faiss_files := ∅; pickle_files := ∅; read_only := false |}.

Definition first_build : World :=
  let w1 :=
    (@TradingKnowledgeRetriever_init E_picky None (world0 market_disk)).2 in
  (@build_retrieval_system E_picky None w1).2.

Definition failed_rebuild : World :=
  let w2 := first_build in
  (@build_retrieval_system E_picky None
     {| self := self w2; disk := cats_disk; ticks := ticks w2 |}).2.

End Demo.

(** ** Slices and sorting *)

Lemma slice_to_pos {A : Type} (l : list A) (k : Z) :
  0 <= k -> Py.slice_to l k = take (Z.to_nat k) l.
Proof.
  intros Hk. unfold Py.slice_to.
  destruct (0 <=? k) eqn:E; [done | lia].
Qed.

Lemma slice_last_pos {A : Type} (l : list A) (k : Z) :
  0 < k -> Py.slice_last l k = drop (length l - Z.to_nat k) l.
Proof.
  intros Hk. unfold Py.slice_last. cbv zeta.
  destruct (- k <? 0) eqn:E; [| lia].
  f_equal. lia.
Qed.

Lemma slice_to_length_le {A : Type} (l : list A) (k : Z) :
  0 <= k -> Z.of_nat (length (Py.slice_to l k)) <= k.
Proof.
  intros Hk. rewrite slice_to_pos by done. rewrite length_take. lia.
Qed.

Lemma slice_to_same_length {A B : Type} (l : list A) (l' : list B) (k : Z) :
  length l = length l' ->
  length (Py.slice_to l k) = length (Py.slice_to l' k).
Proof.
  intros Hl. unfold Py.slice_to.
  destruct (0 <=? k); rewrite !length_take, Hl; done.
Qed.

Example slice_last_zero : Py.slice_last [1; 2; 3] 0 = [1; 2; 3].
Proof. reflexivity. Qed.

Example slice_last_two : Py.slice_last [1; 2; 3] 2 = [2; 3].
Proof. reflexivity. Qed.

Example slice_last_big : Py.slice_last [1; 2; 3] 7 = [1; 2; 3].
Proof. reflexivity. Qed.

Example slice_to_negative : Py.slice_to [1; 2; 3] (-1) = [1; 2].
Proof. reflexivity. Qed.

Example split_runs :
  Py.split "the  market trend " = ["the"; "market"; "trend"]%string.
Proof. reflexivity. Qed.

Example contains_403 :
  Py.str_contains "403" "Error code: 403 - blocked" = true.
Proof. reflexivity. Qed.

Example argsort_ties : Np.argsort [5; 3; 5; 3] = [1; 3; 0; 2]%nat.
Proof. reflexivity. Qed.

Example top_two_of_ties :
  Py.reversed (Py.slice_last (Np.argsort [5; 3; 5; 3]) 2) = [2; 0]%nat.
Proof. reflexivity. Qed.

Module NpFacts.

Lemma insert_Permutation x l : Np.insert x l ≡ₚ x :: l.
Proof.
  induction l as [| y l IH]; simpl; [done |].
  destruct (x.2 <=? y.2); [done |].
  rewrite IH. apply Permutation_swap.
Qed.

Lemma isort_Permutation l : Np.isort l ≡ₚ l.
Proof.
  induction l as [| x l IH]; simpl; [done |].
  rewrite insert_Permutation. by rewrite IH.
Qed.

Lemma insert_sorted x l :
  StronglySorted Np.plt l ->
  Forall (fun y => (x.1 < y.1)%nat) l ->
  StronglySorted Np.plt (Np.insert x l).
Proof.
  induction 1 as [| y l Hs IH Hy]; intros Hx; simpl.
  - repeat constructor.
  - apply Forall_cons in Hx as [Hxy Hx].
    destruct (x.2 <=? y.2) eqn:E.
    + apply Z.leb_le in E. constructor; [by constructor |].
      constructor.
      * unfold Np.plt. lia.
      * rewrite Forall_forall in Hy, Hx. apply Forall_forall.
        intros z Hz. specialize (Hy z Hz). specialize (Hx z Hz).
        unfold Np.plt in *. lia.
    + apply Z.leb_gt in E. constructor; [by apply IH |].
      rewrite insert_Permutation. constructor; [| done].
      unfold Np.plt. lia.
Qed.

Lemma isort_sorted l :
  StronglySorted lt (l.*1) -> StronglySorted Np.plt (Np.isort l).
Proof.
  induction l as [| x l IH]; simpl; intros Hs; [constructor |].
  apply StronglySorted_inv in Hs as [Hs Hx].
  apply insert_sorted; [by apply IH |].
  rewrite isort_Permutation.
  rewrite Forall_fmap in Hx. exact Hx.
Qed.

Lemma seq_sorted start n : StronglySorted lt (seq start n).
Proof.
  revert start. induction n as [| n IH]; intros start; simpl; constructor.
  - apply IH.
  - apply Forall_forall. intros x Hx. apply elem_of_seq in Hx. lia.
Qed.

Lemma enumerate_fst a : (Np.enumerate a).*1 = seq 0 (length a).
Proof. unfold Np.enumerate. apply fst_zip. by rewrite length_seq. Qed.

Lemma enumerate_lookup a p :
  p ∈ Np.enumerate a -> a !! p.1 = Some p.2.
Proof.
  unfold Np.enumerate. intros Hp.
  apply list_elem_of_lookup in Hp as [i Hi].
  apply lookup_zip_with_Some in Hi as (x & y & -> & Hx & Hy).
  apply lookup_seq in Hx as [-> _]. done.
Qed.

Lemma argsort_Permutation a : Np.argsort a ≡ₚ seq 0 (length a).
Proof.
  unfold Np.argsort. rewrite isort_Permutation. by rewrite enumerate_fst.
Qed.

Lemma argsort_length a : length (Np.argsort a) = length a.
Proof. by rewrite argsort_Permutation, length_seq. Qed.

Lemma argsort_lt a i : i ∈ Np.argsort a -> (i < length a)%nat.
Proof.
  rewrite argsort_Permutation. intros Hi. apply elem_of_seq in Hi. lia.
Qed.

Lemma argsort_NoDup a : NoDup (Np.argsort a).
Proof. rewrite argsort_Permutation. apply NoDup_seq. Qed.


Lemma isort_lookup a p : p ∈ Np.isort (Np.enumerate a) -> a !! p.1 = Some p.2.
Proof. rewrite isort_Permutation. apply enumerate_lookup. Qed.

(** Later elements of [argsort] outrank earlier ones: ascending scores,
    and among equal scores ascending indices. *)
Lemma argsort_sorted a :
  StronglySorted (fun i j => Np.outranks a j i) (Np.argsort a).
Proof.
  unfold Np.argsort.
  assert (Hs : StronglySorted Np.plt (Np.isort (Np.enumerate a))).
  { apply isort_sorted. rewrite enumerate_fst. apply seq_sorted. }
  assert (Hl : Forall (fun p => a !! p.1 = Some p.2)
                 (Np.isort (Np.enumerate a))).
  { apply Forall_forall. intros p. apply isort_lookup. }
  induction Hs as [| p l Hs IH Hp]; simpl; constructor.
  - apply IH. by eapply Forall_inv_tail.
  - apply Forall_cons in Hl as [Hp1 Hl].
    apply Forall_fmap, Forall_forall. intros q Hq. simpl.
    rewrite Forall_forall in Hp, Hl.
    exists q.2, p.2. split; [by apply Hl |]. split; [done |].
    apply Hp in Hq. unfold Np.plt in Hq. lia.
Qed.

Lemma StronglySorted_reverse {A : Type} (R : A -> A -> Prop) l :
  StronglySorted R l -> StronglySorted (flip R) (reverse l).
Proof.
  induction 1 as [| x l Hs IH Hx]; [constructor |].
  rewrite reverse_cons. apply StronglySorted_app. split; [| split].
  - intros y z Hy Hz. apply list_elem_of_singleton in Hz as ->.
    rewrite elem_of_reverse in Hy. rewrite Forall_forall in Hx.
    unfold flip. by apply Hx.
  - done.
  - repeat constructor.
Qed.

End NpFacts.

(** ** The hybrid merge *)

Section HybridFacts.

Context `{Externals}.

Local Abbreviation hash d := (md5 (page_content d)).

(** A bound at least the number of candidates never stops the walk. *)
Lemma merge_walk_unbounded l : forall seen m,
  (length l <= m)%nat -> merge_walk m seen l = merge_walk (length l) seen l.
Proof.
  induction l as [| d rest IH]; intros seen m Hm.
  - by destruct m.
  - destruct m as [| m]; [simpl in Hm; lia |]. simpl in *.
    destruct (decide (hash d ∈ seen)).
    + rewrite (IH seen (S m)) by lia.
      rewrite (IH seen (S (length rest))) by lia. done.
    + f_equal. apply IH. lia.
Qed.

(** A walk bounded by [n] is the first [n] chunks of the unbounded one. *)
Lemma merge_walk_take l : forall seen n,
  merge_walk n seen l = take n (merge_walk (length l) seen l).
Proof.
  induction l as [| d rest IH]; intros seen n.
  - by destruct n.
  - destruct n as [| n]; [done |]. simpl.
    destruct (decide (hash d ∈ seen)).
    + rewrite (merge_walk_unbounded rest seen (S (length rest))) by lia.
      apply IH.
    + simpl. f_equal. apply IH.
Qed.

Lemma merge_walk_length l : forall seen n,
  (length (merge_walk n seen l) <= n)%nat.
Proof.
  intros seen n. rewrite merge_walk_take, length_take. lia.
Qed.

(** The unbounded walk over two lists in a row. *)
Lemma merge_walk_app l1 : forall l2 seen,
  merge_walk (length (l1 ++ l2)) seen (l1 ++ l2) =
  merge_walk (length l1) seen l1 ++
  merge_walk (length l2)
    (seen ∪ list_to_set ((fun d => hash d) <$> l1)) l2.
Proof.
  induction l1 as [| d rest IH]; intros l2 seen.
  - simpl. by rewrite (right_id_L ∅ (∪)).
  - simpl. destruct (decide (hash d ∈ seen)) as [Hin | Hout].
    + rewrite (merge_walk_unbounded (rest ++ l2) seen _) by lia.
      rewrite (merge_walk_unbounded rest seen (S (length rest))) by lia.
      rewrite IH. do 2 f_equal. set_solver.
    + simpl. f_equal. rewrite IH. do 2 f_equal. set_solver.
Qed.

(** Nothing the walk returns was seen before, and no hash repeats. *)
Lemma merge_walk_fresh l : forall seen n,
  NoDup ((fun d => hash d) <$> merge_walk n seen l) /\
  (forall d, d ∈ merge_walk n seen l -> hash d ∉ seen).
Proof.
  induction l as [| d rest IH]; intros seen n.
  - destruct n; simpl; split; try constructor; intros d Hd; inversion Hd.
  - destruct n as [| n]; simpl.
    { split; [constructor | intros d' Hd; inversion Hd]. }
    destruct (decide (hash d ∈ seen)) as [Hin | Hout].
    + apply IH.
    + destruct (IH ({[hash d]} ∪ seen) n) as [Hnd Hfresh]. split.
      * simpl. constructor; [| done].
        intros Hd. apply list_elem_of_fmap in Hd as (d' & Heq & Hd').
        apply Hfresh in Hd'. set_solver.
      * intros d' Hd'. apply elem_of_cons in Hd' as [-> | Hd']; [done |].
        apply Hfresh in Hd'. set_solver.
Qed.

(** The first loop collects the unbounded walk over the semantic hits. *)
Lemma faiss_loop_docs hits : forall c,
  combined_docs (foldl faiss_step c hits) =
    combined_docs c ++
    merge_walk (length hits.*1) (seen_content c) hits.*1 /\
  seen_content (foldl faiss_step c hits) =
    seen_content c ∪ list_to_set ((fun d => hash d) <$> hits.*1).
Proof.
  induction hits as [| [d sc] rest IH]; intros c.
  - simpl. rewrite app_nil_r. split; [done | set_solver].
  - simpl. unfold faiss_step at 2 4. simpl.
    destruct (decide (hash d ∈ seen_content c)) as [Hin | Hout].
    + destruct (IH c) as [-> ->]. split.
      * f_equal. symmetry.
        apply (merge_walk_unbounded (rest.*1) (seen_content c)
                 (S (length rest.*1))). lia.
      * set_solver.
    + destruct (IH (Combined_add c d sc)) as [-> ->]. simpl. split.
      * by rewrite <- app_assoc.
      * set_solver.
Qed.

(** The second loop, on indices that exist, agrees on its first [k]
    chunks with the unbounded walk over the lexical candidates. *)
Lemma bm25_loop_docs docs scores k idxs : forall c,
  0 < k ->
  (forall i, i ∈ idxs -> is_Some (docs !! i) /\ is_Some (scores !! i)) ->
  exists c',
    bm25_loop docs scores k idxs c = inr c' /\
    take (Z.to_nat k) (combined_docs c') =
    take (Z.to_nat k)
      (combined_docs c ++
       merge_walk (length (omap (fun i => docs !! i) idxs))
         (seen_content c) (omap (fun i => docs !! i) idxs)).
Proof.
  induction idxs as [| idx rest IH]; intros c Hk Hin.
  - exists c. simpl. by rewrite app_nil_r.
  - simpl bm25_loop.
    destruct (Z.of_nat (length (combined_docs c)) >=? k) eqn:Efull.
    + exists c. split; [done |].
      rewrite take_app_le; [done |]. lia.
    + destruct (Hin idx) as [[doc Hdoc] [sc Hsc]]; [by left |].
      rewrite Hdoc. simpl omap. rewrite Hdoc. simpl.
      assert (Hrest : forall i, i ∈ rest ->
                is_Some (docs !! i) /\ is_Some (scores !! i))
        by (intros i Hi; apply Hin; by right).
      destruct (decide (hash doc ∈ seen_content c)) as [Hseen | Hnew].
      * destruct (IH c Hk Hrest) as (c' & Hrun & Htake).
        exists c'. split; [done |]. rewrite Htake.
        do 2 f_equal. symmetry.
        apply (merge_walk_unbounded (omap (fun i => docs !! i) rest)).
        apply le_S, le_n.
      * rewrite Hsc.
        destruct (IH (Combined_add c doc sc) Hk Hrest) as (c' & Hrun & Htake).
        exists c'. split; [done |]. rewrite Htake. simpl.
        by rewrite <- app_assoc.
Qed.

(** The top indices are indices of the score list. *)
Lemma top_indices_lt scores k i :
  i ∈ top_indices scores k -> (i < length scores)%nat.
Proof.
  unfold top_indices, Py.reversed, Py.slice_last. cbv zeta.
  rewrite elem_of_reverse. intros Hi. apply NpFacts.argsort_lt.
  destruct (- k <? 0); eapply subseteq_drop; exact Hi.
Qed.

Lemma get_scores_length b q : length (get_scores b q) = corpus_size b.
Proof. unfold get_scores. by rewrite length_fmap, length_seq. Qed.

(** On a consistent retriever every top index names a chunk. *)
Lemma lexical_candidates_pick s b query k :
  corpus_size b = length (documents s) ->
  forall i, i ∈ top_indices (get_scores b (Py.split query)) k ->
    is_Some (documents s !! i) /\
    is_Some (get_scores b (Py.split query) !! i).
Proof.
  intros Hsize i Hi. apply top_indices_lt in Hi.
  split; apply lookup_lt_is_Some; [| done].
  rewrite get_scores_length in Hi. lia.
Qed.

(** The same agreement for any run of the second loop that ends without
    an exception, whatever the indices. *)
Lemma bm25_loop_docs_returned docs scores k idxs : forall c c',
  0 < k ->
  bm25_loop docs scores k idxs c = inr c' ->
  take (Z.to_nat k) (combined_docs c') =
  take (Z.to_nat k)
    (combined_docs c ++
     merge_walk (length (omap (fun i => docs !! i) idxs))
       (seen_content c) (omap (fun i => docs !! i) idxs)).
Proof.
  induction idxs as [| idx rest IH]; intros c c' Hk Hrun.
  - simpl in Hrun. injection Hrun as <-. simpl. by rewrite app_nil_r.
  - simpl bm25_loop in Hrun.
    destruct (Z.of_nat (length (combined_docs c)) >=? k) eqn:Efull.
    + injection Hrun as <-. rewrite take_app_le; [done |]. lia.
    + destruct (docs !! idx) as [doc |] eqn:Hdoc; [| done].
      simpl omap. rewrite Hdoc. simpl.
      destruct (decide (hash doc ∈ seen_content c)) as [Hseen | Hnew].
      * rewrite (IH c c' Hk Hrun). do 2 f_equal. symmetry.
        apply (merge_walk_unbounded (omap (fun i => docs !! i) rest)).
        apply le_S, le_n.
      * destruct (scores !! idx) as [sc |]; [| done].
        rewrite (IH (Combined_add c doc sc) c' Hk Hrun). simpl.
        by rewrite <- app_assoc.
Qed.

(** The semantic search answers only for a positive count. *)
Lemma search_answers_pos vs query k hits :
  similarity_search_with_score vs query k = inr hits -> 0 < k.
Proof.
  unfold similarity_search_with_score.
  destruct (embedding_function vs) as [e |]; [| done].
  destruct (embed_query e query) as [err | v]; [done |].
  destruct (Z.leb_spec k 0); [done | lia].
Qed.

(** C1 (as the code has it). Whenever hybrid retrieval returns, the chunks
    it returns are the walk of the specification over the semantic
    candidates followed by the lexical candidates (each candidate with an
    unseen content hash is appended until [k] are collected or both lists
    are exhausted): there are at most [k] of them and no two share a
    content hash.  It returns whenever the semantic search answers and the
    lexical index covers the stored corpus; otherwise it may raise. *)
Theorem hybrid_retrieval_dedup_merge
    (s : TradingKnowledgeRetriever) (query : string) (k : Z)
    (return_scores : bool) :
  (forall docs scores,
     _hybrid_retrieval s query k return_scores = inr (docs, scores) ->
     exists vs b faiss_docs,
       vector_store s = Some vs /\
       bm25 s = Some b /\
       similarity_search_with_score vs query k = inr faiss_docs /\
       0 < k /\
       docs = spec_hybrid_merge (Z.to_nat k) faiss_docs.*1
                (lexical_candidates s b query k) /\
       Z.of_nat (length docs) <= k /\
       NoDup ((fun d => md5 (page_content d)) <$> docs)) /\
  (forall vs b faiss_docs,
     vector_store s = Some vs ->
     bm25 s = Some b ->
     corpus_size b = length (documents s) ->
     similarity_search_with_score vs query k = inr faiss_docs ->
     exists docs scores,
       _hybrid_retrieval s query k return_scores = inr (docs, scores)).
Proof.
  split.
  - intros docs scores Hret. unfold _hybrid_retrieval in Hret.
    destruct (vector_store s) as [vs |] eqn:Hvs; [| done].
    destruct (similarity_search_with_score vs query k)
      as [err | faiss_docs] eqn:Hsearch; [done |].
    destruct (bm25 s) as [b |] eqn:Hb; [| done]. cbv zeta in Hret.
    destruct (bm25_loop _ _ _ _ _) as [err | c'] eqn:Hrun; [done |].
    injection Hret as <- _.
    pose proof (search_answers_pos _ _ _ _ Hsearch) as Hk.
    apply bm25_loop_docs_returned in Hrun; [| done].
    destruct (faiss_loop_docs faiss_docs Combined_empty) as [Hdocs Hseen].
    exists vs, b, faiss_docs. repeat (split; [done |]).
    assert (Hmerge :
      Py.slice_to (combined_docs c') k =
      spec_hybrid_merge (Z.to_nat k) faiss_docs.*1
        (lexical_candidates s b query k)).
    { rewrite slice_to_pos by lia. rewrite Hrun, Hdocs, Hseen.
      unfold spec_hybrid_merge, lexical_candidates. simpl.
      rewrite (merge_walk_take (_ ++ _)), merge_walk_app. done. }
    rewrite Hmerge. split; [done |]. split.
    + pose proof (merge_walk_length
        (faiss_docs.*1 ++ lexical_candidates s b query k) ∅ (Z.to_nat k)).
      unfold spec_hybrid_merge. lia.
    + apply merge_walk_fresh.
  - intros vs b faiss_docs Hvs Hb Hsize Hsearch.
    pose proof (search_answers_pos _ _ _ _ Hsearch) as Hk.
    unfold _hybrid_retrieval. rewrite Hvs, Hsearch, Hb. cbv zeta.
    destruct (bm25_loop_docs (documents s)
                (get_scores b (Py.split query)) k
                (top_indices (get_scores b (Py.split query)) k)
                (foldl faiss_step Combined_empty faiss_docs) Hk
                (lexical_candidates_pick s b query k Hsize))
      as (c' & Hrun & _).
    rewrite Hrun. by eexists _, _.
Qed.

End HybridFacts.

(** ** The query cache and the dispatch *)

Section RetrieveFacts.

Context `{Externals}.

Lemma dict_truthy_false {V : Type} (d : gmap string V) :
  Py.dict_truthy d = false -> d = ∅.
Proof.
  unfold Py.dict_truthy. intros Hd. apply negb_false_iff in Hd.
  apply bool_decide_eq_true in Hd. by apply dom_empty_inv_L.
Qed.

Lemma dict_truthy_lookup {V : Type} (d : gmap string V) k v :
  d !! k = Some v -> Py.dict_truthy d = true.
Proof.
  intros Hk. destruct (Py.dict_truthy d) eqn:E; [done |].
  apply dict_truthy_false in E. subst d. by rewrite lookup_empty in Hk.
Qed.

Lemma dict_truthy_empty {V : Type} :
  Py.dict_truthy (∅ : gmap string V) = false.
Proof.
  unfold Py.dict_truthy. rewrite dom_empty_L.
  by rewrite bool_decide_eq_true_2.
Qed.

(** The lookup of lines 418-422 returns the live entry's result. *)
Lemma check_cache_fst query w :
  (check_cache (md5 query) w).1 =
  inr (entry_result <$> live_entry (self w) query (clock (ticks w))).
Proof.
  unfold check_cache, live_entry, bind, get_self, ret, time_time. simpl.
  destruct (query_cache (self w)) as [cache |]; simpl; [| done].
  destruct (cache !! md5 query) as [e |] eqn:El; simpl.
  - rewrite (dict_truthy_lookup _ _ _ El). simpl.
    by destruct (clock (ticks w) - entry_timestamp e <? _).
  - by destruct (Py.dict_truthy cache).
Qed.

(** It changes nothing but the count of clock readings. *)
Lemma check_cache_snd h w :
  self (check_cache h w).2 = self w /\
  disk (check_cache h w).2 = disk w /\
  (ticks w <= ticks (check_cache h w).2)%nat.
Proof.
  unfold check_cache, bind, get_self, ret, time_time. simpl.
  destruct (query_cache (self w)) as [cache |]; simpl; [| by auto].
  destruct (Py.dict_truthy cache); simpl; [| by auto].
  destruct (cache !! h) as [e |]; simpl; [| by auto].
  destruct (_ <? _); simpl; auto.
Qed.

Lemma store_cache_fst h r w : (store_cache h r w).1 = inr tt.
Proof.
  unfold store_cache, bind, get_self, ret, time_time, set_query_cache,
    set_self. simpl.
  destruct (query_cache (self w)) as [cache |]; simpl; [| done].
  by destruct (Py.dict_truthy cache).
Qed.

(** The cache after lines 446-450: written only when it was a non-empty
    dictionary. *)
Lemma store_cache_cache h r w :
  query_cache (self (store_cache h r w).2) =
  match query_cache (self w) with
  | Some cache =>
      if Py.dict_truthy cache
      then Some (<[h := {| entry_result := r;
                           entry_timestamp := clock (ticks w) |}]> cache)
      else Some cache
  | None => None
  end.
Proof.
  unfold store_cache, bind, get_self, ret, time_time, set_query_cache,
    set_self. simpl.
  destruct (query_cache (self w)) as [cache |] eqn:Ec; simpl; [| done].
  destruct (Py.dict_truthy cache); simpl; done.
Qed.


(** *** Scores stay next to their chunks *)

Lemma faiss_loop_scored (P : Document -> Z -> Prop) hits : forall c,
  Forall2 P (combined_docs c) (combined_scores c) ->
  (forall hit, hit ∈ hits -> P hit.1 hit.2) ->
  Forall2 P (combined_docs (foldl faiss_step c hits))
            (combined_scores (foldl faiss_step c hits)).
Proof.
  induction hits as [| hit rest IH]; intros c Hc Hhits; [done |].
  simpl. apply IH.
  - unfold faiss_step. destruct (decide _); [done |]. simpl.
    apply Forall2_app; [done |]. constructor; [| constructor].
    apply Hhits. by left.
  - intros h Hh. apply Hhits. by right.
Qed.

Lemma bm25_loop_scored (P : Document -> Z -> Prop) docs scores k idxs :
  forall c c',
  Forall2 P (combined_docs c) (combined_scores c) ->
  (forall i d sc, docs !! i = Some d -> scores !! i = Some sc -> P d sc) ->
  bm25_loop docs scores k idxs c = inr c' ->
  Forall2 P (combined_docs c') (combined_scores c').
Proof.
  induction idxs as [| idx rest IH]; intros c c' Hc HP Hrun; simpl in Hrun.
  - by inversion Hrun; subst.
  - destruct (Z.of_nat (length (combined_docs c)) >=? k).
    { by inversion Hrun; subst. }
    destruct (docs !! idx) as [doc |] eqn:Hdoc; [| done].
    destruct (decide _); [by eapply IH |].
    destruct (scores !! idx) as [sc |] eqn:Hsc; [| done].
    eapply IH; [| done | exact Hrun]. simpl.
    apply Forall2_app; [done |]. constructor; [| constructor]. eauto.
Qed.

Lemma slice_to_Forall2 {A B : Type} (P : A -> B -> Prop) l l' k :
  Forall2 P l l' -> Forall2 P (Py.slice_to l k) (Py.slice_to l' k).
Proof.
  intros Hl. unfold Py.slice_to. rewrite (Forall2_length _ _ _ Hl).
  destruct (0 <=? k); by apply Forall2_take.
Qed.

Lemma pick_Forall2 {A : Type} (l : list A) idxs : forall xs,
  pick l idxs = inr xs -> Forall2 (fun i x => l !! i = Some x) idxs xs.
Proof.
  induction idxs as [| i rest IH]; intros xs Hp; simpl in Hp.
  - inversion Hp. constructor.
  - destruct (l !! i) as [x |] eqn:Hx; [| done].
    destruct (pick l rest) as [e | xs'] eqn:Hrest; [done |].
    inversion Hp; subst. constructor; [done | by apply IH].
Qed.

Lemma hybrid_scored s query k found :
  _hybrid_retrieval s query k true = inr found ->
  Forall2 (scored_candidate s query k) found.1 found.2.
Proof.
  unfold _hybrid_retrieval.
  destruct (vector_store s) as [vs |] eqn:Hvs; [| done].
  destruct (similarity_search_with_score vs query k) as [e | hits] eqn:Hs;
    [done |].
  destruct (bm25 s) as [b |] eqn:Hb; [| done]. cbv zeta.
  destruct (bm25_loop _ _ _ _ _) as [e | c'] eqn:Hrun; [done |].
  intros Hret. inversion Hret; subst. simpl.
  apply slice_to_Forall2.
  eapply bm25_loop_scored; [| | exact Hrun].
  - apply faiss_loop_scored; [constructor |].
    intros [d sc] Hhit. left. eauto.
  - intros i d sc Hd Hsc. right. eauto.
Qed.

Lemma faiss_scored s query k found :
  _faiss_retrieval s query k true = inr found ->
  Forall2 (scored_candidate s query k) found.1 found.2.
Proof.
  unfold _faiss_retrieval.
  destruct (vector_store s) as [vs |] eqn:Hvs; [| done].
  destruct (similarity_search_with_score vs query k) as [e | hits] eqn:Hs;
    [done |].
  intros Hret. inversion Hret; subst. simpl.
  apply Forall2_fmap. apply Forall_Forall2_diag. apply Forall_forall.
  intros [d sc] Hhit. left. eauto.
Qed.

Lemma bm25_scored s query k found :
  _bm25_retrieval s query k true = inr found ->
  Forall2 (scored_candidate s query k) found.1 found.2.
Proof.
  unfold _bm25_retrieval.
  destruct (bm25 s) as [b |] eqn:Hb; [| done]. cbv zeta.
  destruct (pick (documents s) _) as [e | docs] eqn:Hdocs; [done |].
  destruct (pick (get_scores b _) _) as [e | scs] eqn:Hscs; [done |].
  intros Hret. inversion Hret; subst. clear Hret. simpl.
  apply pick_Forall2 in Hdocs, Hscs.
  revert docs scs Hdocs Hscs.
  induction (top_indices _ k) as [| i rest IH]; intros docs scs Hd Hs.
  - inversion Hd; inversion Hs. constructor.
  - inversion Hd; inversion Hs; subst. constructor; [| by apply IH].
    right. eauto.
Qed.

Lemma run_method_scored s query k method found :
  run_method s query k method true = inr found ->
  Forall2 (scored_candidate s query k) found.1 found.2.
Proof.
  unfold run_method.
  destruct (String.eqb method "hybrid"); [apply hybrid_scored |].
  destruct (String.eqb method "faiss"); [apply faiss_scored |].
  destruct (String.eqb method "bm25"); [apply bm25_scored | done].
Qed.


(** *** One call of [retrieve_documents] *)

(** The result assembled at lines 436-443. *)
Lemma retrieve_miss query k method return_scores w vs b :
  vector_store (self w) = Some vs ->
  bm25 (self w) = Some b ->
  live_entry (self w) query (clock (S (ticks w))) = None ->
  let k' := Py.int_or k (top_k_retrieval (config (self w))) in
  let w2 := (check_cache (md5 query) (tick w)).2 in
  retrieve_documents query k method return_scores w =
  match run_method (self w) query k' method return_scores with
  | inl e => (inl e, w2)
  | inr found =>
      let result :=
        {| res_documents := found.1;
           res_scores := if return_scores then found.2 else [];
           res_retrieval_time := clock (ticks w2) - clock (ticks w);
           res_method_used := method;
           res_query_hash := md5 query;
           res_total_candidates := length (documents (self w)) |} in
      (inr result, (store_cache (md5 query) result (tick w2)).2)
  end.
Proof.
  intros Hvs Hb Hmiss k' w2.
  unfold retrieve_documents, bind at 1, get_self at 1. simpl.
  rewrite Hvs, Hb. unfold bind at 1, time_time at 1. simpl.
  unfold bind at 1.
  pose proof (check_cache_fst query (tick w)) as Hfst. simpl in Hfst.
  rewrite Hmiss in Hfst. simpl in Hfst.
  fold k'. subst w2.
  destruct (check_cache (md5 query) (tick w)) as [r w2]. simpl in *.
  subst r. unfold try_except, bind at 1, lift.
  destruct (run_method (self w) query k' method return_scores)
    as [e | found]; [done |].
  unfold bind at 1, time_time at 1. simpl. unfold bind, ret.
  pose proof (store_cache_fst (md5 query)
    {| res_documents := found.1;
       res_scores := if return_scores then found.2 else [];
       res_retrieval_time := clock (ticks w2) - clock (ticks w);
       res_method_used := method;
       res_query_hash := md5 query;
       res_total_candidates := length (documents (self w)) |}
    (tick w2)) as Hst.
  destruct (store_cache _ _ (tick w2)) as [u w3]. simpl in *.
  by subst u.
Qed.

(** A live entry is returned as it is, whatever the other arguments. *)
Lemma retrieve_hit query k method return_scores w vs b entry :
  vector_store (self w) = Some vs ->
  bm25 (self w) = Some b ->
  live_entry (self w) query (clock (S (ticks w))) = Some entry ->
  (retrieve_documents query k method return_scores w).1 =
  inr (entry_result entry).
Proof.
  intros Hvs Hb Hlive.
  unfold retrieve_documents, bind at 1, get_self at 1. simpl.
  rewrite Hvs, Hb. unfold bind at 1, time_time at 1. simpl.
  unfold bind at 1.
  pose proof (check_cache_fst query (tick w)) as Hfst. simpl in Hfst.
  rewrite Hlive in Hfst. simpl in Hfst.
  destruct (check_cache (md5 query) (tick w)) as [r w2]. simpl in *.
  by subst r.
Qed.

Lemma retrieve_not_loaded query k method return_scores w :
  ~ loaded (self w) ->
  retrieve_documents query k method return_scores w = (inl NotLoadedError, w).
Proof.
  intros Hnl. unfold retrieve_documents, bind, get_self. simpl.
  destruct (vector_store (self w)) as [vs |] eqn:Hvs;
    destruct (bm25 (self w)) as [b |] eqn:Hb; try done.
  destruct Hnl. unfold loaded. rewrite Hvs, Hb. eauto.
Qed.


(** *** What every method leaves alone *)

Lemma preserves_ret {A : Type} I (a : A) : preserves I (ret a).
Proof. by intros w Hw. Qed.

Lemma preserves_raise {A : Type} I e : preserves I (@raise A e).
Proof. by intros w Hw. Qed.

Lemma preserves_lift {A : Type} I (r : exn + A) : preserves I (lift r).
Proof. by intros w Hw. Qed.

Lemma preserves_get_self I : preserves I get_self.
Proof. by intros w Hw. Qed.

Lemma preserves_get_disk I : preserves I get_disk.
Proof. by intros w Hw. Qed.

Lemma preserves_bind {A B : Type} I (m : M A) (f : A -> M B) :
  preserves I m -> (forall a, preserves I (f a)) -> preserves I (bind m f).
Proof.
  intros Hm Hf w Hw. unfold bind. specialize (Hm w Hw).
  destruct (m w) as [[e | a] w']; simpl in *; [done | by apply Hf].
Qed.

Lemma preserves_try {A : Type} I (m : M A) (h : exn -> M A) :
  preserves I m -> (forall e, preserves I (h e)) ->
  preserves I (try_except m h).
Proof.
  intros Hm Hh w Hw. unfold try_except. specialize (Hm w Hw).
  destruct (m w) as [[e | a] w']; simpl in *; [by apply Hh | done].
Qed.

Local Abbreviation unused :=
  (fun w : World => cache_as_constructed (self w)).

Lemma unused_time : preserves unused time_time.
Proof. by intros w Hw. Qed.

Lemma unused_set_disk d : preserves unused (set_disk d).
Proof. by intros w Hw. Qed.

Lemma unused_set_embeddings e : preserves unused (set_embeddings e).
Proof. by intros w Hw. Qed.

Lemma unused_set_vector_store vs : preserves unused (set_vector_store vs).
Proof. by intros w Hw. Qed.

Lemma unused_set_bm25 b : preserves unused (set_bm25 b).
Proof. by intros w Hw. Qed.

Lemma unused_set_documents ds : preserves unused (set_documents ds).
Proof. by intros w Hw. Qed.

Lemma unused_check_cache h : preserves unused (check_cache h).
Proof.
  intros w Hw. destruct (check_cache_snd h w) as (Hs & _). by rewrite Hs.
Qed.

(** Line 446 tests the dictionary itself, and an empty dictionary is
    falsy: nothing is ever written into an empty cache. *)
Lemma unused_store_cache h r : preserves unused (store_cache h r).
Proof.
  intros w Hw. unfold cache_as_constructed in *.
  assert (Hcfg : config (self (store_cache h r w).2) = config (self w)).
  { unfold store_cache, bind, get_self, ret, time_time, set_query_cache,
      set_self. simpl.
    destruct (query_cache (self w)) as [cache |]; simpl; [| done].
    by destruct (Py.dict_truthy cache). }
  rewrite Hcfg, store_cache_cache, Hw.
  destruct (enable_caching _); [by rewrite dict_truthy_empty | done].
Qed.

Ltac preserve_step :=
  first
    [ apply preserves_ret | apply preserves_raise | apply preserves_lift
    | apply preserves_get_self | apply preserves_get_disk
    | apply unused_time | apply unused_set_disk
    | apply unused_set_embeddings | apply unused_set_vector_store
    | apply unused_set_bm25 | apply unused_set_documents
    | apply unused_check_cache | apply unused_store_cache
    | apply preserves_bind; [| intros ?]
    | apply preserves_try; [| intros ?]
    | match goal with
      | |- preserves _ (match ?x with _ => _ end) => destruct x
      | |- preserves _ (let _ := _ in _) => cbv zeta
      end ].

Ltac preserve := repeat preserve_step.

Lemma unused_OpenAIEmbeddings kw : preserves unused (OpenAIEmbeddings kw).
Proof. unfold OpenAIEmbeddings. preserve. Qed.

Lemma unused_initialize_embeddings : preserves unused _initialize_embeddings.
Proof.
  unfold _initialize_embeddings. preserve; apply unused_OpenAIEmbeddings.
Qed.

Lemma unused_build folder : preserves unused (build_retrieval_system folder).
Proof.
  unfold build_retrieval_system, _validate_pdf_folder,
    _load_and_chunk_documents, RecursiveCharacterTextSplitter_new,
    ThreadPoolExecutor_new, _build_faiss_index, _build_bm25_index,
    _save_indices.
  preserve.
Qed.

Lemma unused_load : preserves unused load_retrieval_system.
Proof. unfold load_retrieval_system. preserve. Qed.

Lemma unused_retrieve query k method return_scores :
  preserves unused (retrieve_documents query k method return_scores).
Proof. unfold retrieve_documents. preserve. Qed.

(** The cache of a retriever reached through its methods is still the one
    its constructor made. *)
Lemma reachable_cache_as_constructed w :
  reachable w -> cache_as_constructed (self w).
Proof.
  induction 1 as [w cfg Hok | w folder _ IH | w _ IH
                 | w query k method rs _ IH | w d _ IH].
  - unfold TradingKnowledgeRetriever_init, bind, set_self. simpl.
    by apply unused_initialize_embeddings.
  - by apply unused_build.
  - by apply unused_load.
  - by apply unused_retrieve.
  - done.
Qed.

(** A retriever reached through its methods never holds a cache entry. *)
Lemma reachable_cache_unused w : reachable w -> cache_unused (self w).
Proof.
  intros Hw. apply reachable_cache_as_constructed in Hw.
  unfold cache_as_constructed in Hw. unfold cache_unused.
  destruct (enable_caching _); auto.
Qed.

Lemma cache_unused_miss s query now :
  cache_unused s -> live_entry s query now = None.
Proof.
  unfold live_entry. intros [-> | ->]; simpl; [done |].
  by rewrite lookup_empty.
Qed.


(** *** Which exceptions the three methods can raise *)

Lemma search_error vs query k e :
  similarity_search_with_score vs query k = inl e ->
  e = AttributeError \/ e = AssertionError \/
  exists msg, e = ProviderError msg.
Proof.
  unfold similarity_search_with_score, embed_query.
  destruct (embedding_function vs) as [emb |]; [| intros [= <-]; by left].
  destruct (provider emb query) as [msg | v].
  - intros [= <-]. right. right. eauto.
  - destruct (k <=? 0); [| done]. intros [= <-]. right. by left.
Qed.

Lemma bm25_loop_error docs scores k idxs : forall c e,
  bm25_loop docs scores k idxs c = inl e -> e = IndexError.
Proof.
  induction idxs as [| idx rest IH]; intros c e; simpl; [done |].
  destruct (_ >=? k); [done |].
  destruct (docs !! idx); [| by intros [= <-]].
  destruct (decide _); [apply IH |].
  destruct (scores !! idx); [apply IH | by intros [= <-]].
Qed.

Lemma pick_error {A : Type} (l : list A) idxs e :
  pick l idxs = inl e -> e = IndexError.
Proof.
  induction idxs as [| i rest IH]; simpl; [done |].
  destruct (l !! i); [| by intros [= <-]].
  destruct (pick l rest); [| done]. intros [= <-]. by apply IH.
Qed.

Lemma run_method_error s query k m return_scores e :
  run_method s query k (method_name m) return_scores = inl e ->
  e = AttributeError \/ e = IndexError \/ e = AssertionError \/
  exists msg, e = ProviderError msg.
Proof.
  destruct m; unfold run_method; simpl.
  - unfold _hybrid_retrieval.
    destruct (vector_store s) as [vs |]; [| intros [= <-]; by left].
    destruct (similarity_search_with_score vs query k) as [e' | hits] eqn:Hs.
    { intros [= <-]. apply search_error in Hs. naive_solver. }
    destruct (bm25 s) as [b |]; [| intros [= <-]; by left]. cbv zeta.
    destruct (bm25_loop _ _ _ _ _) as [e' | c'] eqn:Hrun; [| done].
    intros [= <-]. apply bm25_loop_error in Hrun. naive_solver.
  - unfold _faiss_retrieval, similarity_search.
    destruct (vector_store s) as [vs |]; [| intros [= <-]; by left].
    destruct (similarity_search_with_score vs query k) as [e' | hits] eqn:Hs.
    + destruct return_scores; intros [= <-];
        apply search_error in Hs; naive_solver.
    + by destruct return_scores.
  - unfold _bm25_retrieval.
    destruct (bm25 s) as [b |]; [| intros [= <-]; by left]. cbv zeta.
    destruct (pick (documents s) _) as [e' | docs] eqn:Hd.
    { intros [= <-]. apply pick_error in Hd. naive_solver. }
    destruct return_scores; [| done].
    destruct (pick (get_scores b _) _) as [e' | scs] eqn:Hp; [| done].
    intros [= <-]. apply pick_error in Hp. naive_solver.
Qed.

Lemma run_method_unknown s query k method return_scores :
  (forall m, method <> method_name m) ->
  run_method s query k method return_scores = inl (UnknownMethodError method).
Proof.
  intros Hm. unfold run_method.
  destruct (String.eqb_spec method "hybrid") as [-> | _];
    [by destruct (Hm Hybrid) |].
  destruct (String.eqb_spec method "faiss") as [-> | _];
    [by destruct (Hm Semantic) |].
  destruct (String.eqb_spec method "bm25") as [-> | _];
    [by destruct (Hm Lexical) | done].
Qed.

(** C4. On a loaded retriever reached through its methods, a call whose
    method is none of the three recognised ones (hybrid, semantic = "faiss",
    lexical = "bm25") fails with the unknown-method error, and a call with
    one of the three never fails with that error. *)
Theorem retrieve_unknown_method
    (w : World) (query : string) (k : option Z) (method : string)
    (return_scores : bool) :
  reachable w ->
  loaded (self w) ->
  ((forall m, method <> method_name m) ->
   (retrieve_documents query k method return_scores w).1 =
   inl (UnknownMethodError method)) /\
  (forall m, method = method_name m ->
   forall bad,
     (retrieve_documents query k method return_scores w).1 <>
     inl (UnknownMethodError bad)).
Proof.
  intros Hreach [[vs Hvs] [b Hb]].
  pose proof (cache_unused_miss (self w) query (clock (S (ticks w)))
                (reachable_cache_unused w Hreach)) as Hmiss.
  rewrite (retrieve_miss query k method return_scores w vs b Hvs Hb Hmiss).
  cbv zeta. split.
  - intros Hm. by rewrite run_method_unknown.
  - intros m -> bad.
    destruct (run_method _ _ _ _ _) as [e | found] eqn:Hrun; [| done].
    simpl. apply run_method_error in Hrun.
    unfold UnknownMethodError. naive_solver.
Qed.

(** C10. A call that succeeds on a cache miss returns no scores when
    scores were not asked for; when they were, it returns one score per
    returned chunk, each the score of the chunk at the same position (a
    semantic hit with its distance, or a corpus chunk with its lexical
    score). *)
Theorem retrieve_scores_aligned
    (w : World) (query : string) (k : option Z) (method : string)
    (return_scores : bool) (r : RetrievalResult) :
  live_entry (self w) query (clock (S (ticks w))) = None ->
  (retrieve_documents query k method return_scores w).1 = inr r ->
  if return_scores
  then length (res_scores r) = length (res_documents r) /\
       Forall2 (scored_candidate (self w) query
                  (Py.int_or k (top_k_retrieval (config (self w)))))
         (res_documents r) (res_scores r)
  else res_scores r = [].
Proof.
  intros Hmiss Hret.
  destruct (vector_store (self w)) as [vs |] eqn:Hvs; cycle 1.
  { rewrite retrieve_not_loaded in Hret; [done |].
    intros [[? Hv] _]. congruence. }
  destruct (bm25 (self w)) as [b |] eqn:Hb; cycle 1.
  { rewrite retrieve_not_loaded in Hret; [done |].
    intros [_ [? Hv]]. congruence. }
  rewrite (retrieve_miss query k method return_scores w vs b Hvs Hb Hmiss)
    in Hret. cbv zeta in Hret.
  destruct (run_method _ _ _ _ _) as [e | found] eqn:Hrun; [done |].
  simpl in Hret. inversion Hret; subst r; clear Hret. simpl.
  destruct return_scores; [| done].
  apply run_method_scored in Hrun. split; [| done].
  symmetry. by eapply Forall2_length.
Qed.


(** *** The cache is never filled *)

(** Through the methods alone the cache stays empty, so a repeated query
    is scored again. *)
Lemma retrieve_leaves_cache_unused w query k method return_scores :
  reachable w ->
  cache_unused (self (retrieve_documents query k method return_scores w).2).
Proof.
  intros Hw. apply reachable_cache_unused. by apply reach_retrieve.
Qed.

(** On a cache that is [None] or empty the lookup of line 418 stops at
    the truth value of the dictionary, and so does the write of line 446:
    neither reads the clock. *)
Lemma check_cache_unused h w :
  cache_unused (self w) -> check_cache h w = (inr None, w).
Proof.
  unfold check_cache, bind, get_self, ret. simpl.
  intros [-> | ->]; [done |]. by rewrite dict_truthy_empty.
Qed.

Lemma store_cache_unused h r w :
  cache_unused (self w) -> store_cache h r w = (inr tt, w).
Proof.
  unfold store_cache, bind, get_self, ret. simpl.
  intros [-> | ->]; [done |]. by rewrite dict_truthy_empty.
Qed.

(** A call on a loaded retriever whose cache holds nothing. *)
Lemma retrieve_unused query k method return_scores w :
  loaded (self w) ->
  cache_unused (self w) ->
  retrieve_documents query k method return_scores w =
  match run_method (self w) query
          (Py.int_or k (top_k_retrieval (config (self w))))
          method return_scores with
  | inl e => (inl e, tick w)
  | inr found =>
      (inr {| res_documents := found.1;
              res_scores := if return_scores then found.2 else [];
              res_retrieval_time := clock (S (ticks w)) - clock (ticks w);
              res_method_used := method;
              res_query_hash := md5 query;
              res_total_candidates := length (documents (self w)) |},
       tick (tick w))
  end.
Proof.
  intros [[vs Hvs] [b Hb]] Hunused.
  rewrite (retrieve_miss query k method return_scores w vs b Hvs Hb
             (cache_unused_miss _ _ _ Hunused)).
  cbv zeta. rewrite (check_cache_unused _ (tick w) Hunused). simpl.
  destruct (run_method _ _ _ _ _) as [e | found]; [done |].
  by rewrite (store_cache_unused _ _ (tick (tick w)) Hunused).
Qed.

(** Every query on a loaded retriever reached through its methods is
    answered by scoring, never from the cache: when the dispatch of lines
    425-432 raises for the query, [k] (or the default count) and the
    method, the call raises the same after one reading of the clock; and
    whatever the call returns holds the chunks and scores the dispatch has
    just computed, after two readings of the clock.  In both cases the
    retriever and the files are as before. *)
Theorem query_always_scored
    (w : World) (query : string) (k : option Z) (method : string)
    (return_scores : bool) :
  reachable w ->
  loaded (self w) ->
  let scored :=
    run_method (self w) query
      (Py.int_or k (top_k_retrieval (config (self w))))
      method return_scores in
  let out := retrieve_documents query k method return_scores w in
  (forall e, scored = inl e -> out = (inl e, tick w)) /\
  (forall r, out.1 = inr r ->
     exists found,
       scored = inr found /\
       res_documents r = found.1 /\
       res_scores r = (if return_scores then found.2 else []) /\
       res_method_used r = method /\
       res_query_hash r = md5 query /\
       out.2 = tick (tick w)).
Proof.
  intros Hreach Hloaded scored out. subst scored out.
  rewrite (retrieve_unused query k method return_scores w Hloaded
             (reachable_cache_unused w Hreach)).
  destruct (run_method _ _ _ _ _) as [e | found]; split.
  - by intros e' [= <-].
  - done.
  - done.
  - intros r [= <-]. exists found. done.
Qed.

(** C9 (what the code does). With caching enabled, the cache of a retriever
    reached through its methods is the empty dictionary before a query and
    still the empty dictionary after it, whether the query succeeded or
    not: no entry is stored, so there is no entry to expire and every
    later call for the same query scores again. *)
Theorem retrieve_stores_no_entry
    (w : World) (query : string) (k : option Z) (method : string)
    (return_scores : bool) :
  reachable w ->
  enable_caching (config (self w)) = true ->
  let out := retrieve_documents query k method return_scores w in
  query_cache (self w) = Some ∅ /\
  query_cache (self out.2) = Some ∅ /\
  forall q now, live_entry (self out.2) q now = None.
Proof.
  intros Hreach Hon out.
  pose proof (reachable_cache_as_constructed w Hreach) as Hcache.
  unfold cache_as_constructed in Hcache. rewrite Hon in Hcache.
  assert (Hself : self out.2 = self w).
  { subst out.
    destruct (vector_store (self w)) as [vs |] eqn:Hvs; cycle 1.
    { rewrite retrieve_not_loaded; [done |]. intros [[? Hv] _]. congruence. }
    destruct (bm25 (self w)) as [b |] eqn:Hb; cycle 1.
    { rewrite retrieve_not_loaded; [done |]. intros [_ [? Hv]]. congruence. }
    rewrite retrieve_unused.
    - by destruct (run_method _ _ _ _ _).
    - split; eauto.
    - by apply reachable_cache_unused. }
  rewrite Hself. split; [done |]. split; [done |].
  intros q now. apply cache_unused_miss. by right.
Qed.

End RetrieveFacts.


(** ** Lexical retrieval *)

Section LexicalFacts.

Context `{Externals}.

Lemma top_indices_eq scores k :
  0 < k ->
  top_indices scores k =
  reverse (drop (length scores - Z.to_nat k) (Np.argsort scores)).
Proof.
  intros Hk. unfold top_indices, Py.reversed.
  rewrite slice_last_pos by done. by rewrite NpFacts.argsort_length.
Qed.

Lemma top_indices_length scores k :
  0 < k ->
  length (top_indices scores k) = Nat.min (Z.to_nat k) (length scores).
Proof.
  intros Hk. rewrite top_indices_eq by done.
  rewrite length_reverse, length_drop, NpFacts.argsort_length. lia.
Qed.

Lemma top_indices_NoDup scores k : 0 < k -> NoDup (top_indices scores k).
Proof.
  intros Hk. rewrite top_indices_eq by done. rewrite reverse_Permutation.
  pose proof (NpFacts.argsort_NoDup scores) as Hnd.
  rewrite <- (take_drop (length scores - Z.to_nat k)) in Hnd.
  by apply NoDup_app in Hnd as (_ & _ & Hnd).
Qed.

Lemma argsort_split_sorted scores n :
  (forall i j, i ∈ take n (Np.argsort scores) ->
               j ∈ drop n (Np.argsort scores) -> Np.outranks scores j i) /\
  StronglySorted (fun i j => Np.outranks scores j i)
    (drop n (Np.argsort scores)).
Proof.
  pose proof (NpFacts.argsort_sorted scores) as Hs.
  rewrite <- (take_drop n) in Hs.
  apply StronglySorted_app in Hs as (Hcross & _ & Hdrop). done.
Qed.

(** The selected indices come best first. *)
Lemma top_indices_sorted scores k :
  0 < k -> StronglySorted (Np.outranks scores) (top_indices scores k).
Proof.
  intros Hk. rewrite top_indices_eq by done.
  destruct (argsort_split_sorted scores (length scores - Z.to_nat k))
    as [_ Hdrop].
  apply NpFacts.StronglySorted_reverse in Hdrop. exact Hdrop.
Qed.

(** Every selected index outranks every index left out. *)
Lemma top_indices_best scores k i j :
  0 < k ->
  i ∈ top_indices scores k ->
  (j < length scores)%nat ->
  j ∉ top_indices scores k ->
  Np.outranks scores i j.
Proof.
  intros Hk Hi Hj Hout. rewrite top_indices_eq in Hi, Hout by done.
  rewrite elem_of_reverse in Hi, Hout.
  destruct (argsort_split_sorted scores (length scores - Z.to_nat k))
    as [Hcross _].
  apply Hcross; [| done].
  assert (Hin : j ∈ Np.argsort scores).
  { rewrite NpFacts.argsort_Permutation. apply elem_of_seq. lia. }
  rewrite <- (take_drop (length scores - Z.to_nat k)) in Hin.
  apply elem_of_app in Hin as [Hin | Hin]; done.
Qed.

Lemma pick_total {A : Type} (l : list A) idxs :
  (forall i, i ∈ idxs -> (i < length l)%nat) ->
  exists xs, pick l idxs = inr xs.
Proof.
  induction idxs as [| i rest IH]; intros Hin; simpl; [by eexists |].
  destruct (lookup_lt_is_Some_2 l i) as [x Hx]; [apply Hin; by left |].
  rewrite Hx. destruct IH as [xs ->]; [intros j Hj; apply Hin; by right |].
  by eexists.
Qed.


(** C5 (as the code has it). On a consistent retriever and for [k > 0],
    lexical retrieval scores every corpus chunk against the
    whitespace-tokenized query and returns the chunks at the
    [min k n] best-ranked indices, best first, where an index ranks above
    another when its score is higher or, for equal scores, when it is the
    later one in the corpus: under the insertion order of [argsort] a tie
    is won by the last-seen chunk. *)
Theorem bm25_retrieval_ranking
    (s : TradingKnowledgeRetriever) (b : BM25Okapi) (query : string)
    (k : Z) (return_scores : bool) :
  bm25 s = Some b ->
  corpus_size b = length (documents s) ->
  0 < k ->
  let scores := get_scores b (Py.split query) in
  let top := top_indices scores k in
  exists docs doc_scores,
    _bm25_retrieval s query k return_scores = inr (docs, doc_scores) /\
    length scores = length (documents s) /\
    Forall2 (fun i d => documents s !! i = Some d) top docs /\
    length docs = Nat.min (Z.to_nat k) (length (documents s)) /\
    NoDup top /\
    StronglySorted (Np.outranks scores) top /\
    (forall i j, i ∈ top -> (j < length (documents s))%nat -> j ∉ top ->
                 Np.outranks scores i j).
Proof.
  intros Hb Hsize Hk scores top.
  assert (Hlen : length scores = length (documents s)).
  { subst scores. by rewrite get_scores_length. }
  destruct (pick_total (documents s) top) as [docs Hdocs].
  { intros i Hi. apply top_indices_lt in Hi. lia. }
  destruct (pick_total scores top) as [scs Hscs].
  { intros i Hi. by apply top_indices_lt in Hi. }
  exists docs, (if return_scores then scs else []).
  split.
  { unfold _bm25_retrieval. rewrite Hb. cbv zeta.
    fold scores. fold top. rewrite Hdocs.
    destruct return_scores; [by rewrite Hscs | done]. }
  split; [done |].
  pose proof (pick_Forall2 _ _ _ Hdocs) as Hpick.
  split; [done |]. split.
  { rewrite <- (Forall2_length _ _ _ Hpick). subst top.
    rewrite top_indices_length by done. lia. }
  split; [by apply top_indices_NoDup |].
  split; [by apply top_indices_sorted |].
  intros i j Hi Hj Hout. apply (top_indices_best scores k); [done .. | lia | done].
Qed.

End LexicalFacts.

(** ** Construction *)

Section ConstructionFacts.

Context `{Externals}.

(** The outcome of [_initialize_embeddings] when the API key is set, case
    by case. *)
Lemma initialize_embeddings_run w key :
  getenv_OPENAI_API_KEY = Some key ->
  Py.str_truthy key = true ->
  let cfg := config (self w) in
  let primary := embedding_kwargs cfg key in
  let fallback := fallback_kwargs cfg key in
  let w1 := (set_embeddings primary w).2 in
  _initialize_embeddings w =
  match OpenAIEmbeddings_error primary with
  | Some m => (inl (ProviderError m), w)
  | None =>
      match provider primary "test" with
      | inr v =>
          if Py.list_truthy v && (0 <? Z.of_nat (length v))
          then (inr tt, w1)
          else (inl (ValueError "Embeddings API returned empty result"), w1)
      | inl msg =>
          if Py.str_contains "403" msg || Py.str_contains "Forbidden" msg
          then
            match OpenAIEmbeddings_error fallback with
            | Some m => (inl (ProviderError m), w1)
            | None => (inr tt, (set_embeddings fallback w1).2)
            end
          else (inl (ProviderError msg), w1)
      end
  end.
Proof.
  intros Hkey Htruthy cfg primary fallback w1.
  unfold _initialize_embeddings, try_except at 1. rewrite Hkey. simpl.
  rewrite Htruthy. simpl.
  unfold bind at 1, get_self at 1. simpl.
  unfold bind at 1, OpenAIEmbeddings at 1. fold cfg. fold primary.
  destruct (OpenAIEmbeddings_error primary) as [m |]; [done |].
  unfold ret at 1. simpl.
  unfold bind at 1. simpl. fold w1.
  unfold try_except, bind at 1, lift, embed_query.
  destruct (provider primary "test") as [msg | v]; simpl.
  - unfold access_denied. simpl.
    destruct (Py.str_contains "403" msg || Py.str_contains "Forbidden" msg);
      [| done].
    unfold bind, OpenAIEmbeddings. fold fallback.
    by destruct (OpenAIEmbeddings_error fallback).
  - by destruct (Py.list_truthy v && (0 <? Z.of_nat (length v))).
Qed.


Lemma initialize_embeddings_no_key w :
  Py.opt_str_truthy getenv_OPENAI_API_KEY = false ->
  _initialize_embeddings w =
  (inl (ValueError "OPENAI_API_KEY environment variable not set"), w).
Proof.
  intros Hkey. unfold _initialize_embeddings, try_except. by rewrite Hkey.
Qed.

Lemma opt_str_truthy_Some o :
  Py.opt_str_truthy o = true ->
  exists key, o = Some key /\ Py.str_truthy key = true.
Proof. destruct o as [key |]; [eauto | done]. Qed.

(** [_initialize_embeddings] reads the model name and the endpoint
    override of the configuration and nothing else of [self]. *)
Lemma initialize_embeddings_reads w w' :
  embedding_model (config (self w)) = embedding_model (config (self w')) ->
  base_url (config (self w)) = base_url (config (self w')) ->
  (_initialize_embeddings w).1 = (_initialize_embeddings w').1.
Proof.
  intros Hmodel Hurl.
  destruct (Py.opt_str_truthy getenv_OPENAI_API_KEY) eqn:Hkey.
  - apply opt_str_truthy_Some in Hkey as (key & Hkey & Htruthy).
    rewrite !(initialize_embeddings_run _ key Hkey Htruthy). cbv zeta.
    assert (Hp : embedding_kwargs (config (self w)) key =
                 embedding_kwargs (config (self w')) key)
      by (unfold embedding_kwargs; by rewrite Hmodel, Hurl).
    assert (Hf : fallback_kwargs (config (self w)) key =
                 fallback_kwargs (config (self w')) key)
      by (unfold fallback_kwargs; by rewrite Hmodel).
    rewrite Hp, Hf.
    repeat case_match; done.
  - by rewrite !initialize_embeddings_no_key.
Qed.

Lemma initialize_embeddings_config w :
  config (self (_initialize_embeddings w).2) = config (self w).
Proof.
  destruct (Py.opt_str_truthy getenv_OPENAI_API_KEY) eqn:Hkey.
  - apply opt_str_truthy_Some in Hkey as (key & Hkey & Htruthy).
    rewrite (initialize_embeddings_run _ key Hkey Htruthy). cbv zeta.
    repeat case_match; done.
  - by rewrite initialize_embeddings_no_key.
Qed.

(** C7 (as the code has it). Construction checks nothing in the
    configuration: two configurations with the same embedding model and
    endpoint override construct, or fail to construct, alike, whatever
    their [chunk_size], [chunk_overlap], [top_k_retrieval] and
    [max_workers]; and the instance holds the configuration it was given. *)
Theorem init_no_validation (w : World) (cfg cfg' : RetrievalConfig) :
  embedding_model cfg = embedding_model cfg' ->
  base_url cfg = base_url cfg' ->
  (TradingKnowledgeRetriever_init (Some cfg) w).1 =
  (TradingKnowledgeRetriever_init (Some cfg') w).1 /\
  config (self (TradingKnowledgeRetriever_init (Some cfg) w).2) = cfg.
Proof.
  intros Hmodel Hurl.
  unfold TradingKnowledgeRetriever_init, bind, set_self. simpl. split.
  - by apply initialize_embeddings_reads.
  - by rewrite initialize_embeddings_config.
Qed.

(** C8 (as the code has it). When the trial call fails, the client is
    replaced by one for the default endpoint exactly when the text of the
    failure contains "403" or "Forbidden", whether or not an endpoint
    override was configured, and construction then succeeds without a second
    trial unless making that client fails; any other trial failure is
    raised. *)
Theorem initialize_embeddings_fallback (w : World) (key msg : string) :
  getenv_OPENAI_API_KEY = Some key ->
  Py.str_truthy key = true ->
  OpenAIEmbeddings_error (embedding_kwargs (config (self w)) key) = None ->
  provider (embedding_kwargs (config (self w)) key) "test" = inl msg ->
  let out := _initialize_embeddings w in
  let fallback := fallback_kwargs (config (self w)) key in
  if Py.str_contains "403" msg || Py.str_contains "Forbidden" msg
  then
    match OpenAIEmbeddings_error fallback with
    | Some m => out.1 = inl (ProviderError m)
    | None => out.1 = inr tt /\ embeddings (self out.2) = Some fallback
    end
  else out.1 = inl (ProviderError msg).
Proof.
  intros Hkey Htruthy Hctor Htrial out fallback. subst out.
  rewrite (initialize_embeddings_run _ key Hkey Htruthy). cbv zeta.
  rewrite Hctor, Htrial. fold fallback.
  destruct (Py.str_contains "403" msg || Py.str_contains "Forbidden" msg);
    [| done].
  by destruct (OpenAIEmbeddings_error fallback).
Qed.

End ConstructionFacts.

(** ** Build and reload *)

Section PersistenceFacts.

Context `{Externals}.

(** C6 (as the code has it). A load that fails is reported by the result
    [False]: no exception leaves [load_retrieval_system].  When one of the
    two artifacts is missing, or the semantic-index artifact cannot be read,
    the world is exactly as before the call.  When the semantic-index
    artifact loads and the pickle cannot be read, the load fails with the
    new vector store in place beside the old lexical index and corpus.  No
    load changes the configuration, the embedding client, the cache or the
    files. *)
Theorem load_failure_state (w : World) :
  let out := load_retrieval_system w in
  let cfg := config (self w) in
  (exists ok, out.1 = inr ok) /\
  (faiss_files (disk w) !! faiss_index_path cfg = None \/
   pickle_files (disk w) !! bm25_data_path cfg = None \/
   faiss_files (disk w) !! faiss_index_path cfg = Some Corrupt ->
   out = (inr false, w)) /\
  (forall store,
     faiss_files (disk w) !! faiss_index_path cfg = Some (Stored store) ->
     pickle_files (disk w) !! bm25_data_path cfg = Some Corrupt ->
     out.1 = inr false /\
     vector_store (self out.2) =
       Some {| embedding_function := embeddings (self w);
               docstore := store |} /\
     bm25 (self out.2) = bm25 (self w) /\
     documents (self out.2) = documents (self w)) /\
  (config (self out.2) = cfg /\
   embeddings (self out.2) = embeddings (self w) /\
   query_cache (self out.2) = query_cache (self w) /\
   disk out.2 = disk w).
Proof.
  cbv zeta.
  unfold load_retrieval_system, try_except, bind, get_self, get_disk,
    set_vector_store, set_bm25, set_documents, set_self, ret, raise.
  simpl.
  destruct (faiss_files (disk w) !! _) as [[| store] |];
    destruct (pickle_files (disk w) !! _) as [[| data] |]; simpl;
    try (split; [by eexists | split; [naive_solver | split; [| done]]];
         intros store' Hs Hp; naive_solver).
  destruct (pk_bm25 data) as [b |]; simpl;
    [destruct (pk_documents data) as [docs |]; simpl |];
    (split; [by eexists | split; [naive_solver | split; [| done]]];
     intros store' Hs Hp; naive_solver).
Qed.

Lemma embed_documents_fail e texts t msg :
  t ∈ texts ->
  provider e t = inl msg ->
  exists msg', embed_documents e texts = inl (ProviderError msg').
Proof.
  intros Ht Hfail. induction texts as [| t' rest IH]; [by inversion Ht |].
  simpl. unfold embed_query at 1.
  destruct (provider e t') as [m | v] eqn:Ht'; [by eexists |].
  apply elem_of_cons in Ht as [-> | Ht]; [congruence |].
  destruct (IH Ht) as [msg' ->]. by eexists.
Qed.

(** The chunks a build collects, or the [ValueError] of the splitter or of
    the thread pool; nothing is changed. *)
Lemma load_and_chunk_run folder w :
  _load_and_chunk_documents folder w =
  (match TextSplitter_error (chunk_size (config (self w)))
           (chunk_overlap (config (self w))) with
   | Some msg => inl (ValueError msg)
   | None =>
       if max_workers (config (self w)) <=? 0
       then inl (ValueError "max_workers must be greater than 0")
       else inr (concat (completion_order
                           (default [] (folders (disk w) !! folder))))
   end, w).
Proof.
  unfold _load_and_chunk_documents, RecursiveCharacterTextSplitter_new,
    ThreadPoolExecutor_new, bind, get_self, get_disk, ret, raise. simpl.
  destruct (TextSplitter_error _ _); [done |]. simpl.
  by destruct (_ <=? 0).
Qed.

Lemma load_and_chunk_accepted folder w :
  chunking_accepted (config (self w)) ->
  _load_and_chunk_documents folder w =
  (inr (concat (completion_order (default [] (folders (disk w) !! folder)))),
   w).
Proof.
  intros [Hsplit Hpool]. rewrite load_and_chunk_run, Hsplit.
  destruct (Z.leb_spec (max_workers (config (self w))) 0); [lia | done].
Qed.

Lemma concat_Permutation {A : Type} (l l' : list (list A)) :
  l ≡ₚ l' -> concat l ≡ₚ concat l'.
Proof.
  induction 1 as [| x l l' _ IH | x y l | l l' l'' _ IH1 _ IH2]; simpl.
  - done.
  - by rewrite IH.
  - rewrite !app_assoc. f_equiv. apply Permutation_app_comm.
  - by rewrite IH1.
Qed.

(** The chunks collected from a folder are the chunks of its files. *)
Lemma completion_order_chunks pdfs :
  concat (completion_order pdfs) ≡ₚ concat pdfs.
Proof. apply concat_Permutation, completion_order_Permutation. Qed.

(** A build whose embedding fails stops in [_build_faiss_index], after the
    corpus has been assigned and the clock read twice. *)
Lemma build_embedding_failure_run w folder_arg e pdfs C msg :
  chunking_accepted (config (self w)) ->
  folders (disk w) !!
    (if Py.opt_str_truthy folder_arg then default EmptyString folder_arg
     else pdf_folder (config (self w))) = Some pdfs ->
  embeddings (self w) = Some e ->
  C ∈ concat pdfs ->
  provider e (page_content C) = inl msg ->
  exists msg',
    build_retrieval_system folder_arg w =
    (inl (ProviderError msg'),
     tick (set_documents (concat (completion_order pdfs)) (tick w)).2).
Proof.
  intros Hok Hfolder Hemb HC Hfail.
  assert (Hpdfs : Py.list_truthy pdfs = true).
  { destruct pdfs; [by inversion HC | done]. }
  rewrite <- completion_order_chunks in HC.
  assert (Hdocs : Py.list_truthy (concat (completion_order pdfs)) = true).
  { destruct (concat (completion_order pdfs)); [by inversion HC | done]. }
  destruct (embed_documents_fail e
              (page_content <$> concat (completion_order pdfs))
              (page_content C) msg) as [msg' Hembed]; [| done |].
  { apply list_elem_of_fmap. eauto. }
  exists msg'.
  unfold build_retrieval_system, bind at 1, time_time at 1. simpl.
  unfold bind at 1, get_self at 1. simpl.
  unfold bind at 1, _validate_pdf_folder, bind at 1, get_disk at 1. simpl.
  rewrite Hfolder, Hpdfs. simpl. unfold ret at 1.
  unfold bind at 1. rewrite (load_and_chunk_accepted _ (tick w) Hok). simpl.
  rewrite Hfolder. simpl. rewrite Hdocs. simpl.
  unfold _build_faiss_index, set_documents,
    try_except, bind, get_self, get_disk, set_self, time_time, ret, raise,
    lift.
  simpl.
  unfold FAISS_from_documents. by rewrite Hemb, Hembed.
Qed.

(** C3 (as the code has it). Under a configuration that the splitter and
    the thread pool accept, when the embedding of a chunk of the corpus
    fails, the build raises the provider's exception: neither index is
    replaced and nothing is written to the file system; only the stored
    corpus has already been replaced by the new chunks. *)
Theorem build_embedding_failure
    (w : World) (folder_arg : option string) (e : Embeddings)
    (pdfs : list (list Document)) (C : Document) (msg : string) :
  let folder :=
    if Py.opt_str_truthy folder_arg then default EmptyString folder_arg
    else pdf_folder (config (self w)) in
  chunking_accepted (config (self w)) ->
  folders (disk w) !! folder = Some pdfs ->
  embeddings (self w) = Some e ->
  C ∈ concat pdfs ->
  provider e (page_content C) = inl msg ->
  let out := build_retrieval_system folder_arg w in
  (exists msg', out.1 = inl (ProviderError msg')) /\
  vector_store (self out.2) = vector_store (self w) /\
  bm25 (self out.2) = bm25 (self w) /\
  documents (self out.2) ≡ₚ concat pdfs /\
  disk out.2 = disk w.
Proof.
  intros folder Hok Hfolder Hemb HC Hfail out. subst out folder.
  destruct (build_embedding_failure_run w folder_arg e pdfs C msg
              Hok Hfolder Hemb HC Hfail) as [msg' ->].
  simpl. repeat split; try done; [by eexists |].
  apply completion_order_chunks.
Qed.


(** *** A successful build leaves a loaded, consistent retriever *)

Lemma bind_inr {A B : Type} (m : M A) (f : A -> M B) w b w' :
  bind m f w = (inr b, w') ->
  exists a w1, m w = (inr a, w1) /\ f a w1 = (inr b, w').
Proof.
  unfold bind. destruct (m w) as [[e | a] w1]; [done | eauto].
Qed.

Lemma try_reraise_inr {A : Type} (m : M A) w a w' :
  try_except m (fun e => raise e) w = (inr a, w') -> m w = (inr a, w').
Proof.
  unfold try_except, raise. by destruct (m w) as [[e | a'] w1].
Qed.

Lemma BM25Okapi_new_size corpus b :
  BM25Okapi_new corpus = inr b -> corpus_size b = length corpus.
Proof. destruct corpus; [done |]. by intros [= <-]. Qed.

Lemma build_bm25_index_consistent w t w' :
  _build_bm25_index w = (inr t, w') ->
  vector_store (self w') = vector_store (self w) /\
  documents (self w') = documents (self w) /\
  exists b, bm25 (self w') = Some b /\
            corpus_size b = length (documents (self w)).
Proof.
  unfold _build_bm25_index. intros Hrun.
  apply bind_inr in Hrun as (t0 & w1 & Ht0 & Hrun).
  inversion Ht0; subst; clear Ht0.
  apply try_reraise_inr in Hrun.
  apply bind_inr in Hrun as (s & w2 & Hs & Hrun).
  inversion Hs; subst; clear Hs.
  apply bind_inr in Hrun as (b & w3 & Hb & Hrun).
  unfold lift in Hb. inversion Hb as [[Hnew Hw]]; subst w3; clear Hb.
  apply bind_inr in Hrun as ([] & w4 & Hset & Hrun).
  inversion Hset; subst; clear Hset.
  apply bind_inr in Hrun as (now & w5 & Hnow & Hrun).
  inversion Hnow; subst; clear Hnow.
  inversion Hrun; subst; clear Hrun. simpl.
  repeat split. exists b. split; [done |].
  apply BM25Okapi_new_size in Hnew. by rewrite length_fmap in Hnew.
Qed.

Lemma build_faiss_index_loaded w t w' :
  _build_faiss_index w = (inr t, w') ->
  is_Some (vector_store (self w')) /\
  documents (self w') = documents (self w).
Proof.
  unfold _build_faiss_index. intros Hrun.
  apply bind_inr in Hrun as (t0 & w1 & Ht0 & Hrun).
  inversion Ht0; subst; clear Ht0.
  apply try_reraise_inr in Hrun.
  apply bind_inr in Hrun as (s & w2 & Hs & Hrun).
  inversion Hs; subst; clear Hs.
  apply bind_inr in Hrun as (vs & w3 & Hvs & Hrun).
  unfold lift in Hvs. inversion Hvs as [[Hnew Hw]]; subst w3; clear Hvs.
  apply bind_inr in Hrun as ([] & w4 & Hset & Hrun).
  inversion Hset; subst; clear Hset.
  apply bind_inr in Hrun as (now & w5 & Hnow & Hrun).
  inversion Hnow; subst; clear Hnow.
  inversion Hrun; subst; clear Hrun. simpl. eauto.
Qed.

Lemma save_indices_self w u w' :
  _save_indices w = (inr u, w') -> self w' = self w.
Proof.
  unfold _save_indices, try_except, bind, get_self, get_disk, set_disk,
    ret, raise. simpl.
  destruct (vector_store (self w)) as [vs |]; [| done].
  destruct (read_only (disk w)); [done |]. simpl.
  by intros [= _ <-].
Qed.

(** After a build that returns, both indices are present and the lexical
    index has one entry per stored chunk. *)
Lemma build_success_consistent folder_arg w stats w' :
  build_retrieval_system folder_arg w = (inr stats, w') ->
  loaded (self w') /\ consistent (self w').
Proof.
  unfold build_retrieval_system. intros Hrun.
  apply bind_inr in Hrun as (t0 & w1 & _ & Hrun).
  apply bind_inr in Hrun as (s & w2 & _ & Hrun).
  apply bind_inr in Hrun as (folder & w3 & _ & Hrun).
  apply bind_inr in Hrun as (docs & w4 & _ & Hrun).
  destruct (negb (Py.list_truthy docs)); [done |].
  apply bind_inr in Hrun as ([] & w5 & _ & Hrun).
  apply bind_inr in Hrun as (ft & w6 & Hfaiss & Hrun).
  apply bind_inr in Hrun as (bt & w7 & Hbm25 & Hrun).
  apply bind_inr in Hrun as ([] & w8 & Hsave & Hrun).
  apply bind_inr in Hrun as (now & w9 & Hnow & Hrun).
  inversion Hnow; subst; clear Hnow.
  apply bind_inr in Hrun as (d & w10 & Hd & Hrun).
  inversion Hd; subst; clear Hd. inversion Hrun; subst; clear Hrun.
  simpl. apply save_indices_self in Hsave. rewrite Hsave.
  apply build_faiss_index_loaded in Hfaiss as [Hvs _].
  apply build_bm25_index_consistent in Hbm25 as (Hvs' & Hdocs & b & Hb & Hsz).
  split.
  - split; [by rewrite Hvs' | by rewrite Hb].
  - intros b' Hb'. rewrite Hb in Hb'. inversion Hb'; subst.
    by rewrite Hdocs.
Qed.

End PersistenceFacts.

(** ** Runs of the concrete installation *)

Lemma built_reachable : @reachable Demo.E Demo.built.
Proof.
  unfold Demo.built. apply (@reach_build Demo.E).
  apply (@reach_init Demo.E). vm_compute. reflexivity.
Qed.

Lemma built_loaded : loaded (self Demo.built).
Proof. split; vm_compute; eauto. Qed.

(** Hybrid retrieval of two chunks on the built knowledge base. *)
Lemma hybrid_retrieval_dedup_merge_witness :
  exists docs scores,
    @_hybrid_retrieval Demo.E (self Demo.built) "bullish market" 2 true =
      inr (docs, scores) /\
    Z.of_nat (length docs) <= 2 /\
    NoDup ((fun d => @md5 Demo.E (page_content d)) <$> docs).
Proof.
  destruct (@hybrid_retrieval_dedup_merge Demo.E (self Demo.built)
              "bullish market" 2 true) as [Hshape Hreturns].
  destruct (Hreturns
              {| embedding_function :=
                   Some {| model := "text-embedding-3-small";
                           openai_api_key := "sk-test";
                           openai_api_base := None |};
                 docstore := [(Demo.chunk_a, [27; 5]); (Demo.chunk_b, [26; 4])] |}
              {| corpus_size := 2; doc_len := [5; 4]%nat;
                 doc_freqs :=
                   @count_tokens <$>
                     [Py.split (page_content Demo.chunk_a);
                      Py.split (page_content Demo.chunk_b)] |}
              [(Demo.chunk_b, 148); (Demo.chunk_a, 178)])
    as (docs & scores & Hrun).
  - vm_compute. reflexivity.
  - vm_compute. reflexivity.
  - vm_compute. reflexivity.
  - vm_compute. reflexivity.
  - destruct (Hshape docs scores Hrun)
      as (vs & b & hits & _ & _ & _ & _ & _ & Hlen & Hnd).
    exists docs, scores. auto.
Defined.

(** C1, after a rebuild that failed while embedding: the retriever is
    loaded, its stored corpus is the single new chunk while both indices
    are the old ones over two chunks, and a hybrid query for four chunks
    raises [IndexError] at line 485 instead of returning.  (The two
    semantic hits and the one stored chunk cannot fill four places, so the
    second loop reaches both lexical indices, in whatever order the scores
    put them, and the corpus has no chunk at index 1.) *)
Lemma hybrid_after_failed_rebuild :
  let s := self Demo.failed_rebuild in
  @reachable Demo.E_picky Demo.failed_rebuild /\
  loaded s /\
  documents s = [Demo.chunk_b] /\
  corpus_size <$> bm25 s = Some 2%nat /\
  (length ∘ docstore) <$> vector_store s = Some 2%nat /\
  @_hybrid_retrieval Demo.E_picky s "bullish market" 4 true =
    inl IndexError /\
  (@retrieve_documents Demo.E_picky "bullish market" (Some 4) "hybrid" true
     Demo.failed_rebuild).1 = inl IndexError.
Proof.
  cbv zeta. split.
  - unfold Demo.failed_rebuild, Demo.first_build. cbv zeta.
    apply (@reach_build Demo.E_picky).
    apply (@reach_disk Demo.E_picky).
    apply (@reach_build Demo.E_picky).
    apply (@reach_init Demo.E_picky). vm_compute. reflexivity.
  - split; [split; vm_compute; eauto |].
    repeat split; vm_compute; reflexivity.
Qed.

(** C2, on the built knowledge base with caching enabled: the first call
    leaves the cache empty, and the same query asked again ten clock units
    later with another [k] is scored again and answered differently. *)
Theorem cache_second_call_rescored :
  let first :=
    @retrieve_documents Demo.E "bullish market" (Some 1) "bm25" true
      Demo.built in
  let second :=
    @retrieve_documents Demo.E "bullish market" (Some 2) "bm25" true
      first.2 in
  enable_caching (config (self Demo.built)) = true /\
  query_cache (self Demo.built) = Some ∅ /\
  (exists r1, first.1 = inr r1 /\ res_documents r1 = [Demo.chunk_a]) /\
  query_cache (self first.2) = Some ∅ /\
  @clock Demo.E (ticks first.2) - @clock Demo.E (ticks Demo.built)
    < cache_ttl (config (self Demo.built)) /\
  (exists r2, second.1 = inr r2 /\
              res_documents r2 = [Demo.chunk_a; Demo.chunk_b]) /\
  second.1 <> first.1.
Proof.
  cbv zeta. repeat split; try (vm_compute; reflexivity).
  - eexists. split; vm_compute; reflexivity.
  - eexists. split; vm_compute; reflexivity.
  - vm_compute. intros Heq. discriminate Heq.
Qed.

(** C3, on a provider that fails for one chunk only: the build raises the
    provider's exception, leaves the retriever without any index and writes
    nothing. *)
Lemma build_partial_failure_aborts :
  let w := Demo.fresh Demo.E_picky in
  let out := @build_retrieval_system Demo.E_picky None w in
  (forall e, @provider Demo.E_picky e (page_content Demo.chunk_a) =
             inr [27; 5]) /\
  (forall e, @provider Demo.E_picky e (page_content Demo.chunk_b) =
             inl "Request timed out"%string) /\
  out.1 = inl (ProviderError "Request timed out") /\
  vector_store (self out.2) = None /\
  bm25 (self out.2) = None /\
  documents (self out.2) = [Demo.chunk_a; Demo.chunk_b] /\
  disk out.2 = disk w.
Proof. cbv zeta. repeat split; vm_compute; reflexivity. Qed.

Lemma build_embedding_failure_witness :
  let w := Demo.fresh Demo.E_picky in
  let out := @build_retrieval_system Demo.E_picky None w in
  (exists msg', out.1 = inl (ProviderError msg')) /\
  vector_store (self out.2) = vector_store (self w) /\
  bm25 (self out.2) = bm25 (self w) /\
  documents (self out.2) ≡ₚ [Demo.chunk_a; Demo.chunk_b] /\
  disk out.2 = disk w.
Proof.
  apply (@build_embedding_failure Demo.E_picky (Demo.fresh Demo.E_picky) None
           {| model := "text-embedding-3-small"; openai_api_key := "sk-test";
              openai_api_base := None |}
           [[Demo.chunk_a; Demo.chunk_b]] Demo.chunk_b "Request timed out").
  - split; vm_compute; reflexivity.
  - vm_compute. reflexivity.
  - vm_compute. reflexivity.
  - simpl. right. left.
  - vm_compute. reflexivity.
Defined.

Lemma retrieve_unknown_method_witness :
  (@retrieve_documents Demo.E "bullish market" (Some 2) "bogus" true
     Demo.built).1 = inl (UnknownMethodError "bogus").
Proof.
  apply (proj1 (@retrieve_unknown_method Demo.E Demo.built
                  "bullish market" (Some 2) "bogus" true
                  ltac:(unfold Demo.built; apply (@reach_build Demo.E);
                        apply (@reach_init Demo.E); vm_compute; reflexivity)
                  ltac:(split; vm_compute; eauto))).
  intros []; vm_compute; discriminate.
Defined.

(** C5, on the built knowledge base: for a query that scores both chunks
    alike, the single chunk returned is the second one of the corpus. *)
Lemma bm25_tie_last_seen :
  let s := self Demo.built in
  documents s = [Demo.chunk_a; Demo.chunk_b] /\
  (exists b, bm25 s = Some b /\
             @get_scores Demo.E b (Py.split "gold") = [0; 0]) /\
  @_bm25_retrieval Demo.E s "gold" 1 true = inr ([Demo.chunk_b], [0]).
Proof.
  cbv zeta. split; [vm_compute; reflexivity |]. split.
  - eexists. split; vm_compute; reflexivity.
  - vm_compute. reflexivity.
Qed.

Lemma bm25_retrieval_ranking_witness :
  exists docs doc_scores,
    @_bm25_retrieval Demo.E (self Demo.built) "gold" 1 true =
      inr (docs, doc_scores) /\
    length docs = 1%nat.
Proof.
  destruct (@bm25_retrieval_ranking Demo.E (self Demo.built)
              {| corpus_size := 2; doc_len := [5; 4]%nat;
                 doc_freqs :=
                   @count_tokens <$>
                     [Py.split (page_content Demo.chunk_a);
                      Py.split (page_content Demo.chunk_b)] |}
              "gold" 1 true)
    as (docs & doc_scores & Hrun & _ & _ & Hlen & _).
  - vm_compute. reflexivity.
  - vm_compute. reflexivity.
  - lia.
  - exists docs, doc_scores. split; [exact Hrun | exact Hlen].
Defined.

(** C6, on a file system whose semantic-index artifact loads and whose
    pickle does not: the load returns [False] and leaves the new vector
    store next to the old lexical index and corpus. *)
Lemma load_torn_state :
  let out := load_retrieval_system Demo.torn in
  out.1 = inr false /\
  self out.2 <> self Demo.torn /\
  docstore <$> vector_store (self out.2) = Some [(Demo.chunk_c, [14; 2])] /\
  docstore <$> vector_store (self Demo.torn) =
    Some [(Demo.chunk_a, [27; 5]); (Demo.chunk_b, [26; 4])] /\
  bm25 (self out.2) = bm25 (self Demo.torn) /\
  documents (self out.2) = [Demo.chunk_a; Demo.chunk_b].
Proof.
  cbv zeta. repeat split; try (vm_compute; reflexivity).
  intros Heq. apply (f_equal (fun s => docstore <$> vector_store s)) in Heq.
  vm_compute in Heq. discriminate Heq.
Qed.

Lemma load_failure_state_witness :
  load_retrieval_system (Demo.world0 Demo.empty_disk) =
    (inr false, Demo.world0 Demo.empty_disk) /\
  (load_retrieval_system Demo.torn).1 = inr false /\
  bm25 (self (load_retrieval_system Demo.torn).2) = bm25 (self Demo.torn) /\
  documents (self (load_retrieval_system Demo.torn).2) =
    documents (self Demo.torn) /\
  disk (load_retrieval_system Demo.torn).2 = disk Demo.torn.
Proof.
  split.
  - apply (proj1 (proj2 (load_failure_state (Demo.world0 Demo.empty_disk)))).
    left. vm_compute. reflexivity.
  - destruct (load_failure_state Demo.torn)
      as (_ & _ & Hmixed & _ & _ & _ & Hdisk).
    destruct (Hmixed [(Demo.chunk_c, [14; 2])])
      as (Hfalse & _ & Hbm25 & Hdocs).
    + vm_compute. reflexivity.
    + vm_compute. reflexivity.
    + auto.
Defined.

(** C7, on a configuration with [chunk_overlap >= chunk_size],
    [top_k_retrieval = 0] and [max_workers = 0]: construction succeeds and
    the instance holds that configuration. *)
Lemma init_accepts_invalid_config :
  let out :=
    @TradingKnowledgeRetriever_init Demo.E (Some Demo.bad_config)
      (Demo.world0 Demo.kb_disk) in
  let cfg := config (self out.2) in
  out.1 = inr tt /\
  ~ chunk_overlap cfg < chunk_size cfg /\
  ~ top_k_retrieval cfg > 0 /\
  ~ max_workers cfg >= 1.
Proof.
  cbv zeta.
  assert (Hcfg :
    config (self (@TradingKnowledgeRetriever_init Demo.E
                    (Some Demo.bad_config) (Demo.world0 Demo.kb_disk)).2) =
    Demo.bad_config) by (vm_compute; reflexivity).
  rewrite Hcfg. split; [vm_compute; reflexivity |].
  unfold Demo.bad_config. simpl. lia.
Qed.

Lemma init_no_validation_witness :
  (@TradingKnowledgeRetriever_init Demo.E (Some Demo.bad_config)
     (Demo.world0 Demo.kb_disk)).1 =
  (@TradingKnowledgeRetriever_init Demo.E (Some RetrievalConfig_default)
     (Demo.world0 Demo.kb_disk)).1 /\
  config (self (@TradingKnowledgeRetriever_init Demo.E (Some Demo.bad_config)
                  (Demo.world0 Demo.kb_disk)).2) = Demo.bad_config.
Proof.
  apply (@init_no_validation Demo.E (Demo.world0 Demo.kb_disk)
           Demo.bad_config RetrievalConfig_default).
  - reflexivity.
  - reflexivity.
Defined.

(** C8, with no endpoint override configured and a provider that refuses
    the trial call with a 403: construction succeeds. *)
Lemma init_fallback_without_override :
  let out :=
    @TradingKnowledgeRetriever_init Demo.E_blocked None
      (Demo.world0 Demo.kb_disk) in
  base_url (config (self out.2)) = None /\
  (forall e text, @provider Demo.E_blocked e text =
                  inl "Error code: 403 - Forbidden"%string) /\
  out.1 = inr tt /\
  embeddings (self out.2) =
    Some (fallback_kwargs RetrievalConfig_default "sk-test").
Proof. cbv zeta. repeat split; vm_compute; reflexivity. Qed.

Lemma initialize_embeddings_fallback_witness :
  let out := @_initialize_embeddings Demo.E_blocked
               (Demo.world0 Demo.kb_disk) in
  out.1 = inr tt /\
  embeddings (self out.2) =
    Some (fallback_kwargs RetrievalConfig_default "sk-test").
Proof.
  apply (@initialize_embeddings_fallback Demo.E_blocked
           (Demo.world0 Demo.kb_disk) "sk-test"
           "Error code: 403 - Forbidden").
  - reflexivity.
  - reflexivity.
  - reflexivity.
  - reflexivity.
Defined.

Lemma retrieve_scores_aligned_witness :
  exists r,
    (@retrieve_documents Demo.E "bullish market" (Some 2) "hybrid" true
       Demo.built).1 = inr r /\
    length (res_scores r) = length (res_documents r).
Proof.
  eexists. split; [vm_compute; reflexivity |].
  apply (@retrieve_scores_aligned Demo.E Demo.built "bullish market"
           (Some 2) "hybrid" true).
  - vm_compute. reflexivity.
  - vm_compute. reflexivity.
Defined.

(** C9, on the built knowledge base with caching enabled: a query
    succeeds and the cache is the empty dictionary afterwards. *)
Lemma retrieve_stores_no_entry_witness :
  let out :=
    @retrieve_documents Demo.E "bullish market" (Some 2) "bm25" true
      Demo.built in
  (exists r, out.1 = inr r /\
             res_documents r = [Demo.chunk_a; Demo.chunk_b]) /\
  enable_caching (config (self Demo.built)) = true /\
  query_cache (self out.2) = Some ∅.
Proof.
  split; [eexists; split; vm_compute; reflexivity |].
  split; [vm_compute; reflexivity |].
  destruct (@retrieve_stores_no_entry Demo.E Demo.built "bullish market"
              (Some 2) "bm25" true) as (_ & Hafter & _).
  - exact built_reachable.
  - vm_compute. reflexivity.
  - exact Hafter.
Defined.

(** A lexical query on the built knowledge base: computed by the dispatch,
    two readings of the clock. *)
Lemma query_always_scored_witness :
  exists r,
    (@retrieve_documents Demo.E "bullish market" (Some 1) "bm25" true
       Demo.built).1 = inr r /\
    res_documents r = [Demo.chunk_a] /\
    res_scores r = [2] /\
    (@retrieve_documents Demo.E "bullish market" (Some 1) "bm25" true
       Demo.built).2 = tick (tick Demo.built).
Proof.
  destruct (@query_always_scored Demo.E Demo.built "bullish market"
              (Some 1) "bm25" true built_reachable built_loaded)
    as [_ Hreturned].
  destruct (@retrieve_documents Demo.E "bullish market" (Some 1) "bm25" true
              Demo.built) as [[e | r] w'] eqn:Hcall.
  - vm_compute in Hcall. discriminate Hcall.
  - exists r. destruct (Hreturned r eq_refl)
      as (found & Hscored & Hdocs & Hscores & _ & _ & Hworld).
    vm_compute in Hscored. injection Hscored as <-.
    simpl in *. auto.
Defined.

(** ** More about queries *)

Section QueryFacts.

Context `{Externals}.

(** A query before any build or load raises the not-loaded error, and the
    call changes nothing, not even the count of clock readings. *)
Theorem unloaded_query_raises
    (w : World) (query : string) (k : option Z) (method : string)
    (return_scores : bool) :
  vector_store (self w) = None \/ bm25 (self w) = None ->
  retrieve_documents query k method return_scores w =
  (inl NotLoadedError, w).
Proof.
  intros Hnone. apply retrieve_not_loaded.
  intros [[vs Hvs] [b Hb]]. destruct Hnone; congruence.
Qed.

(** *** What a query leaves alone *)

Lemma frozen_time x : preserves (fun w => frozen w = x) time_time.
Proof. by intros w Hw. Qed.

Lemma frozen_check_cache x h :
  preserves (fun w => frozen w = x) (check_cache h).
Proof.
  intros w Hw. destruct (check_cache_snd h w) as (Hs & Hd & _).
  unfold frozen in *. by rewrite Hs, Hd.
Qed.

Lemma frozen_store_cache x h r :
  preserves (fun w => frozen w = x) (store_cache h r).
Proof.
  intros w Hw. unfold store_cache, bind, get_self, ret, time_time,
    set_query_cache, set_self. simpl.
  destruct (query_cache (self w)) as [cache |]; simpl; [| done].
  by destruct (Py.dict_truthy cache).
Qed.

Ltac frozen_step :=
  first
    [ apply preserves_ret | apply preserves_raise | apply preserves_lift
    | apply preserves_get_self
    | apply frozen_time | apply frozen_check_cache | apply frozen_store_cache
    | apply preserves_bind; [| intros ?]
    | apply preserves_try; [| intros ?]
    | match goal with
      | |- preserves _ (match ?x with _ => _ end) => destruct x
      | |- preserves _ (let _ := _ in _) => cbv zeta
      end ].

(** Whatever a query returns or raises, it leaves the configuration, the
    embedding client, both indices, the corpus and the files exactly as they
    were: only the cache and the clock can differ afterwards. *)
Theorem retrieve_reads_only
    (w : World) (query : string) (k : option Z) (method : string)
    (return_scores : bool) :
  frozen (retrieve_documents query k method return_scores w).2 = frozen w.
Proof.
  assert (Hp : preserves (fun w' => frozen w' = frozen w)
                 (retrieve_documents query k method return_scores)).
  { unfold retrieve_documents. repeat frozen_step. }
  by apply Hp.
Qed.

(** Asking for zero results is asking for the default number: on a
    loaded, consistent retriever without a live entry for the query, a
    lexical query with [k = 0] (or with no [k]) returns
    [min top_k_retrieval n] chunks when [top_k_retrieval] is positive, not
    none. *)
Theorem zero_k_returns_default_count
    (w : World) (b : BM25Okapi) (query : string) (k : option Z)
    (return_scores : bool) :
  is_Some (vector_store (self w)) ->
  bm25 (self w) = Some b ->
  corpus_size b = length (documents (self w)) ->
  live_entry (self w) query (clock (S (ticks w))) = None ->
  0 < top_k_retrieval (config (self w)) ->
  k = None \/ k = Some 0 ->
  exists r,
    (retrieve_documents query k "bm25" return_scores w).1 = inr r /\
    length (res_documents r) =
    Nat.min (Z.to_nat (top_k_retrieval (config (self w))))
            (length (documents (self w))).
Proof.
  intros [vs Hvs] Hb Hsize Hmiss Hpos Hk.
  rewrite (retrieve_miss query k "bm25" return_scores w vs b Hvs Hb Hmiss).
  cbv zeta.
  assert (Hk' : Py.int_or k (top_k_retrieval (config (self w))) =
                top_k_retrieval (config (self w))).
  { by destruct Hk as [-> | ->]. }
  rewrite Hk'. set (kk := top_k_retrieval (config (self w))) in *.
  unfold run_method. simpl. unfold _bm25_retrieval. rewrite Hb. cbv zeta.
  pose proof (get_scores_length b (Py.split query)) as Hlen.
  destruct (pick_total (documents (self w))
              (top_indices (get_scores b (Py.split query)) kk))
    as [docs Hdocs].
  { intros i Hi. apply top_indices_lt in Hi. lia. }
  destruct (pick_total (get_scores b (Py.split query))
              (top_indices (get_scores b (Py.split query)) kk))
    as [scs Hscs].
  { intros i Hi. by apply top_indices_lt in Hi. }
  rewrite Hdocs.
  assert (Hn : length docs = Nat.min (Z.to_nat kk)
                               (length (documents (self w)))).
  { rewrite <- (Forall2_length _ _ _ (pick_Forall2 _ _ _ Hdocs)).
    rewrite top_indices_length by done. lia. }
  destruct return_scores; [rewrite Hscs |]; simpl; eauto.
Qed.

(** Whether scores are asked for does not change which chunks a method
    finds, nor whether it fails: without scores the same chunks come back
    with an empty score list. *)
Theorem scores_do_not_change_chunks
    (s : TradingKnowledgeRetriever) (query : string) (k : Z)
    (method : string) :
  run_method s query k method false =
  match run_method s query k method true with
  | inl e => inl e
  | inr found => inr (found.1, [])
  end.
Proof.
  unfold run_method.
  destruct (String.eqb method "hybrid").
  { unfold _hybrid_retrieval.
    destruct (vector_store s) as [vs |]; [| done].
    destruct (similarity_search_with_score vs query k); [done |].
    destruct (bm25 s) as [b |]; [| done]. cbv zeta.
    by destruct (bm25_loop _ _ _ _ _). }
  destruct (String.eqb method "faiss").
  { unfold _faiss_retrieval, similarity_search.
    destruct (vector_store s) as [vs |]; [| done].
    by destruct (similarity_search_with_score vs query k). }
  destruct (String.eqb method "bm25"); [| done].
  unfold _bm25_retrieval.
  destruct (bm25 s) as [b |]; [| done]. cbv zeta.
  destruct (pick (documents s) _) as [e | docs]; [done |].
  destruct (pick_total (get_scores b (Py.split query))
              (top_indices (get_scores b (Py.split query)) k)) as [scs ->];
    [| done].
  intros i Hi. by apply top_indices_lt in Hi.
Qed.


(** *** The edges of [k] *)

Lemma pick_omap {A : Type} (l : list A) idxs : forall xs,
  pick l idxs = inr xs -> xs = omap (fun i => l !! i) idxs.
Proof.
  induction idxs as [| i rest IH]; intros xs; simpl.
  - by intros [= <-].
  - destruct (l !! i) as [x |]; [| done].
    destruct (pick l rest) as [e | xs']; [done |].
    intros [= <-]. f_equal. by apply IH.
Qed.

Lemma omap_lookup_seq_from {A : Type} (l : list A) : forall pre,
  omap (fun i => (pre ++ l) !! i) (seq (length pre) (length l)) = l.
Proof.
  induction l as [| x l IH]; intros pre; [done |]. simpl.
  rewrite (list_lookup_middle pre l x (length pre) eq_refl). f_equal.
  specialize (IH (pre ++ [x])).
  rewrite length_app, Nat.add_1_r, <- app_assoc in IH. exact IH.
Qed.

Lemma omap_lookup_seq {A : Type} (l : list A) :
  omap (fun i => l !! i) (seq 0 (length l)) = l.
Proof. exact (omap_lookup_seq_from l []). Qed.

Lemma top_indices_all scores k :
  k = 0 \/ Z.of_nat (length scores) <= k ->
  top_indices scores k = reverse (Np.argsort scores).
Proof.
  intros Hk. unfold top_indices, Py.reversed, Py.slice_last. cbv zeta.
  destruct (- k <? 0) eqn:E.
  - f_equal. rewrite NpFacts.argsort_length.
    replace (Z.to_nat (Z.of_nat (length scores) + - k)) with 0%nat by lia.
    done.
  - f_equal. replace (Z.to_nat (- k)) with 0%nat by lia. done.
Qed.

(** Lexical retrieval with [k = 0], or with [k] at least the size of the
    corpus, returns every chunk of the corpus (each once, in rank order):
    the slice [[-0:]] is the whole array.  Hybrid retrieval with [k <= 0]
    never returns: it raises what the semantic search raises, which is the
    [AssertionError] of the index search once the query is embedded. *)
Theorem zero_k_lexical_all_hybrid_raises
    (s : TradingKnowledgeRetriever) (b : BM25Okapi) (query : string)
    (k : Z) (return_scores : bool) :
  bm25 s = Some b ->
  corpus_size b = length (documents s) ->
  (k = 0 \/ Z.of_nat (length (documents s)) <= k ->
   exists docs doc_scores,
     _bm25_retrieval s query k return_scores = inr (docs, doc_scores) /\
     docs ≡ₚ documents s) /\
  (k <= 0 ->
   (exists e, _hybrid_retrieval s query k return_scores = inl e) /\
   forall vs emb v,
     vector_store s = Some vs ->
     embedding_function vs = Some emb ->
     embed_query emb query = inr v ->
     _hybrid_retrieval s query k return_scores = inl AssertionError).
Proof.
  intros Hb Hsize. split.
  - intros Hk.
    pose proof (get_scores_length b (Py.split query)) as Hlen.
    assert (Htop : top_indices (get_scores b (Py.split query)) k =
                   reverse (Np.argsort (get_scores b (Py.split query)))).
    { apply top_indices_all. rewrite Hlen, Hsize. done. }
    destruct (pick_total (documents s)
                (top_indices (get_scores b (Py.split query)) k))
      as [docs Hdocs].
    { intros i Hi. apply top_indices_lt in Hi. lia. }
    destruct (pick_total (get_scores b (Py.split query))
                (top_indices (get_scores b (Py.split query)) k))
      as [scs Hscs].
    { intros i Hi. by apply top_indices_lt in Hi. }
    exists docs, (if return_scores then scs else []). split.
    + unfold _bm25_retrieval. rewrite Hb. cbv zeta. rewrite Hdocs.
      destruct return_scores; [by rewrite Hscs | done].
    + rewrite (pick_omap _ _ _ Hdocs), Htop.
      rewrite reverse_Permutation, NpFacts.argsort_Permutation.
      rewrite Hlen, Hsize. by rewrite omap_lookup_seq.
  - intros Hk. split.
    + unfold _hybrid_retrieval.
      destruct (vector_store s) as [vs |]; [| by eexists].
      destruct (similarity_search_with_score vs query k) as [e | hits]
        eqn:Hsearch; [by eexists |].
      apply search_answers_pos in Hsearch. lia.
    + intros vs emb v Hvs Hemb Hv.
      unfold _hybrid_retrieval, similarity_search_with_score.
      rewrite Hvs, Hemb, Hv.
      destruct (Z.leb_spec k 0); [done | lia].
Qed.


(** *** Semantic hits come first *)

Lemma merge_walk_elem_of l : forall seen n d,
  d ∈ merge_walk n seen l -> d ∈ l.
Proof.
  induction l as [| x rest IH]; intros seen n d.
  - destruct n; simpl; by intros Hd%elem_of_nil.
  - destruct n as [| n]; simpl; [by intros Hd%elem_of_nil |].
    destruct (decide _).
    + intros Hd. right. by eapply IH.
    + intros Hd. apply elem_of_cons in Hd as [-> | Hd]; [by left |].
      right. by eapply IH.
Qed.

(** In a hybrid result the deduplicated semantic hits come first, ahead of
    every lexical candidate whatever its score; what follows are lexical
    candidates whose content no semantic hit has; and when the semantic
    hits alone fill [k] places, the lexical index adds nothing. *)
Theorem hybrid_semantic_first
    (s : TradingKnowledgeRetriever) (vs : FAISS) (b : BM25Okapi)
    (query : string) (k : Z) (return_scores : bool)
    (faiss_docs : list (Document * Z)) :
  vector_store s = Some vs ->
  bm25 s = Some b ->
  corpus_size b = length (documents s) ->
  similarity_search_with_score vs query k = inr faiss_docs ->
  0 < k ->
  let semantic := merge_walk (Z.to_nat k) ∅ faiss_docs.*1 in
  exists scores rest,
    _hybrid_retrieval s query k return_scores =
      inr (semantic ++ rest, scores) /\
    (forall d, d ∈ rest ->
       d ∈ lexical_candidates s b query k /\
       forall d', d' ∈ faiss_docs.*1 ->
         md5 (page_content d) <> md5 (page_content d')) /\
    (length semantic = Z.to_nat k -> rest = []).
Proof.
  intros Hvs Hb Hsize Hsearch Hk semantic.
  unfold _hybrid_retrieval. rewrite Hvs, Hsearch, Hb. cbv zeta.
  destruct (faiss_loop_docs faiss_docs Combined_empty) as [Hdocs Hseen].
  destruct (bm25_loop_docs (documents s)
              (get_scores b (Py.split query)) k
              (top_indices (get_scores b (Py.split query)) k)
              (foldl faiss_step Combined_empty faiss_docs) Hk
              (lexical_candidates_pick s b query k Hsize))
    as (c' & Hrun & Htake).
  rewrite Hrun. rewrite slice_to_pos by lia.
  rewrite Htake, Hdocs, Hseen. simpl.
  rewrite take_app. fold (lexical_candidates s b query k).
  rewrite <- (merge_walk_take faiss_docs.*1 ∅ (Z.to_nat k)). fold semantic.
  eexists _, _. split; [reflexivity |]. split.
  - intros d Hd. apply subseteq_take in Hd.
    pose proof (merge_walk_elem_of _ _ _ _ Hd) as Hlex.
    split; [done |]. intros d' Hd' Heq.
    destruct (merge_walk_fresh (lexical_candidates s b query k)
                (∅ ∪ list_to_set
                       ((fun d => md5 (page_content d)) <$> faiss_docs.*1))
                (length (lexical_candidates s b query k))) as [_ Hfresh].
    apply (Hfresh d Hd). rewrite Heq.
    apply elem_of_union_r, elem_of_list_to_set, list_elem_of_fmap. eauto.
  - intros Hfull.
    assert (Hle : (Z.to_nat k <=
                   length (merge_walk (length faiss_docs.*1) ∅
                             faiss_docs.*1))%nat).
    { subst semantic. rewrite merge_walk_take, length_take in Hfull. lia. }
    replace (Z.to_nat k - _)%nat with 0%nat by lia. done.
Qed.

End QueryFacts.

(** ** More about build, save and reload *)

Section LifecycleFacts.

Context `{Externals}.

Lemma embed_documents_length e texts vectors :
  embed_documents e texts = inr vectors -> length vectors = length texts.
Proof.
  revert vectors. induction texts as [| t rest IH]; intros vectors; simpl.
  - by intros [= <-].
  - destruct (embed_query e t) as [err | v]; [done |].
    destruct (embed_documents e rest) as [err | vs]; [done |].
    intros [= <-]. simpl. f_equal. by apply IH.
Qed.

Lemma FAISS_from_documents_store docs emb vs :
  FAISS_from_documents docs emb = inr vs ->
  embedding_function vs = emb /\ (docstore vs).*1 = docs /\ docs <> [].
Proof.
  unfold FAISS_from_documents. destruct emb as [e |]; [| done].
  destruct (embed_documents e (page_content <$> docs)) as [err | vectors]
    eqn:He; [done |].
  apply embed_documents_length in He. rewrite length_fmap in He.
  destruct vectors as [| v vectors]; [done |].
  intros [= <-]. simpl. split; [done |]. split.
  - by apply fst_zip; rewrite He.
  - intros ->. done.
Qed.

Lemma build_faiss_index_run w t w' :
  _build_faiss_index w = (inr t, w') ->
  exists vs,
    FAISS_from_documents (documents (self w)) (embeddings (self w)) =
      inr vs /\
    w' = tick (set_vector_store vs (tick w)).2.
Proof.
  unfold _build_faiss_index, try_except, bind, time_time, get_self, lift,
    ret, raise. simpl.
  destruct (FAISS_from_documents _ _) as [e | vs]; [done |]. simpl.
  intros [= _ <-]. eauto.
Qed.

Lemma build_bm25_index_run w t w' :
  _build_bm25_index w = (inr t, w') ->
  exists b,
    BM25Okapi_new
      ((fun doc => Py.split (page_content doc)) <$> documents (self w)) =
      inr b /\
    w' = tick (set_bm25 (Some b) (tick w)).2.
Proof.
  unfold _build_bm25_index, try_except, bind, time_time, get_self, lift,
    ret, raise. simpl.
  destruct (BM25Okapi_new _) as [e | b]; [done |]. simpl.
  intros [= _ <-]. eauto.
Qed.

Lemma save_indices_run w u w' :
  _save_indices w = (inr u, w') ->
  exists vs,
    vector_store (self w) = Some vs /\
    self w' = self w /\
    ticks w' = ticks w /\
    faiss_files (disk w') =
      <[faiss_index_path (config (self w)) := Stored (docstore vs)]>
        (faiss_files (disk w)) /\
    pickle_files (disk w') =
      <[bm25_data_path (config (self w)) :=
          Stored {| pk_bm25 := Some (bm25 (self w));
                    pk_documents := Some (documents (self w));
                    pk_config := Some (config (self w)) |}]>
        (pickle_files (disk w)) /\
    folders (disk w') = folders (disk w).
Proof.
  unfold _save_indices, try_except, bind, get_self, get_disk, set_disk,
    ret, raise. simpl.
  destruct (vector_store (self w)) as [vs |]; [| done].
  destruct (read_only (disk w)); [done |]. simpl.
  intros [= _ <-]. simpl. eauto 10.
Qed.

(** The folder a build reads. *)
Lemma build_run folder_arg w stats w' :
  build_retrieval_system folder_arg w = (inr stats, w') ->
  exists w5 w6 w7 w8 ft bt docs,
    docs <> [] /\
    total_documents stats = length docs /\
    w5 = (set_documents docs (tick w)).2 /\
    _build_faiss_index w5 = (inr ft, w6) /\
    _build_bm25_index w6 = (inr bt, w7) /\
    _save_indices w7 = (inr tt, w8) /\
    w' = tick w8.
Proof.
  unfold build_retrieval_system. intros Hrun.
  apply bind_inr in Hrun as (t0 & w1 & Ht0 & Hrun).
  unfold time_time in Ht0. injection Ht0 as _ <-.
  apply bind_inr in Hrun as (s & w2 & Hs & Hrun).
  unfold get_self in Hs. injection Hs as <- <-.
  apply bind_inr in Hrun as (folder & w3 & Hval & Hrun).
  assert (w3 = tick w) as ->.
  { revert Hval. unfold _validate_pdf_folder, bind, get_disk, ret, raise.
    simpl. destruct (folders (disk w) !! _) as [pdfs |]; [| done].
    destruct (negb (Py.list_truthy pdfs)); [done |]. by intros [= _ <-]. }
  apply bind_inr in Hrun as (docs & w4 & Hload & Hrun).
  assert (w4 = tick w) as ->.
  { rewrite load_and_chunk_run in Hload. by injection Hload as _ <-. }
  destruct docs as [| d docs]; [done |]. simpl in Hrun.
  apply bind_inr in Hrun as ([] & w5 & Hset & Hrun).
  apply bind_inr in Hrun as (ft & w6 & Hfaiss & Hrun).
  apply bind_inr in Hrun as (bt & w7 & Hbm25 & Hrun).
  apply bind_inr in Hrun as ([] & w8 & Hsave & Hrun).
  apply bind_inr in Hrun as (now & w9 & Hnow & Hrun).
  unfold time_time in Hnow. injection Hnow as _ <-.
  apply bind_inr in Hrun as (dk & w10 & Hd & Hrun).
  unfold get_disk in Hd. injection Hd as _ <-.
  unfold ret in Hrun. injection Hrun as <- <-.
  exists w5, w6, w7, w8, ft, bt, (d :: docs).
  split; [done |]. split; [done |].
  split; [| done].
  revert Hset. unfold set_documents, bind, get_self, set_self. simpl.
  by intros [= <-].
Qed.


Lemma build_success_facts
    (folder_arg : option string) (w : World) (stats : BuildStats)
    (w' : World) :
  build_retrieval_system folder_arg w = (inr stats, w') ->
  exists vs b,
    vector_store (self w') = Some vs /\
    bm25 (self w') = Some b /\
    embedding_function vs = embeddings (self w) /\
    (docstore vs).*1 = documents (self w') /\
    corpus_size b = length (documents (self w')) /\
    documents (self w') <> [] /\
    total_documents stats = length (documents (self w')) /\
    config (self w') = config (self w) /\
    embeddings (self w') = embeddings (self w) /\
    query_cache (self w') = query_cache (self w) /\
    faiss_files (disk w') !! faiss_index_path (config (self w)) =
      Some (Stored (docstore vs)) /\
    pickle_files (disk w') !! bm25_data_path (config (self w)) =
      Some (Stored {| pk_bm25 := Some (Some b);
                      pk_documents := Some (documents (self w'));
                      pk_config := Some (config (self w)) |}).
Proof.
  intros Hrun.
  apply build_run in Hrun
    as (w5 & w6 & w7 & w8 & ft & bt & docs & Hne & Htotal & -> & Hfaiss
        & Hbm25 & Hsave & ->).
  apply build_faiss_index_run in Hfaiss as (vs & Hvs & ->).
  apply build_bm25_index_run in Hbm25 as (b & Hb & ->).
  apply save_indices_run in Hsave
    as (vs' & Hvs' & Hself & _ & Hff & Hpf & _).
  simpl in *. injection Hvs' as <-.
  apply FAISS_from_documents_store in Hvs as (Hemb & Hstore & _).
  apply BM25Okapi_new_size in Hb. rewrite length_fmap in Hb.
  exists vs, b. rewrite Hself. simpl.
  repeat split; try done.
  - rewrite Hff. apply lookup_insert_eq.
  - rewrite Hpf. apply lookup_insert_eq.
Qed.

(** A build that returns leaves a retriever with both indices over the
    whole, non-empty corpus (every chunk is in the vector store and has an
    entry in the lexical index), reports the number of chunks, keeps the
    configuration, and has written that same state to both artifacts. *)
Theorem build_success_state
    (folder_arg : option string) (w : World) (stats : BuildStats)
    (w' : World) :
  build_retrieval_system folder_arg w = (inr stats, w') ->
  exists vs b,
    vector_store (self w') = Some vs /\
    bm25 (self w') = Some b /\
    embedding_function vs = embeddings (self w) /\
    (docstore vs).*1 = documents (self w') /\
    corpus_size b = length (documents (self w')) /\
    documents (self w') <> [] /\
    total_documents stats = length (documents (self w')) /\
    config (self w') = config (self w) /\
    embeddings (self w') = embeddings (self w) /\
    query_cache (self w') = query_cache (self w) /\
    faiss_files (disk w') !! faiss_index_path (config (self w)) =
      Some (Stored (docstore vs)) /\
    pickle_files (disk w') !! bm25_data_path (config (self w)) =
      Some (Stored {| pk_bm25 := Some (Some b);
                      pk_documents := Some (documents (self w'));
                      pk_config := Some (config (self w)) |}).
Proof. apply build_success_facts. Qed.

Lemma load_after_build
    (folder_arg : option string) (w : World) (stats : BuildStats)
    (wb w2 : World) :
  build_retrieval_system folder_arg w = (inr stats, wb) ->
  disk w2 = disk wb ->
  faiss_index_path (config (self w2)) = faiss_index_path (config (self wb)) ->
  bm25_data_path (config (self w2)) = bm25_data_path (config (self wb)) ->
  embeddings (self w2) = embeddings (self wb) ->
  let out := load_retrieval_system w2 in
  out.1 = inr true /\
  vector_store (self out.2) = vector_store (self wb) /\
  bm25 (self out.2) = bm25 (self wb) /\
  documents (self out.2) = documents (self wb) /\
  forall query k method return_scores,
    run_method (self out.2) query k method return_scores =
    run_method (self wb) query k method return_scores.
Proof.
  intros Hbuild Hdisk Hfp Hbp Hemb out.
  destruct (build_success_facts _ _ _ _ Hbuild)
    as (vs & b & Hvs & Hb & Hef & _ & _ & _ & _ & Hcfg & Hembb & _ & Hff
        & Hpf).
  rewrite <- Hcfg in Hff, Hpf. rewrite <- Hfp in Hff. rewrite <- Hbp in Hpf.
  rewrite <- Hdisk in Hff, Hpf.
  assert (Hout :
    out.1 = inr true /\
    vector_store (self out.2) = vector_store (self wb) /\
    bm25 (self out.2) = bm25 (self wb) /\
    documents (self out.2) = documents (self wb)).
  { subst out.
    unfold load_retrieval_system, try_except, bind, get_self, get_disk,
      set_vector_store, set_bm25, set_documents, set_self, ret, raise.
    simpl. rewrite Hff, Hpf. simpl.
    rewrite Hvs, Hb, Hemb, Hembb, <- Hef. by destruct vs. }
  destruct Hout as (H1 & H2 & H3 & H4).
  repeat split; try done.
  intros query k method return_scores.
  unfold run_method, _hybrid_retrieval, _faiss_retrieval, _bm25_retrieval.
  by rewrite H2, H3, H4.
Qed.

(** Whoever holds the files of a successful build, the same paths and the
    same embedding client, gets the build's state back from a load: the
    load returns [True], restores the corpus and both indices as they were
    built, and every retrieval method answers on the reloaded retriever as
    on the built one. *)
Theorem reload_restores_build
    (folder_arg : option string) (w : World) (stats : BuildStats)
    (wb w2 : World) :
  build_retrieval_system folder_arg w = (inr stats, wb) ->
  disk w2 = disk wb ->
  faiss_index_path (config (self w2)) = faiss_index_path (config (self wb)) ->
  bm25_data_path (config (self w2)) = bm25_data_path (config (self wb)) ->
  embeddings (self w2) = embeddings (self wb) ->
  let out := load_retrieval_system w2 in
  out.1 = inr true /\
  vector_store (self out.2) = vector_store (self wb) /\
  bm25 (self out.2) = bm25 (self wb) /\
  documents (self out.2) = documents (self wb) /\
  forall query k method return_scores,
    run_method (self out.2) query k method return_scores =
    run_method (self wb) query k method return_scores.
Proof. apply load_after_build. Qed.


(** *** A fresh instance *)

Lemma initialize_embeddings_self w w' :
  self w = self w' ->
  (_initialize_embeddings w).1 = (_initialize_embeddings w').1 /\
  self (_initialize_embeddings w).2 = self (_initialize_embeddings w').2.
Proof.
  intros Hself.
  destruct (Py.opt_str_truthy getenv_OPENAI_API_KEY) eqn:Hkey.
  - apply opt_str_truthy_Some in Hkey as (key & Hkey & Htruthy).
    rewrite !(initialize_embeddings_run _ key Hkey Htruthy). cbv zeta.
    unfold set_embeddings, bind, get_self, set_self. simpl.
    rewrite Hself. repeat case_match; done.
  - by rewrite !initialize_embeddings_no_key.
Qed.

Lemma initialize_embeddings_disk w :
  disk (_initialize_embeddings w).2 = disk w.
Proof.
  destruct (Py.opt_str_truthy getenv_OPENAI_API_KEY) eqn:Hkey.
  - apply opt_str_truthy_Some in Hkey as (key & Hkey & Htruthy).
    rewrite (initialize_embeddings_run _ key Hkey Htruthy). cbv zeta.
    repeat case_match; done.
  - by rewrite initialize_embeddings_no_key.
Qed.

(** Construction does not look at the object it replaces nor at the
    files. *)
Lemma init_fresh cfg w w' :
  (TradingKnowledgeRetriever_init cfg w).1 =
  (TradingKnowledgeRetriever_init cfg w').1 /\
  self (TradingKnowledgeRetriever_init cfg w).2 =
  self (TradingKnowledgeRetriever_init cfg w').2 /\
  disk (TradingKnowledgeRetriever_init cfg w).2 = disk w.
Proof.
  unfold TradingKnowledgeRetriever_init, bind, set_self. simpl.
  split; [| split].
  - by apply initialize_embeddings_self.
  - by apply initialize_embeddings_self.
  - by rewrite initialize_embeddings_disk.
Qed.

(** Construction calls the provider for the probe ["test"] and for nothing
    else. *)
Lemma initialize_embeddings_with_provider p w :
  (forall e, p e "test" = provider e "test") ->
  @_initialize_embeddings (with_provider p) w = _initialize_embeddings w.
Proof.
  intros Hp. destruct (Py.opt_str_truthy getenv_OPENAI_API_KEY) eqn:Hkey.
  - apply opt_str_truthy_Some in Hkey as (key & Hkey & Htruthy).
    rewrite (@initialize_embeddings_run (with_provider p) w key Hkey Htruthy).
    rewrite (initialize_embeddings_run w key Hkey Htruthy).
    cbv zeta. simpl. by rewrite Hp.
  - rewrite (@initialize_embeddings_no_key (with_provider p) w Hkey).
    by rewrite initialize_embeddings_no_key.
Qed.

Lemma module_load_with_provider p cfg w :
  (forall e, p e "test" = provider e "test") ->
  @module_load_retrieval_system (with_provider p) cfg w =
  module_load_retrieval_system cfg w.
Proof.
  intros Hp.
  unfold module_load_retrieval_system, TradingKnowledgeRetriever_init, bind,
    set_self.
  simpl. by rewrite (initialize_embeddings_with_provider p _ Hp).
Qed.

(** Reload fidelity.  After the module-level build has returned, the
    module-level load with the same configuration, run by a fresh instance
    on the files the build left, returns a retriever whose corpus and
    indices are those of the built one and which answers every retrieval
    method alike.  The load embeds no chunk again: its outcome is the same
    with any provider that answers the constructor's probe alike, whatever
    that provider does with every other text. *)
Theorem module_reload_fidelity
    (cfg : option RetrievalConfig) (w0 wb w0' : World) :
  module_build_retrieval_system cfg w0 = (inr tt, wb) ->
  disk w0' = disk wb ->
  let out := module_load_retrieval_system cfg w0' in
  out.1 = inr true /\
  vector_store (self out.2) = vector_store (self wb) /\
  bm25 (self out.2) = bm25 (self wb) /\
  documents (self out.2) = documents (self wb) /\
  (forall query k method return_scores,
     run_method (self out.2) query k method return_scores =
     run_method (self wb) query k method return_scores) /\
  (forall p : Embeddings -> string -> string + Vector,
     (forall e, p e "test" = provider e "test") ->
     @module_load_retrieval_system (with_provider p) cfg w0' = out).
Proof.
  intros Hbuild Hdisk out.
  assert (Hfive :
    out.1 = inr true /\
    vector_store (self out.2) = vector_store (self wb) /\
    bm25 (self out.2) = bm25 (self wb) /\
    documents (self out.2) = documents (self wb) /\
    (forall query k method return_scores,
       run_method (self out.2) query k method return_scores =
       run_method (self wb) query k method return_scores)).
  { subst out.
    unfold module_build_retrieval_system in Hbuild.
    apply bind_inr in Hbuild as ([] & w1 & Hinit & Hbuild).
    apply bind_inr in Hbuild as (stats & wb' & Hbuild & Hret).
    unfold ret in Hret. injection Hret as <-.
    destruct (init_fresh cfg w0 w0') as (Hfst & Hself & _).
    destruct (init_fresh cfg w0' w0') as (_ & _ & Hdisk').
    rewrite Hinit in Hfst, Hself. simpl in Hfst, Hself.
    destruct (build_success_facts _ _ _ _ Hbuild)
      as (vs & b & _ & _ & _ & _ & _ & _ & _ & Hcfg & Hemb & _).
    destruct (TradingKnowledgeRetriever_init cfg w0') as [r1 w1'] eqn:Hinit'.
    simpl in *. subst r1.
    pose proof (load_after_build None w1 stats wb' w1' Hbuild) as Hload.
    cbv zeta in Hload.
    destruct Hload as (Hok & Hrest).
    { by rewrite Hdisk'. }
    { by rewrite <- Hself, Hcfg. }
    { by rewrite <- Hself, Hcfg. }
    { by rewrite <- Hself, Hemb. }
    unfold module_load_retrieval_system, bind. rewrite Hinit'.
    destruct (load_retrieval_system w1') as [r2 w2] eqn:Hl.
    simpl in *. subst r2. simpl. done. }
  destruct Hfive as (H1 & H2 & H3 & H4 & H5).
  repeat (split; [done |]).
  intros p Hp. by apply module_load_with_provider.
Qed.


(** *** Inputs a build rejects *)

(** What a build rejects before it changes anything, in the order of the
    checks: a folder that does not exist, a folder without PDF, a
    configuration that the splitter refuses, one that the thread pool
    refuses, and PDFs that yield no chunk.  Each raises after a single
    reading of the clock: the stored corpus, both indices and the files
    are as before. *)
Theorem build_rejects_empty_input
    (folder_arg : option string) (w : World) :
  let folder :=
    if Py.opt_str_truthy folder_arg then default EmptyString folder_arg
    else pdf_folder (config (self w)) in
  let cfg := config (self w) in
  let out := build_retrieval_system folder_arg w in
  match folders (disk w) !! folder with
  | None =>
      out = (inl (FileNotFoundError ("PDF folder not found: " +:+ folder)),
             tick w)
  | Some pdfs =>
      if Py.list_truthy pdfs
      then
        match TextSplitter_error (chunk_size cfg) (chunk_overlap cfg) with
        | Some msg => out = (inl (ValueError msg), tick w)
        | None =>
            if max_workers cfg <=? 0
            then out = (inl (ValueError "max_workers must be greater than 0"),
                        tick w)
            else concat pdfs = [] ->
                 out = (inl (ValueError
                               "No documents were successfully processed"),
                        tick w)
        end
      else out = (inl (ValueError ("No PDF files found in " +:+ folder)),
                  tick w)
  end.
Proof.
  cbv zeta.
  destruct (folders (disk w) !! _) as [pdfs |] eqn:Hf;
    [destruct (Py.list_truthy pdfs) eqn:Hp;
       [destruct (TextSplitter_error _ _) as [m |] eqn:Hs;
          [| destruct (_ <=? 0) eqn:Hm;
               [| intros Hempty;
                  pose proof (completion_order_chunks pdfs) as Hperm;
                  rewrite Hempty in Hperm;
                  apply Permutation_sym, Permutation_nil in Hperm]] |] |];
    unfold build_retrieval_system, _validate_pdf_folder,
      _load_and_chunk_documents, RecursiveCharacterTextSplitter_new,
      ThreadPoolExecutor_new, bind, get_self, get_disk, time_time, ret,
      raise;
    simpl; rewrite Hf; simpl; rewrite ?Hp; simpl; rewrite ?Hs; simpl;
    rewrite ?Hm; simpl; rewrite ?Hf; simpl; rewrite ?Hperm; done.
Qed.

(** A configuration that construction has accepted with an overlap larger
    than the chunk size, or with no worker, is refused by the build: over a
    folder that holds PDFs the build raises a [ValueError] after a single
    reading of the clock, before the corpus, an index or a file is
    touched. *)
Theorem build_rejects_invalid_chunking
    (folder_arg : option string) (w : World) (pdfs : list (list Document)) :
  let folder :=
    if Py.opt_str_truthy folder_arg then default EmptyString folder_arg
    else pdf_folder (config (self w)) in
  let cfg := config (self w) in
  folders (disk w) !! folder = Some pdfs ->
  pdfs <> [] ->
  chunk_size cfg < chunk_overlap cfg \/ max_workers cfg <= 0 ->
  exists msg,
    build_retrieval_system folder_arg w = (inl (ValueError msg), tick w).
Proof.
  intros folder cfg Hf Hne Hbad. subst folder cfg.
  assert (Hp : Py.list_truthy pdfs = true) by (by destruct pdfs).
  assert (Hrun :
    exists msg,
      _load_and_chunk_documents
        (if Py.opt_str_truthy folder_arg then default EmptyString folder_arg
         else pdf_folder (config (self w))) (tick w) =
      (inl (ValueError msg), tick w)).
  { rewrite load_and_chunk_run. simpl.
    destruct (TextSplitter_error _ _) as [m |] eqn:Hs; [by eexists |].
    destruct Hbad as [Hover | Hpool].
    - by destruct (TextSplitter_overlap _ _ Hover).
    - destruct (Z.leb_spec (max_workers (config (self w))) 0); [| lia].
      by eexists. }
  destruct Hrun as [msg Hrun]. exists msg.
  unfold build_retrieval_system, bind at 1, time_time at 1. simpl.
  unfold bind at 1, get_self at 1. simpl.
  unfold bind at 1, _validate_pdf_folder, bind at 1, get_disk at 1. simpl.
  rewrite Hf, Hp. simpl. unfold ret at 1.
  unfold bind at 1. by rewrite Hrun.
Qed.

(** *** Construction *)

Lemma initialize_embeddings_fields w :
  let w' := (_initialize_embeddings w).2 in
  vector_store (self w') = vector_store (self w) /\
  bm25 (self w') = bm25 (self w) /\
  documents (self w') = documents (self w) /\
  query_cache (self w') = query_cache (self w) /\
  ((_initialize_embeddings w).1 = inr tt -> is_Some (embeddings (self w'))).
Proof.
  cbv zeta.
  destruct (Py.opt_str_truthy getenv_OPENAI_API_KEY) eqn:Hkey.
  - apply opt_str_truthy_Some in Hkey as (key & Hkey & Htruthy).
    rewrite (initialize_embeddings_run _ key Hkey Htruthy). cbv zeta.
    repeat case_match; simpl; repeat split; try done; eauto.
  - rewrite initialize_embeddings_no_key by done. simpl.
    repeat split; done.
Qed.

(** Without an API key (unset or empty) construction fails with a
    [ValueError] before any embedding client is made. *)
Theorem construction_needs_api_key
    (cfg : option RetrievalConfig) (w : World) :
  Py.opt_str_truthy getenv_OPENAI_API_KEY = false ->
  let out := TradingKnowledgeRetriever_init cfg w in
  out.1 = inl (ValueError "OPENAI_API_KEY environment variable not set") /\
  embeddings (self out.2) = None.
Proof.
  intros Hkey. cbv zeta.
  unfold TradingKnowledgeRetriever_init, bind, set_self. simpl.
  by rewrite initialize_embeddings_no_key.
Qed.

(** A trial call that answers with an empty vector is fatal: construction
    raises "Embeddings API returned empty result" and no fallback client is
    tried. *)
Theorem construction_rejects_empty_probe
    (cfg : option RetrievalConfig) (w : World) (key : string) :
  getenv_OPENAI_API_KEY = Some key ->
  Py.str_truthy key = true ->
  let config := default RetrievalConfig_default cfg in
  OpenAIEmbeddings_error (embedding_kwargs config key) = None ->
  provider (embedding_kwargs config key) "test" = inr [] ->
  let out := TradingKnowledgeRetriever_init cfg w in
  out.1 = inl (ValueError "Embeddings API returned empty result") /\
  embeddings (self out.2) = Some (embedding_kwargs config key).
Proof.
  intros Hkey Htruthy config Hctor Htrial. cbv zeta.
  unfold TradingKnowledgeRetriever_init, bind, set_self. simpl.
  rewrite (initialize_embeddings_run _ key Hkey Htruthy). cbv zeta. simpl.
  fold config. by rewrite Hctor, Htrial.
Qed.

(** A constructed instance is unloaded: it has a client, no index, an
    empty corpus, and an empty cache exactly when caching is enabled; its
    statistics say "not_loaded" and every query on it raises the not-loaded
    error. *)
Theorem fresh_instance_is_unloaded
    (cfg : option RetrievalConfig) (w : World) :
  (TradingKnowledgeRetriever_init cfg w).1 = inr tt ->
  let w' := (TradingKnowledgeRetriever_init cfg w).2 in
  let s := self w' in
  is_Some (embeddings s) /\
  vector_store s = None /\
  bm25 s = None /\
  documents s = [] /\
  query_cache s =
    (if enable_caching (default RetrievalConfig_default cfg)
     then Some ∅ else None) /\
  get_system_stats s = StatsNotLoaded /\
  forall query k method return_scores,
    retrieve_documents query k method return_scores w' =
    (inl NotLoadedError, w').
Proof.
  intros Hok. cbv zeta. revert Hok.
  unfold TradingKnowledgeRetriever_init, bind, set_self. simpl.
  set (w0 := {| self := _; disk := disk w; ticks := ticks w |}).
  intros Hok.
  destruct (initialize_embeddings_fields w0) as (Hvs & Hb & Hd & Hc & He).
  simpl in *.
  assert (Hstats : get_system_stats (self (_initialize_embeddings w0).2) =
                   StatsNotLoaded).
  { unfold get_system_stats. by rewrite Hd. }
  repeat split; try done; [by apply He |].
  intros query k method return_scores.
  apply retrieve_not_loaded. intros [[vs Hvs'] _]. congruence.
Qed.


(** *** Statistics *)

Lemma size_list_to_set_le (l : list string) :
  (size (list_to_set l : gset string) <= length l)%nat.
Proof.
  induction l as [| x l IH].
  - change (size (∅ : gset string) <= 0)%nat. by rewrite size_empty.
  - change (size ({[x]} ∪ list_to_set l : gset string) <= S (length l))%nat.
    rewrite size_union_alt, size_singleton.
    pose proof (subseteq_size (list_to_set l ∖ {[x]})
                  (list_to_set l : gset string)) as Hle.
    assert (Hsub : (list_to_set l ∖ {[x]} : gset string) ⊆ list_to_set l)
      by set_solver.
    specialize (Hle Hsub). lia.
Qed.

Lemma size_list_to_set_pos (l : list string) :
  l <> [] -> (0 < size (list_to_set l : gset string))%nat.
Proof.
  destruct l as [| x l]; [done |]. intros _.
  change (0 < size ({[x]} ∪ list_to_set l : gset string))%nat.
  rewrite size_union_alt, size_singleton. lia.
Qed.

(** The statistics say "loaded" exactly when the stored corpus is not
    empty, whatever the state of the indices; they then report the number
    of chunks, a number of distinct sources between one and that number, and
    a cache size of zero on every retriever reached through its methods. *)
Theorem system_stats_report (w : World) :
  (get_system_stats (self w) = StatsNotLoaded <-> documents (self w) = []) /\
  forall total cfg cache_size sources text_length,
    get_system_stats (self w) =
      StatsLoaded total cfg cache_size sources text_length ->
    total = length (documents (self w)) /\
    cfg = config (self w) /\
    (1 <= sources <= total)%nat /\
    (reachable w -> cache_size = 0%nat).
Proof.
  unfold get_system_stats. split.
  - destruct (documents (self w)); simpl; split; done.
  - intros total cfg cache_size sources text_length.
    destruct (documents (self w)) as [| d docs] eqn:Hd; [done |].
    simpl negb. cbv iota. intros [= <- <- <- <- _].
    split; [done |]. split; [done |]. split.
    + split.
      * apply (size_list_to_set_pos (_ :: _)). done.
      * pose proof (size_list_to_set_le
          ((fun doc => PyStr.dict_get (metadata doc) "filename" "")
             <$> d :: docs)) as Hle.
        by rewrite length_fmap in Hle.
    + intros Hreach. apply reachable_cache_unused in Hreach.
      destruct Hreach as [-> | ->]; [done |].
      by rewrite dict_truthy_empty.
Qed.

(** After a build that an embedding failure has aborted on a retriever
    without indices (the configuration being one that the splitter and the
    thread pool accept), the statistics report the retriever as loaded,
    with the new chunk count, while every query raises the not-loaded
    error: the statistics look at the corpus, the queries at the indices. *)
Theorem failed_build_reports_loaded
    (w : World) (folder_arg : option string) (e : Embeddings)
    (pdfs : list (list Document)) (C : Document) (msg : string) :
  chunking_accepted (config (self w)) ->
  folders (disk w) !!
    (if Py.opt_str_truthy folder_arg then default EmptyString folder_arg
     else pdf_folder (config (self w))) = Some pdfs ->
  embeddings (self w) = Some e ->
  C ∈ concat pdfs ->
  provider e (page_content C) = inl msg ->
  vector_store (self w) = None ->
  let w' := (build_retrieval_system folder_arg w).2 in
  (exists cfg cache_size sources text_length,
     get_system_stats (self w') =
     StatsLoaded (length (concat pdfs)) cfg cache_size sources text_length)
  /\
  forall query k method return_scores,
    retrieve_documents query k method return_scores w' =
    (inl NotLoadedError, w').
Proof.
  intros Hok Hfolder Hemb HC Hfail Hnone w'.
  destruct (build_embedding_failure_run w folder_arg e pdfs C msg
              Hok Hfolder Hemb HC Hfail) as [msg' Hrun].
  assert (Hvs : vector_store (self w') = vector_store (self w))
    by (subst w'; by rewrite Hrun).
  assert (Hdocs : documents (self w') = concat (completion_order pdfs))
    by (subst w'; by rewrite Hrun).
  pose proof (completion_order_chunks pdfs) as Hperm.
  split.
  - unfold get_system_stats. rewrite Hdocs.
    rewrite <- (Permutation_length Hperm).
    rewrite <- Hperm in HC.
    destruct (concat (completion_order pdfs)) as [| d docs];
      [by inversion HC |].
    simpl. eauto.
  - intros query k method return_scores. apply retrieve_not_loaded.
    intros [[vs Hvs'] _]. congruence.
Qed.


(** *** Loading twice *)

(** Loading again from unchanged files changes nothing more: the second
    load returns what the first returned and leaves the retriever as the
    first left it, also when the first load failed half-way. *)
Theorem load_twice (w : World) :
  let first := load_retrieval_system w in
  let second := load_retrieval_system first.2 in
  second.1 = first.1 /\ second.2 = first.2.
Proof.
  cbv zeta.
  unfold load_retrieval_system, try_except, bind, get_self, get_disk,
    set_vector_store, set_bm25, set_documents, set_self, ret, raise.
  simpl.
  destruct (faiss_files (disk w) !! faiss_index_path (config (self w)))
    as [[| store] |] eqn:Hf;
    destruct (pickle_files (disk w) !! bm25_data_path (config (self w)))
      as [[| data] |] eqn:Hp; simpl;
    rewrite ?Hf, ?Hp; simpl; try done.
  destruct (pk_bm25 data) as [b |] eqn:Hb; simpl; rewrite ?Hf, ?Hp; simpl;
    rewrite ?Hb; simpl; [| done].
  destruct (pk_documents data) as [docs |] eqn:Hd; simpl;
    rewrite ?Hf, ?Hp; simpl; rewrite ?Hb; simpl; rewrite ?Hd; simpl; done.
Qed.

End LifecycleFacts.

(** ** Chunks of a PDF *)

Section PdfFacts.

Context `{Externals}.

(** The chunks made from position [a] on. *)
Local Abbreviation chunks_from pdf meta hash total a chunks :=
  (omap (fun ic : nat * string =>
           if PyStr.strip_truthy ic.2
           then Some (make_chunk pdf meta hash total ic.1 ic.2)
           else None)
        (zip (seq a (length chunks)) chunks)).

Lemma chunks_from_contents pdf meta hash total chunks : forall a,
  page_content <$> chunks_from pdf meta hash total a chunks =
  filter (fun c => PyStr.strip_truthy c = true) chunks.
Proof.
  induction chunks as [| c chunks IH]; intros a; [done |].
  rewrite filter_cons. simpl.
  destruct (PyStr.strip_truthy c) eqn:Hc; simpl; [f_equal |]; apply IH.
Qed.

Lemma chunks_from_elem_of pdf meta hash total chunks a d :
  d ∈ chunks_from pdf meta hash total a chunks ->
  exists i c,
    chunks !! i = Some c /\ PyStr.strip_truthy c = true /\
    d = make_chunk pdf meta hash total (a + i) c.
Proof.
  intros Hd. apply list_elem_of_omap in Hd as ([j c] & Hin & Hf).
  simpl in Hf. destruct (PyStr.strip_truthy c) eqn:Hc; [| done].
  injection Hf as <-.
  apply list_elem_of_lookup in Hin as [i Hi].
  apply lookup_zip_with_Some in Hi as (x & y & [= -> ->] & Hx & Hy).
  apply lookup_seq in Hx as [-> _]. eauto.
Qed.

Lemma extract_metadata_chunk_keys pdf key :
  key = "chunk_id"%string \/ key = "chunk_index"%string \/
  key = "total_chunks"%string ->
  (list_to_map (extract_text_from_pdf pdf).2 : gmap string string) !! key =
  None.
Proof.
  unfold extract_text_from_pdf.
  intros [-> | [-> | ->]]; destruct (pdf_pages pdf); simpl;
    rewrite ?lookup_insert_ne by done; apply lookup_empty.
Qed.

Lemma make_chunk_get pdf hash total i c :
  let d := make_chunk pdf (extract_text_from_pdf pdf).2 hash total i c in
  PyStr.dict_get (metadata d) "chunk_id" "" =
    (pdf_stem pdf +:+ "_" +:+ PyStr.str_of_nat i)%string /\
  PyStr.dict_get (metadata d) "chunk_index" "" = PyStr.str_of_nat i /\
  PyStr.dict_get (metadata d) "total_chunks" "" = PyStr.str_of_nat total.
Proof.
  cbv zeta. unfold PyStr.dict_get, make_chunk. simpl metadata.
  rewrite !list_to_map_app.
  rewrite !lookup_union_r by (apply extract_metadata_chunk_keys; auto).
  simpl. rewrite lookup_insert_eq.
  rewrite lookup_insert_ne by done. rewrite lookup_insert_eq.
  rewrite !lookup_insert_ne by done. rewrite lookup_insert_eq. done.
Qed.

Lemma process_single_pdf_run pdf split_text chunks :
  PyStr.strip_truthy (extract_text_from_pdf pdf).1 = true ->
  split_text (extract_text_from_pdf pdf).1 = inr chunks ->
  process_single_pdf pdf split_text =
  chunks_from pdf (extract_text_from_pdf pdf).2
    (md5 (extract_text_from_pdf pdf).1) (length chunks) 0%nat chunks.
Proof.
  intros Htext Hsplit. unfold process_single_pdf.
  destruct (extract_text_from_pdf pdf) as [text meta]. simpl in *.
  by rewrite Htext, Hsplit.
Qed.

(** From a PDF with text that the splitter accepts, the chunks made are
    the splitter's non-blank pieces, in order: blank pieces are dropped,
    so every chunk has content after trimming and there are at most as many
    chunks as pieces. *)
Theorem process_single_pdf_keeps_nonblank
    (pdf : PdfFile) (split_text : string -> exn + list string)
    (chunks : list string) :
  PyStr.strip_truthy (extract_text_from_pdf pdf).1 = true ->
  split_text (extract_text_from_pdf pdf).1 = inr chunks ->
  let docs := process_single_pdf pdf split_text in
  page_content <$> docs =
    filter (fun c => PyStr.strip_truthy c = true) chunks /\
  Forall (fun d => PyStr.strip_truthy (page_content d) = true) docs /\
  (length docs <= length chunks)%nat.
Proof.
  intros Htext Hsplit docs. subst docs.
  rewrite (process_single_pdf_run _ _ _ Htext Hsplit).
  pose proof (chunks_from_contents pdf (extract_text_from_pdf pdf).2
                (md5 (extract_text_from_pdf pdf).1) (length chunks)
                chunks 0%nat) as Hcontents.
  split; [done |]. split.
  - apply Forall_forall. intros d Hd.
    apply chunks_from_elem_of in Hd as (i & c & _ & Hc & ->). done.
  - rewrite <- (length_fmap page_content), Hcontents.
    apply length_filter.
Qed.

(** Every chunk records where its piece stood in the splitter's output:
    its [chunk_index] is that position, counted with the blank pieces that
    were dropped, its [total_chunks] is the number of all pieces, and its
    [chunk_id] is the file stem followed by that position. *)
Theorem process_single_pdf_positions
    (pdf : PdfFile) (split_text : string -> exn + list string)
    (chunks : list string) (d : Document) :
  PyStr.strip_truthy (extract_text_from_pdf pdf).1 = true ->
  split_text (extract_text_from_pdf pdf).1 = inr chunks ->
  d ∈ process_single_pdf pdf split_text ->
  exists i,
    chunks !! i = Some (page_content d) /\
    PyStr.dict_get (metadata d) "chunk_index" "" = PyStr.str_of_nat i /\
    PyStr.dict_get (metadata d) "total_chunks" "" =
      PyStr.str_of_nat (length chunks) /\
    PyStr.dict_get (metadata d) "chunk_id" "" =
      (pdf_stem pdf +:+ "_" +:+ PyStr.str_of_nat i)%string.
Proof.
  intros Htext Hsplit Hd.
  rewrite (process_single_pdf_run _ _ _ Htext Hsplit) in Hd.
  apply chunks_from_elem_of in Hd as (i & c & Hi & _ & ->).
  exists i. split; [done |].
  destruct (make_chunk_get pdf (md5 (extract_text_from_pdf pdf).1)
              (length chunks) i c) as (Hid & Hidx & Htot).
  done.
Qed.

(** A PDF that cannot be read, has no page with text, or whose text the
    splitter fails on yields no chunk, and no exception. *)
Theorem process_single_pdf_nothing
    (pdf : PdfFile) (split_text : string -> exn + list string) :
  (exists e, pdf_pages pdf = inl e) \/
  (exists pages, pdf_pages pdf = inr pages /\
                 Forall (fun p => PyStr.strip_truthy p = false) pages) \/
  (exists e, split_text (extract_text_from_pdf pdf).1 = inl e) ->
  process_single_pdf pdf split_text = [].
Proof.
  unfold process_single_pdf.
  intros [[e He] | [(pages & Hp & Hblank) | [e He]]].
  - unfold extract_text_from_pdf. by rewrite He.
  - unfold extract_text_from_pdf. rewrite Hp. cbv zeta.
    assert (Hnone :
      filter (fun page_text =>
                Py.str_truthy page_text && PyStr.strip_truthy page_text = true)
             pages = []).
    { clear Hp. induction Hblank as [| p pages Hp' _ IH]; [done |].
      rewrite filter_cons. rewrite decide_False; [exact IH |].
      rewrite Hp'. by rewrite andb_false_r. }
    by rewrite Hnone.
  - destruct (extract_text_from_pdf pdf) as [text meta]. simpl in He.
    destruct (negb _); [done |]. by rewrite He.
Qed.


Lemma chunk_id_inj stem i j :
  (stem +:+ "_" +:+ PyStr.str_of_nat i)%string =
  (stem +:+ "_" +:+ PyStr.str_of_nat j)%string -> i = j.
Proof.
  intros Heq. apply (inj (String.app stem)) in Heq.
  apply (inj (String.app "_")) in Heq.
  unfold PyStr.str_of_nat in Heq. by apply (inj pretty) in Heq.
Qed.

Lemma chunks_from_distinct_ids pdf hash total chunks : forall a,
  NoDup ((fun d => PyStr.dict_get (metadata d) "chunk_id" "") <$>
           chunks_from pdf (extract_text_from_pdf pdf).2 hash total a chunks).
Proof.
  induction chunks as [| c chunks IH]; intros a; [constructor |]. simpl.
  destruct (PyStr.strip_truthy c) eqn:Hc; simpl; [| apply IH].
  constructor; [| apply IH].
  intros Hin. apply list_elem_of_fmap in Hin as (d & Hid & Hd).
  apply (chunks_from_elem_of pdf _ hash total chunks (S a)) in Hd
    as (i & c' & _ & _ & ->).
  destruct (make_chunk_get pdf hash total a c) as (Ha & _).
  destruct (make_chunk_get pdf hash total (S a + i) c') as (Hb & _).
  simpl in Ha. rewrite Ha, Hb in Hid. apply chunk_id_inj in Hid. lia.
Qed.

(** No two chunks made from one PDF have the same [chunk_id]. *)
Theorem process_single_pdf_distinct_ids
    (pdf : PdfFile) (split_text : string -> exn + list string) :
  NoDup ((fun d => PyStr.dict_get (metadata d) "chunk_id" "") <$>
           process_single_pdf pdf split_text).
Proof.
  unfold process_single_pdf.
  destruct (extract_text_from_pdf pdf) as [text meta] eqn:Hx.
  destruct (negb _); [constructor |].
  destruct (split_text text) as [e | chunks]; [constructor |].
  replace meta with (extract_text_from_pdf pdf).2 by (by rewrite Hx).
  apply chunks_from_distinct_ids.
Qed.

End PdfFacts.

(** ** The backend's configuration *)

(** The configuration the backend constructs its retrievers with keeps
    every default but the embedding model and the endpoint: it satisfies
    [chunk_overlap < chunk_size], [k > 0] and [max_workers >= 1] whatever
    the environment holds, and it carries an endpoint override exactly when
    [API_BASE_URL] is not the OpenAI endpoint; without an override the
    fallback client of construction is the very client that was tried. *)
Theorem backend_config_valid (EMBEDDING_MODEL API_BASE_URL : string) :
  let cfg := create_custom_retrieval_config EMBEDDING_MODEL API_BASE_URL in
  chunk_overlap cfg < chunk_size cfg /\
  top_k_retrieval cfg > 0 /\
  max_workers cfg >= 1 /\
  enable_caching cfg = true /\
  embedding_model cfg = EMBEDDING_MODEL /\
  base_url cfg =
    (if String.eqb API_BASE_URL "https://api.openai.com/v1"
     then None else Some API_BASE_URL) /\
  (API_BASE_URL = "https://api.openai.com/v1"%string ->
   forall key, embedding_kwargs cfg key = fallback_kwargs cfg key).
Proof.
  cbv zeta. unfold create_custom_retrieval_config.
  destruct (String.eqb_spec API_BASE_URL "https://api.openai.com/v1")
    as [-> | Hne]; simpl; repeat split; try lia; try done.
Qed.

(** ** More runs of the concrete installation *)

Lemma unloaded_query_raises_witness :
  @retrieve_documents Demo.E "bullish market" (Some 2) "hybrid" true
    (Demo.fresh Demo.E) =
  (inl NotLoadedError, Demo.fresh Demo.E).
Proof.
  apply (@unloaded_query_raises Demo.E (Demo.fresh Demo.E)).
  left. vm_compute. reflexivity.
Defined.

Lemma zero_k_returns_default_count_witness :
  exists r,
    (@retrieve_documents Demo.E "bullish market" (Some 0) "bm25" true
       Demo.built).1 = inr r /\
    length (res_documents r) = 2%nat.
Proof.
  apply (@zero_k_returns_default_count Demo.E Demo.built
           {| corpus_size := 2; doc_len := [5; 4]%nat;
              doc_freqs :=
                @count_tokens <$>
                  [Py.split (page_content Demo.chunk_a);
                   Py.split (page_content Demo.chunk_b)] |}
           "bullish market" (Some 0) true).
  - vm_compute. eauto.
  - vm_compute. reflexivity.
  - vm_compute. reflexivity.
  - vm_compute. reflexivity.
  - vm_compute. reflexivity.
  - right. reflexivity.
Defined.

Lemma zero_k_lexical_all_hybrid_raises_witness :
  (exists docs doc_scores,
     @_bm25_retrieval Demo.E (self Demo.built) "bullish market" 0 true =
       inr (docs, doc_scores) /\
     docs ≡ₚ documents (self Demo.built)) /\
  @_hybrid_retrieval Demo.E (self Demo.built) "bullish market" 0 true =
    inl AssertionError.
Proof.
  destruct (@zero_k_lexical_all_hybrid_raises Demo.E (self Demo.built)
           {| corpus_size := 2; doc_len := [5; 4]%nat;
              doc_freqs :=
                @count_tokens <$>
                  [Py.split (page_content Demo.chunk_a);
                   Py.split (page_content Demo.chunk_b)] |}
           "bullish market" 0 true) as [Hall Hraises].
  - vm_compute. reflexivity.
  - vm_compute. reflexivity.
  - split.
    + apply Hall. left. reflexivity.
    + destruct Hraises as [_ Hassert]; [lia |].
      apply (Hassert
               {| embedding_function :=
                    Some {| model := "text-embedding-3-small";
                            openai_api_key := "sk-test";
                            openai_api_base := None |};
                  docstore :=
                    [(Demo.chunk_a, [27; 5]); (Demo.chunk_b, [26; 4])] |}
               {| model := "text-embedding-3-small";
                  openai_api_key := "sk-test"; openai_api_base := None |}
               [14; 2]).
      * vm_compute. reflexivity.
      * reflexivity.
      * vm_compute. reflexivity.
Defined.

Lemma hybrid_semantic_first_witness :
  exists scores rest,
    @_hybrid_retrieval Demo.E (self Demo.built) "bullish market" 1 true =
      inr ([Demo.chunk_b] ++ rest, scores).
Proof.
  destruct (@hybrid_semantic_first Demo.E (self Demo.built)
              {| embedding_function :=
                   Some {| model := "text-embedding-3-small";
                           openai_api_key := "sk-test";
                           openai_api_base := None |};
                 docstore :=
                   [(Demo.chunk_a, [27; 5]); (Demo.chunk_b, [26; 4])] |}
              {| corpus_size := 2; doc_len := [5; 4]%nat;
                 doc_freqs :=
                   @count_tokens <$>
                     [Py.split (page_content Demo.chunk_a);
                      Py.split (page_content Demo.chunk_b)] |}
              "bullish market" 1 true [(Demo.chunk_b, 148)])
    as (scores & rest & Hrun & _).
  - vm_compute. reflexivity.
  - vm_compute. reflexivity.
  - vm_compute. reflexivity.
  - vm_compute. reflexivity.
  - lia.
  - exists scores, rest. exact Hrun.
Defined.

Lemma build_success_state_witness :
  exists vs b,
    vector_store (self Demo.built) = Some vs /\
    bm25 (self Demo.built) = Some b /\
    (docstore vs).*1 = documents (self Demo.built) /\
    corpus_size b = length (documents (self Demo.built)).
Proof.
  destruct (@build_success_state Demo.E None (Demo.fresh Demo.E)
              {| total_documents := 2; total_build_time := 50;
                 faiss_build_time := 10; bm25_build_time := 10;
                 pdf_files_processed := 1 |}
              Demo.built)
    as (vs & b & Hvs & Hb & _ & Hstore & Hsize & _).
  - vm_compute. reflexivity.
  - exists vs, b. auto.
Defined.

Lemma reload_restores_build_witness :
  (load_retrieval_system Demo.built).1 = inr true /\
  documents (self (load_retrieval_system Demo.built).2) =
  documents (self Demo.built).
Proof.
  destruct (@reload_restores_build Demo.E None (Demo.fresh Demo.E)
              {| total_documents := 2; total_build_time := 50;
                 faiss_build_time := 10; bm25_build_time := 10;
                 pdf_files_processed := 1 |}
              Demo.built Demo.built)
    as (Hok & _ & _ & Hdocs & _).
  - vm_compute. reflexivity.
  - reflexivity.
  - reflexivity.
  - reflexivity.
  - reflexivity.
  - split; [exact Hok | exact Hdocs].
Defined.

Lemma module_reload_fidelity_witness :
  let out :=
    @module_load_retrieval_system Demo.E None
      {| self := Demo.blank; disk := disk Demo.built; ticks := 0 |} in
  out.1 = inr true /\
  documents (self out.2) = documents (self Demo.built) /\
  @module_load_retrieval_system
    (@with_provider Demo.E Demo.probe_only_embed) None
    {| self := Demo.blank; disk := disk Demo.built; ticks := 0 |} = out.
Proof.
  destruct (@module_reload_fidelity Demo.E None (Demo.world0 Demo.kb_disk)
              Demo.built
              {| self := Demo.blank; disk := disk Demo.built; ticks := 0 |})
    as (Hok & _ & _ & Hdocs & _ & Hprovider).
  - vm_compute. reflexivity.
  - reflexivity.
  - split; [exact Hok |]. split; [exact Hdocs |].
    apply Hprovider. intros e. vm_compute. reflexivity.
Defined.

Lemma construction_needs_api_key_witness :
  (@TradingKnowledgeRetriever_init Demo.E_nokey None
     (Demo.world0 Demo.kb_disk)).1 =
  inl (ValueError "OPENAI_API_KEY environment variable not set").
Proof.
  apply (@construction_needs_api_key Demo.E_nokey None
           (Demo.world0 Demo.kb_disk)).
  reflexivity.
Defined.

Lemma construction_rejects_empty_probe_witness :
  (@TradingKnowledgeRetriever_init Demo.E_empty None
     (Demo.world0 Demo.kb_disk)).1 =
  inl (ValueError "Embeddings API returned empty result").
Proof.
  apply (@construction_rejects_empty_probe Demo.E_empty None
           (Demo.world0 Demo.kb_disk) "sk-test").
  - reflexivity.
  - reflexivity.
  - reflexivity.
  - reflexivity.
Defined.

Lemma fresh_instance_is_unloaded_witness :
  get_system_stats (self (Demo.fresh Demo.E)) = StatsNotLoaded /\
  @retrieve_documents Demo.E "bullish market" None "hybrid" false
    (Demo.fresh Demo.E) =
  (inl NotLoadedError, Demo.fresh Demo.E).
Proof.
  destruct (@fresh_instance_is_unloaded Demo.E None
              (Demo.world0 Demo.kb_disk))
    as (_ & _ & _ & _ & _ & Hstats & Hquery).
  - vm_compute. reflexivity.
  - split; [exact Hstats | apply Hquery].
Defined.

Lemma failed_build_reports_loaded_witness :
  let w' := (@build_retrieval_system Demo.E_picky None
               (Demo.fresh Demo.E_picky)).2 in
  (exists cfg cache_size sources text_length,
     get_system_stats (self w') =
     StatsLoaded 2 cfg cache_size sources text_length) /\
  @retrieve_documents Demo.E_picky "bullish market" None "hybrid" false w' =
  (inl NotLoadedError, w').
Proof.
  destruct (@failed_build_reports_loaded Demo.E_picky
              (Demo.fresh Demo.E_picky) None
              {| model := "text-embedding-3-small";
                 openai_api_key := "sk-test"; openai_api_base := None |}
              [[Demo.chunk_a; Demo.chunk_b]] Demo.chunk_b
              "Request timed out")
    as (Hstats & Hquery).
  - split; vm_compute; reflexivity.
  - vm_compute. reflexivity.
  - vm_compute. reflexivity.
  - simpl. right. left.
  - vm_compute. reflexivity.
  - vm_compute. reflexivity.
  - split; [exact Hstats | apply Hquery].
Defined.

Lemma process_single_pdf_keeps_nonblank_witness :
  page_content <$> @process_single_pdf Demo.E Demo.guide Demo.three_pieces =
  ["alpha beta"; "gamma"]%string.
Proof.
  destruct (@process_single_pdf_keeps_nonblank Demo.E Demo.guide
              Demo.three_pieces ["alpha beta"; "  "; "gamma"]%string)
    as (Hcontents & _).
  - vm_compute. reflexivity.
  - reflexivity.
  - rewrite Hcontents. vm_compute. reflexivity.
Defined.

Lemma process_single_pdf_positions_witness :
  exists i,
    ["alpha beta"; "  "; "gamma"]%string !! i = Some "gamma"%string /\
    PyStr.dict_get
      (metadata (make_chunk Demo.guide
                   (extract_text_from_pdf Demo.guide).2
                   (@md5 Demo.E (extract_text_from_pdf Demo.guide).1)
                   3 2 "gamma"))
      "chunk_index" "" = PyStr.str_of_nat i.
Proof.
  destruct (@process_single_pdf_positions Demo.E Demo.guide
              Demo.three_pieces ["alpha beta"; "  "; "gamma"]%string
              (make_chunk Demo.guide (extract_text_from_pdf Demo.guide).2
                 (@md5 Demo.E (extract_text_from_pdf Demo.guide).1)
                 3 2 "gamma"))
    as (i & Hi & Hidx & _).
  - vm_compute. reflexivity.
  - reflexivity.
  - vm_compute. right. left.
  - exists i. split; [exact Hi | exact Hidx].
Defined.

Lemma process_single_pdf_nothing_witness :
  @process_single_pdf Demo.E
    {| pdf_name := "scan.pdf"; pdf_stem := "scan"; st_size := 10;
       st_ctime := 0; pdf_pages := inl RuntimeError |}
    Demo.three_pieces = [].
Proof.
  apply (@process_single_pdf_nothing Demo.E).
  left. eexists. reflexivity.
Defined.

(** A build over a knowledge base whose only PDF yields no chunk. *)
Lemma build_rejects_empty_input_witness :
  @build_retrieval_system Demo.E None (Demo.world0 Demo.blank_disk) =
  (inl (ValueError "No documents were successfully processed"),
   tick (Demo.world0 Demo.blank_disk)).
Proof.
  pose proof (@build_rejects_empty_input Demo.E None
                (Demo.world0 Demo.blank_disk)) as Hb.
  vm_compute in Hb. vm_compute. apply Hb. reflexivity.
Defined.

(** The statistics of the built knowledge base: two chunks, an empty cache. *)
Lemma system_stats_report_witness :
  exists cfg sources text_length,
    get_system_stats (self Demo.built) =
      StatsLoaded 2 cfg 0 sources text_length.
Proof.
  destruct (get_system_stats (self Demo.built))
    as [|total cfg cache_size sources text_length] eqn:Hs.
  - vm_compute in Hs. discriminate Hs.
  - destruct (@system_stats_report Demo.E Demo.built) as [_ Hl].
    destruct (Hl _ _ _ _ _ Hs) as (Ht & _ & _ & Hc).
    rewrite (Hc built_reachable). rewrite Ht.
    exists cfg, sources, text_length. reflexivity.
Defined.

(** The configuration that construction accepted (overlap 2000 over chunks
    of 1000, no worker) is refused by the build, which leaves the fresh
    instance as it was. *)
Lemma build_rejects_invalid_chunking_witness :
  let w :=
    (@TradingKnowledgeRetriever_init Demo.E (Some Demo.bad_config)
       (Demo.world0 Demo.kb_disk)).2 in
  exists msg,
    @build_retrieval_system Demo.E None w = (inl (ValueError msg), tick w).
Proof.
  apply (@build_rejects_invalid_chunking Demo.E None
           (@TradingKnowledgeRetriever_init Demo.E (Some Demo.bad_config)
              (Demo.world0 Demo.kb_disk)).2
           [[Demo.chunk_a; Demo.chunk_b]]).
  - vm_compute. reflexivity.
  - discriminate.
  - left. vm_compute. reflexivity.
Defined.
